(** * Permission domain: repository, services and the authorization check

    A shallow embedding of [lib/domains/permission] (types, repository and
    service layers) of the special-risk-allowance workflow application.

    The store behind the Prisma client is modelled as a record of tables,
    each table a list of rows in storage order.  A repository call that
    reads returns a value computed from the tables; a call that writes
    returns the new tables.  The clock ([new Date()]) and the identifier
    the store gives to a fresh row are explicit arguments.  Timestamps are
    integers (milliseconds).  The columns [created_at] and [updated_at],
    which no function of this domain reads, are left out of the rows.

    Conventions of the client that the functions rely on: in the [data]
    of an update a field that is [undefined] leaves its column as it is;
    [findFirst] returns the first matching row.  Where a query asks for
    no order, the model answers with the rows in storage order, which is
    one of the orders the store may answer in: what is proved of such a
    list beyond its members holds of that order.  Foreign keys are
    followed where the queries follow them (the role of an assignment,
    the permission of a grant) and where the migration makes a delete
    cascade or set a column to null.

    The refusals of the store make a call throw, which a service without
    [try] passes on as the outcome [Rejected]: a write to a row that is
    not there, a second row under a unique code, a parent that is not a
    role, a level outside the range of the column INTEGER, a grant whose
    role or permission does not exist, and a new assignment whose user,
    role or department does not exist.  Of the tables of users and
    departments the model has the ids only.  A level is a whole number,
    as the column is; strings are strings of ASCII characters. *)

From Stdlib Require Import String Ascii List ZArith Bool Lia Permutation.
Import ListNotations.
Open Scope string_scope.
Open Scope list_scope.
Open Scope Z_scope.

(* ------------------------------------------------------------------ *)
(** ** Enumerations (PermissionResource, PermissionAction, PermissionScope) *)

Module Resource.
Inductive t : Type :=
  | USER | DEPARTMENT | ROLE | PERMISSION | EXPENSE_CLAIM | OFF_SITE_WORK
  | MONTHLY_REQUEST | SIGNATURE | FILE | ACTION_LOG | SYSTEM.

Definition eq_dec (a b : t) : {a = b} + {a <> b}.
Proof. decide equality. Defined.

Definition eqb (a b : t) : bool := if eq_dec a b then true else false.

(** The string a value of the enum is at run time. *)
Definition name (r : t) : string :=
  match r with
  | USER => "USER" | DEPARTMENT => "DEPARTMENT" | ROLE => "ROLE"
  | PERMISSION => "PERMISSION" | EXPENSE_CLAIM => "EXPENSE_CLAIM"
  | OFF_SITE_WORK => "OFF_SITE_WORK" | MONTHLY_REQUEST => "MONTHLY_REQUEST"
  | SIGNATURE => "SIGNATURE" | FILE => "FILE" | ACTION_LOG => "ACTION_LOG"
  | SYSTEM => "SYSTEM"
  end.
End Resource.

Module Action.
Inductive t : Type :=
  | CREATE | READ | UPDATE | DELETE | LIST | EXPORT | IMPORT | APPROVE
  | REJECT | SUBMIT | CANCEL | MANAGE.

Definition eq_dec (a b : t) : {a = b} + {a <> b}.
Proof. decide equality. Defined.

Definition eqb (a b : t) : bool := if eq_dec a b then true else false.

Definition name (a : t) : string :=
  match a with
  | CREATE => "CREATE" | READ => "READ" | UPDATE => "UPDATE"
  | DELETE => "DELETE" | LIST => "LIST" | EXPORT => "EXPORT"
  | IMPORT => "IMPORT" | APPROVE => "APPROVE" | REJECT => "REJECT"
  | SUBMIT => "SUBMIT" | CANCEL => "CANCEL" | MANAGE => "MANAGE"
  end.
End Action.

Module Scope.
Inductive t : Type := OWN | DEPARTMENT | ALL.

Definition eq_dec (a b : t) : {a = b} + {a <> b}.
Proof. decide equality. Defined.

Definition eqb (a b : t) : bool := if eq_dec a b then true else false.
End Scope.

(* ------------------------------------------------------------------ *)
(** ** Strings and optional values as the code uses them *)

(** Strings are strings of bytes.  They stand for the JavaScript strings
    of ASCII characters ([isAscii]); the case conversions below are the
    ones of JavaScript on such strings only: outside ASCII JavaScript
    converts further letters and may change the length of the string. *)
Definition isAscii_ascii (c : ascii) : bool := Nat.ltb (nat_of_ascii c) 128.

Fixpoint isAscii (s : string) : bool :=
  match s with
  | EmptyString => true
  | String c rest => isAscii_ascii c && isAscii rest
  end.

(** [String.prototype.toLowerCase] on the ASCII range. *)
Definition toLowerCase_ascii (c : ascii) : ascii :=
  let n := nat_of_ascii c in
  if (Nat.leb 65 n && Nat.leb n 90)%bool then ascii_of_nat (n + 32) else c.

Fixpoint toLowerCase (s : string) : string :=
  match s with
  | EmptyString => EmptyString
  | String c rest => String (toLowerCase_ascii c) (toLowerCase rest)
  end.

(** Truthiness of an optional string: [undefined] and the empty string are
    falsy. *)
Definition truthy (o : option string) : bool :=
  match o with
  | Some s => negb (s =? "")%string
  | None => false
  end.

(** A whole number the column type INTEGER of the store holds; the store
    refuses a number outside this range. *)
Definition int4 (z : Z) : bool :=
  (-2147483648 <=? z) && (z <=? 2147483647).

(** [o || d] on an optional string. *)
Definition or_else (o : option string) (d : string) : string :=
  match o with
  | Some s => if (s =? "")%string then d else s
  | None => d
  end.

(** Equality on a nullable text column. *)
Definition opt_string_eqb (a b : option string) : bool :=
  match a, b with
  | Some x, Some y => (x =? y)%string
  | None, None => true
  | _, _ => false
  end.

(* ------------------------------------------------------------------ *)
(** ** Entities (types.ts) and tables *)

Record PermissionEntity : Type := {
  perm_id : string;
  perm_code : string;
  perm_name : string;
  perm_description : option string;
  perm_resource : Resource.t;
  perm_action : Action.t;
  perm_scope : Scope.t;
  perm_isActive : bool;
  perm_isSystem : bool
}.

Record RoleEntity : Type := {
  role_id : string;
  role_code : string;
  role_name : string;
  role_description : option string;
  role_level : Z;
  role_parentRoleId : option string;
  role_isActive : bool;
  role_isSystem : bool
}.

(** A row of [role_permissions]. *)
Record RolePermission : Type := {
  rp_id : string;
  rp_roleId : string;
  rp_permissionId : string;
  rp_grantedById : option string;
  rp_grantedAt : Z
}.

Record UserRoleEntity : Type := {
  ur_id : string;
  ur_userId : string;
  ur_roleId : string;
  ur_departmentId : option string;
  ur_assignedById : option string;
  ur_assignedAt : Z;
  ur_expiresAt : option Z;
  ur_isActive : bool
}.

(** The tables.  Of the tables [users] and [departments] this domain
    uses the ids only, as the targets of the foreign keys of
    [user_roles]. *)
Record Database : Type := {
  permissions : list PermissionEntity;
  roles : list RoleEntity;
  rolePermissions : list RolePermission;
  userRoles : list UserRoleEntity;
  users : list string;
  departments : list string
}.

(** [RoleWithPermissions]: the role row with the permissions joined in. *)
Record RoleWithPermissions : Type := {
  rwp_role : RoleEntity;
  rwp_permissions : list PermissionEntity
}.

(** [UserRoleWithDetails], without the department summary, which the
    domain only passes on to the pages. *)
Record UserRoleWithDetails : Type := {
  urd_userRole : UserRoleEntity;
  urd_role : RoleWithPermissions
}.

(** Input types.  An optional field is [None] when the caller leaves it
    [undefined]. *)
Record UpdatePermissionInput : Type := {
  upd_name : option string;
  upd_description : option string;
  upd_scope : option Scope.t;
  upd_isActive : option bool
}.

Record AssignRoleInput : Type := {
  asg_userId : string;
  asg_roleId : string;
  asg_departmentId : option string;
  asg_assignedById : option string;
  asg_expiresAt : option Z
}.

Record GrantPermissionInput : Type := {
  grant_roleId : string;
  grant_permissionId : string;
  grant_grantedById : option string
}.

Record CreatePermissionInput : Type := {
  cpi_code : string;
  cpi_name : string;
  cpi_description : option string;
  cpi_resource : Resource.t;
  cpi_action : Action.t;
  cpi_scope : option Scope.t;
  cpi_isSystem : option bool
}.

Record CreateRoleInput : Type := {
  cri_code : string;
  cri_name : string;
  cri_description : option string;
  cri_level : option Z;
  cri_parentRoleId : option string;
  cri_isSystem : option bool
}.

(** [parentRoleId?: string | null]: left out, [null], or an id. *)
Record UpdateRoleInput : Type := {
  uri_name : option string;
  uri_description : option string;
  uri_level : option Z;
  uri_parentRoleId : option (option string);
  uri_isActive : option bool
}.

Record PermissionCheckRequest : Type := {
  req_userId : string;
  req_resource : Resource.t;
  req_action : Action.t;
  req_targetDepartmentId : option string;
  req_targetOwnerId : option string
}.

Record PermissionCheckResult : Type := {
  allowed : bool;
  reason : option string;
  matchedPermission : option PermissionEntity;
  effectiveScope : option Scope.t
}.

(** [Result<T>] of shared/types/result.ts with its two constructors,
    [success(data, message)] and [error(errorMessage, code)]. *)
Inductive Result (A : Type) : Type :=
  | success (data : A) (message : option string)
  | error (errorMessage : string) (code : string).
Arguments success {A} data message.
Arguments error {A} errorMessage code.

(** What awaiting a service call gives: the value the call returns, or
    the rejection of a store call that found no row to write. *)
Inductive Outcome (A : Type) : Type :=
  | Returned (a : A)
  | Rejected.
Arguments Returned {A} a.
Arguments Rejected {A}.

(* ------------------------------------------------------------------ *)
(** ** Table updates *)

Definition with_permissions (db : Database) (ps : list PermissionEntity) : Database :=
  {| permissions := ps; roles := roles db;
     rolePermissions := rolePermissions db; userRoles := userRoles db;
     users := users db; departments := departments db |}.

Definition with_rolePermissions (db : Database) (rps : list RolePermission) : Database :=
  {| permissions := permissions db; roles := roles db;
     rolePermissions := rps; userRoles := userRoles db;
     users := users db; departments := departments db |}.

Definition with_userRoles (db : Database) (urs : list UserRoleEntity) : Database :=
  {| permissions := permissions db; roles := roles db;
     rolePermissions := rolePermissions db; userRoles := urs;
     users := users db; departments := departments db |}.

(* ------------------------------------------------------------------ *)
(** ** Query conditions and insertion-ordered maps *)

(** Conditions of a [where] object on [user_roles]. *)
Definition expiresAt_null (r : UserRoleEntity) : bool :=
  match ur_expiresAt r with None => true | Some _ => false end.

Definition expiresAt_gt (now : Z) (r : UserRoleEntity) : bool :=
  match ur_expiresAt r with None => false | Some e => now <? e end.

Definition departmentId_null (r : UserRoleEntity) : bool :=
  match ur_departmentId r with None => true | Some _ => false end.

Definition departmentId_is (d : string) (r : UserRoleEntity) : bool :=
  match ur_departmentId r with None => false | Some x => (x =? d)%string end.

(** An object with several fields holds when all of them hold. *)
Definition both (c1 c2 : UserRoleEntity -> bool) (r : UserRoleEntity) : bool :=
  c1 r && c2 r.

(** [OR: [c1, ..., cn]]. *)
Definition OR (cs : list (UserRoleEntity -> bool)) (r : UserRoleEntity) : bool :=
  existsb (fun c => c r) cs.

(** A JavaScript [Map] with string keys: the entries in insertion order;
    [set] on a key already present replaces the value where it stands. *)
Module JsMap.
Definition t (V : Type) : Type := list (string * V).

Definition has {V} (m : t V) (k : string) : bool :=
  existsb (fun kv => (fst kv =? k)%string) m.

Definition get {V} (m : t V) (k : string) : option V :=
  option_map snd (find (fun kv => (fst kv =? k)%string) m).

Definition set {V} (m : t V) (k : string) (v : V) : t V :=
  if has m k
  then map (fun kv => if (fst kv =? k)%string then (k, v) else kv) m
  else m ++ [(k, v)].

Definition values {V} (m : t V) : list V := map snd m.
End JsMap.

(** A JavaScript [Set] of strings. *)
Module JsSet.
Definition t : Type := list string.

Definition has (s : t) (k : string) : bool :=
  existsb (fun x => (x =? k)%string) s.

Definition add (s : t) (k : string) : t :=
  if has s k then s else s ++ [k].
End JsSet.

(** [Array.prototype.sort] with a comparator: the sort is stable, an
    element moves behind another only when the comparator puts it
    strictly after. *)
Section Sort.
Context {A : Type} (cmp : A -> A -> Z).

Fixpoint sort_insert (x : A) (l : list A) : list A :=
  match l with
  | [] => [x]
  | y :: l' => if cmp y x <? 0 then y :: sort_insert x l' else x :: y :: l'
  end.

Fixpoint sort (l : list A) : list A :=
  match l with
  | [] => []
  | x :: l' => sort_insert x (sort l')
  end.
End Sort.

(** Rows inserted by one [createMany] call are numbered in input order;
    the store gives the row at position [i] the id [newId i]. *)
Definition indexed {A : Type} (l : list A) : list (nat * A) :=
  combine (seq 0 (length l)) l.

(** No string occurs twice. *)
Fixpoint distinct (l : list string) : bool :=
  match l with
  | [] => true
  | x :: l' => negb (existsb (fun y => (y =? x)%string) l') && distinct l'
  end.

(* ------------------------------------------------------------------ *)
(** ** Repository layer (repository.ts) *)

(** The relations a query follows: the role of an assignment and the
    permission of a grant, by foreign key. *)
Definition role_of (db : Database) (roleId : string) : option RoleEntity :=
  find (fun r => (role_id r =? roleId)%string) (roles db).

Definition permission_of (db : Database) (permissionId : string) : option PermissionEntity :=
  find (fun p => (perm_id p =? permissionId)%string) (permissions db).

(** [role: { isActive: true }] on an assignment. *)
Definition role_isActive_of (db : Database) (r : UserRoleEntity) : bool :=
  match role_of db (ur_roleId r) with
  | Some ro => role_isActive ro
  | None => false
  end.

(** [include: { rolePermissions: { include: { permission: true },
    where: { permission: { isActive: true } } } }]: the grants of a role
    whose permission is active, each with its permission.  The query
    asks for no order; the list has the rows as the table holds them,
    which is one of the orders the store may answer in. *)
Definition include_rolePermissions (db : Database) (roleId : string)
  : list (RolePermission * PermissionEntity) :=
  flat_map
    (fun rp =>
       if (rp_roleId rp =? roleId)%string then
         match permission_of db (rp_permissionId rp) with
         | Some p => if perm_isActive p then [(rp, p)] else []
         | None => []
         end
       else [])
    (rolePermissions db).

Module permissionRepository.

Definition findById (db : Database) (id : string) : option PermissionEntity :=
  find (fun p => (perm_id p =? id)%string) (permissions db).

(** The [data] of an update: a field left [undefined] keeps the value
    stored in the row. *)
Definition applyUpdate (data : UpdatePermissionInput) (p : PermissionEntity)
  : PermissionEntity :=
  {| perm_id := perm_id p;
     perm_code := perm_code p;
     perm_name := match upd_name data with Some n => n | None => perm_name p end;
     perm_description :=
       match upd_description data with Some d => Some d | None => perm_description p end;
     perm_resource := perm_resource p;
     perm_action := perm_action p;
     perm_scope := match upd_scope data with Some s => s | None => perm_scope p end;
     perm_isActive :=
       match upd_isActive data with Some b => b | None => perm_isActive p end;
     perm_isSystem := perm_isSystem p |}.

(** [prisma.permission.update({ where: { id }, data })]; [None] when no
    row has the id (the call rejects). *)
Definition update (db : Database) (id : string) (data : UpdatePermissionInput)
  : option (PermissionEntity * Database) :=
  match findById db id with
  | None => None
  | Some p =>
      Some (applyUpdate data p,
            with_permissions db
              (map (fun q => if (perm_id q =? id)%string then applyUpdate data q else q)
                   (permissions db)))
  end.

Definition deactivate (db : Database) (id : string)
  : option (PermissionEntity * Database) :=
  update db id
    {| upd_name := None; upd_description := None; upd_scope := None;
       upd_isActive := Some false |}.

(** [prisma.permission.delete({ where: { id, isSystem: false } })]; the
    grants of the permission go with it ([ON DELETE CASCADE] on
    [role_permissions.permission_id]).  [None] when no row matches. *)
Definition delete (db : Database) (id : string) : option Database :=
  match find (fun p => (perm_id p =? id)%string && negb (perm_isSystem p))
             (permissions db) with
  | None => None
  | Some _ =>
      Some {| permissions :=
                filter (fun p => negb ((perm_id p =? id)%string && negb (perm_isSystem p)))
                       (permissions db);
              roles := roles db;
              rolePermissions :=
                filter (fun rp => negb (rp_permissionId rp =? id)%string)
                       (rolePermissions db);
              userRoles := userRoles db;
              users := users db; departments := departments db |}
  end.

Definition findByCode (db : Database) (code : string) : option PermissionEntity :=
  find (fun p => (perm_code p =? code)%string) (permissions db).

(** The row [create] and [createMany] write for an input: [scope]
    defaults to OWN and [isSystem] to false; [is_active] takes its column
    default. *)
Definition row (data : CreatePermissionInput) (newId : string) : PermissionEntity :=
  {| perm_id := newId;
     perm_code := cpi_code data;
     perm_name := cpi_name data;
     perm_description := cpi_description data;
     perm_resource := cpi_resource data;
     perm_action := cpi_action data;
     perm_scope := match cpi_scope data with Some s => s | None => Scope.OWN end;
     perm_isActive := true;
     perm_isSystem := match cpi_isSystem data with Some b => b | None => false end |}.

(** [prisma.permission.create]; [None] when the unique index on [code]
    refuses the row. *)
Definition create (db : Database) (data : CreatePermissionInput) (newId : string)
  : option (PermissionEntity * Database) :=
  match findByCode db (cpi_code data) with
  | Some _ => None
  | None =>
      Some (row data newId,
            with_permissions db (permissions db ++ [row data newId]))
  end.

(** [prisma.permission.createMany({ data, skipDuplicates: true })]: an
    input whose code is in the table, or was inserted earlier in the
    call, is passed over; the count of inserted rows is returned. *)
Definition createMany (db : Database) (inputs : list CreatePermissionInput)
    (newId : nat -> string) : nat * Database :=
  fold_left
    (fun (st : nat * Database) (ip : nat * CreatePermissionInput) =>
       match findByCode (snd st) (cpi_code (snd ip)) with
       | Some _ => st
       | None =>
           (S (fst st),
            with_permissions (snd st)
              (permissions (snd st) ++ [row (snd ip) (newId (fst ip))]))
       end)
    (indexed inputs) (0%nat, db).

End permissionRepository.

Module roleRepository.

Definition findById (db : Database) (id : string) : option RoleEntity :=
  find (fun r => (role_id r =? id)%string) (roles db).

(** The compound unique key [roleId_permissionId]. *)
Definition roleId_permissionId (roleId permissionId : string) (rp : RolePermission) : bool :=
  (rp_roleId rp =? roleId)%string && (rp_permissionId rp =? permissionId)%string.

(** [prisma.rolePermission.upsert]: with a row under the key, [update: {}]
    writes nothing; without one, the row is created ([granted_at] defaults
    to the current time), unless a foreign key of the new row refuses it:
    [None] when the store has no role or no permission with the id. *)
Definition grantPermission (db : Database) (data : GrantPermissionInput)
    (now : Z) (newId : string) : option Database :=
  match find (roleId_permissionId (grant_roleId data) (grant_permissionId data))
             (rolePermissions db) with
  | Some _ => Some db
  | None =>
      match findById db (grant_roleId data),
            permission_of db (grant_permissionId data) with
      | Some _, Some _ =>
          Some (with_rolePermissions db
                  (rolePermissions db ++
                     [{| rp_id := newId;
                         rp_roleId := grant_roleId data;
                         rp_permissionId := grant_permissionId data;
                         rp_grantedById := grant_grantedById data;
                         rp_grantedAt := now |}]))
      | _, _ => None
      end
  end.

(** [prisma.rolePermission.deleteMany({ where: { roleId, permissionId } })]. *)
Definition revokePermission (db : Database) (roleId permissionId : string) : Database :=
  with_rolePermissions db
    (filter (fun rp => negb (roleId_permissionId roleId permissionId rp))
            (rolePermissions db)).

Definition findByCode (db : Database) (code : string) : option RoleEntity :=
  find (fun r => (role_code r =? code)%string) (roles db).

(** [findWithPermissions]: the role with the permissions of its grants
    that are active. *)
Definition findWithPermissions (db : Database) (id : string) : option RoleWithPermissions :=
  match findById db id with
  | None => None
  | Some role =>
      Some {| rwp_role := role;
              rwp_permissions := map snd (include_rolePermissions db id) |}
  end.

(** [getPermissions]: the permissions of all grants of the role. *)
Definition getPermissions (db : Database) (roleId : string) : list PermissionEntity :=
  flat_map
    (fun rp =>
       if (rp_roleId rp =? roleId)%string then
         match permission_of db (rp_permissionId rp) with
         | Some p => [p]
         | None => []
         end
       else [])
    (rolePermissions db).

Definition with_roles (db : Database) (rs : list RoleEntity) : Database :=
  {| permissions := permissions db; roles := rs;
     rolePermissions := rolePermissions db; userRoles := userRoles db;
     users := users db; departments := departments db |}.

(** The row [create] writes: [level] defaults to 0, [isSystem] to false,
    a parent left out is stored as null. *)
Definition row (data : CreateRoleInput) (newId : string) : RoleEntity :=
  {| role_id := newId;
     role_code := cri_code data;
     role_name := cri_name data;
     role_description := cri_description data;
     role_level := match cri_level data with Some l => l | None => 0 end;
     role_parentRoleId := cri_parentRoleId data;
     role_isActive := true;
     role_isSystem := match cri_isSystem data with Some b => b | None => false end |}.

(** A parent reference the foreign key on [parent_role_id] accepts. *)
Definition parentAccepted (db : Database) (parent : option string) : bool :=
  match parent with
  | None => true
  | Some p => match findById db p with Some _ => true | None => false end
  end.

(** [prisma.role.create]; [None] when the unique index on [code] or the
    foreign key on [parent_role_id] refuses the row, or the level does
    not fit the column [level INTEGER]. *)
Definition create (db : Database) (data : CreateRoleInput) (newId : string)
  : option (RoleEntity * Database) :=
  match findByCode db (cri_code data) with
  | Some _ => None
  | None =>
      if parentAccepted db (cri_parentRoleId data)
         && int4 (role_level (row data newId))
      then Some (row data newId, with_roles db (roles db ++ [row data newId]))
      else None
  end.

Definition applyUpdate (data : UpdateRoleInput) (r : RoleEntity) : RoleEntity :=
  {| role_id := role_id r;
     role_code := role_code r;
     role_name := match uri_name data with Some n => n | None => role_name r end;
     role_description :=
       match uri_description data with Some d => Some d | None => role_description r end;
     role_level := match uri_level data with Some l => l | None => role_level r end;
     role_parentRoleId :=
       match uri_parentRoleId data with Some p => p | None => role_parentRoleId r end;
     role_isActive :=
       match uri_isActive data with Some b => b | None => role_isActive r end;
     role_isSystem := role_isSystem r |}.

(** [prisma.role.update({ where: { id }, data })]; [None] when no row has
    the id, the foreign key refuses the new parent, or the new level does
    not fit the column. *)
Definition update (db : Database) (id : string) (data : UpdateRoleInput)
  : option (RoleEntity * Database) :=
  match findById db id with
  | None => None
  | Some r =>
      if match uri_parentRoleId data with
         | Some parent => parentAccepted db parent
         | None => true
         end
         && match uri_level data with
            | Some level => int4 level
            | None => true
            end
      then
        Some (applyUpdate data r,
              with_roles db
                (map (fun q => if (role_id q =? id)%string then applyUpdate data q else q)
                     (roles db)))
      else None
  end.

Definition deactivate (db : Database) (id : string) : option (RoleEntity * Database) :=
  update db id
    {| uri_name := None; uri_description := None; uri_level := None;
       uri_parentRoleId := None; uri_isActive := Some false |}.

(** A role whose parent is deleted has its [parent_role_id] set to null. *)
Definition orphaned (id : string) (r : RoleEntity) : RoleEntity :=
  {| role_id := role_id r;
     role_code := role_code r;
     role_name := role_name r;
     role_description := role_description r;
     role_level := role_level r;
     role_parentRoleId :=
       match role_parentRoleId r with
       | Some p => if (p =? id)%string then None else Some p
       | None => None
       end;
     role_isActive := role_isActive r;
     role_isSystem := role_isSystem r |}.

(** [prisma.role.delete({ where: { id, isSystem: false } })]; the grants
    and the assignments of the role go with it ([ON DELETE CASCADE]) and
    its children lose their parent ([ON DELETE SET NULL]).  [None] when
    no row matches. *)
Definition delete (db : Database) (id : string) : option Database :=
  match find (fun r => (role_id r =? id)%string && negb (role_isSystem r)) (roles db) with
  | None => None
  | Some _ =>
      Some {| permissions := permissions db;
              roles :=
                map (orphaned id)
                    (filter (fun r => negb ((role_id r =? id)%string
                                            && negb (role_isSystem r)))
                            (roles db));
              rolePermissions :=
                filter (fun rp => negb (rp_roleId rp =? id)%string) (rolePermissions db);
              userRoles :=
                filter (fun ur => negb (ur_roleId ur =? id)%string) (userRoles db);
              users := users db; departments := departments db |}
  end.

(** [setPermissions]: one transaction that deletes the grants of the
    role and creates one grant per id.  [createMany] has no
    [skipDuplicates] here: an id given twice (unique index on role and
    permission) or a role or permission the store does not have (foreign
    keys) makes the transaction fail, and nothing is written ([None]). *)
Definition setPermissions (db : Database) (roleId : string)
    (permissionIds : list string) (grantedById : option string)
    (now : Z) (newId : nat -> string) : option Database :=
  if distinct permissionIds
     && forallb
          (fun permissionId =>
             match findById db roleId, permission_of db permissionId with
             | Some _, Some _ => true
             | _, _ => false
             end)
          permissionIds
  then
    Some (with_rolePermissions db
            (filter (fun rp => negb (rp_roleId rp =? roleId)%string) (rolePermissions db)
             ++ map (fun ip =>
                       {| rp_id := newId (fst ip);
                          rp_roleId := roleId;
                          rp_permissionId := snd ip;
                          rp_grantedById := grantedById;
                          rp_grantedAt := now |})
                    (indexed permissionIds)))
  else None.

End roleRepository.

Module userRoleRepository.

(** [where: { userId, roleId, departmentId: departmentId ?? null }]. *)
Definition sameAssignment (userId roleId : string) (departmentId : option string)
    (r : UserRoleEntity) : bool :=
  (ur_userId r =? userId)%string && (ur_roleId r =? roleId)%string
  && opt_string_eqb (ur_departmentId r) departmentId.

(** The [data] of the update in [assign].  [expiresAt] and [assignedById]
    come from optional fields of the input: where the input leaves one
    [undefined], the update does not touch the column. *)
Definition reactivate (data : AssignRoleInput) (now : Z) (r : UserRoleEntity)
  : UserRoleEntity :=
  {| ur_id := ur_id r;
     ur_userId := ur_userId r;
     ur_roleId := ur_roleId r;
     ur_departmentId := ur_departmentId r;
     ur_assignedById :=
       match asg_assignedById data with Some a => Some a | None => ur_assignedById r end;
     ur_assignedAt := now;
     ur_expiresAt :=
       match asg_expiresAt data with Some e => Some e | None => ur_expiresAt r end;
     ur_isActive := true |}.

(** The row [assign] creates; [assigned_at] and [is_active] take their
    column defaults. *)
Definition created (data : AssignRoleInput) (now : Z) (newId : string) : UserRoleEntity :=
  {| ur_id := newId;
     ur_userId := asg_userId data;
     ur_roleId := asg_roleId data;
     ur_departmentId := asg_departmentId data;
     ur_assignedById := asg_assignedById data;
     ur_assignedAt := now;
     ur_expiresAt := asg_expiresAt data;
     ur_isActive := true |}.

(** The foreign keys of [user_roles]: [user_id] refers to a user,
    [role_id] to a role and [department_id], when it is not null, to a
    department. *)
Definition referencesKept (db : Database) (data : AssignRoleInput) : bool :=
  existsb (String.eqb (asg_userId data)) (users db)
  && match role_of db (asg_roleId data) with Some _ => true | None => false end
  && match asg_departmentId data with
     | Some departmentId => existsb (String.eqb departmentId) (departments db)
     | None => true
     end.

(** [assign]: the update of an existing row touches no key column and is
    always accepted (the row is rewritten where the table holds it); the
    store refuses the [create] of a row whose user, role or department
    does not exist (the call throws, [None]). *)
Definition assign (db : Database) (data : AssignRoleInput) (now : Z) (newId : string)
  : option (UserRoleEntity * Database) :=
  match find (sameAssignment (asg_userId data) (asg_roleId data) (asg_departmentId data))
             (userRoles db) with
  | Some existing =>
      Some (reactivate data now existing,
            with_userRoles db
              (map (fun r => if (ur_id r =? ur_id existing)%string
                             then reactivate data now r else r)
                   (userRoles db)))
  | None =>
      if referencesKept db data
      then Some (created data now newId,
                 with_userRoles db (userRoles db ++ [created data now newId]))
      else None
  end.

Definition deactivated (r : UserRoleEntity) : UserRoleEntity :=
  {| ur_id := ur_id r;
     ur_userId := ur_userId r;
     ur_roleId := ur_roleId r;
     ur_departmentId := ur_departmentId r;
     ur_assignedById := ur_assignedById r;
     ur_assignedAt := ur_assignedAt r;
     ur_expiresAt := ur_expiresAt r;
     ur_isActive := false |}.

(** [prisma.userRole.updateMany] on the rows of the triple. *)
Definition revoke (db : Database) (userId roleId : string) (departmentId : option string)
  : Database :=
  with_userRoles db
    (map (fun r => if sameAssignment userId roleId departmentId r
                   then deactivated r else r)
         (userRoles db)).

(** The role of an assignment with its active permissions joined in. *)
Definition include_role (db : Database) (ur : UserRoleEntity) : option RoleWithPermissions :=
  match role_of db (ur_roleId ur) with
  | Some ro =>
      Some {| rwp_role := ro;
              rwp_permissions := map snd (include_rolePermissions db (role_id ro)) |}
  | None => None
  end.

Definition getUserRoles (db : Database) (userId : string) (now : Z)
  : list UserRoleWithDetails :=
  let userRoles_ :=
    filter (fun r => (ur_userId r =? userId)%string && ur_isActive r
                     && OR [expiresAt_null; expiresAt_gt now] r)
           (userRoles db) in
  flat_map
    (fun ur =>
       match include_role db ur with
       | Some ro =>
           if role_isActive (rwp_role ro)
           then [{| urd_userRole := ur; urd_role := ro |}]
           else []
       | None => []
       end)
    userRoles_.

(** The [where] object of [hasRole].  The literal gives [OR] the expiry
    alternatives and then spreads an object that, when [departmentId] is
    not [undefined], has an [OR] key of its own: the later key replaces
    the earlier one. *)
Definition hasRole_OR (departmentId : option string) (now : Z)
  : list (UserRoleEntity -> bool) :=
  match departmentId with
  | Some d => [departmentId_is d; departmentId_null]
  | None => [expiresAt_null; expiresAt_gt now]
  end.

Definition hasRole (db : Database) (userId roleCode : string)
    (departmentId : option string) (now : Z) : bool :=
  let count :=
    length
      (filter
         (fun r =>
            (ur_userId r =? userId)%string
            && match role_of db (ur_roleId r) with
               | Some ro => (role_code ro =? roleCode)%string && role_isActive ro
               | None => false
               end
            && ur_isActive r
            && OR (hasRole_OR departmentId now) r)
         (userRoles db)) in
  Nat.ltb 0 count.

(** [whereUserRole] of [getAllUserPermissions]: [OR] is reassigned when
    [departmentId] is truthy. *)
Definition whereUserRole_OR (departmentId : option string) (now : Z)
  : list (UserRoleEntity -> bool) :=
  match departmentId with
  | Some d =>
      if truthy departmentId then
        [both departmentId_null expiresAt_null;
         both departmentId_null (expiresAt_gt now);
         both (departmentId_is d) expiresAt_null;
         both (departmentId_is d) (expiresAt_gt now)]
      else [expiresAt_null; expiresAt_gt now]
  | None => [expiresAt_null; expiresAt_gt now]
  end.

Definition whereUserRole (db : Database) (userId : string)
    (departmentId : option string) (now : Z) (r : UserRoleEntity) : bool :=
  (ur_userId r =? userId)%string && ur_isActive r && role_isActive_of db r
  && OR (whereUserRole_OR departmentId now) r.

(** The inner loop: a permission enters the map under its id unless the
    id is there already. *)
Definition collect (permissionMap : JsMap.t PermissionEntity)
    (rps : list (RolePermission * PermissionEntity)) : JsMap.t PermissionEntity :=
  fold_left
    (fun m rp =>
       if negb (JsMap.has m (perm_id (snd rp)))
       then JsMap.set m (perm_id (snd rp)) (snd rp)
       else m)
    rps permissionMap.

Definition getAllUserPermissions (db : Database) (userId : string)
    (departmentId : option string) (now : Z) : list PermissionEntity :=
  let userRoles_ := filter (whereUserRole db userId departmentId now) (userRoles db) in
  let permissionMap :=
    fold_left
      (fun m userRole => collect m (include_rolePermissions db (ur_roleId userRole)))
      userRoles_ [] in
  JsMap.values permissionMap.

(** [getUsersByRole]: a department, when given, must be the row's own. *)
Definition getUsersByRole (db : Database) (roleId : string)
    (departmentId : option string) (now : Z) : list UserRoleEntity :=
  filter
    (fun r =>
       (ur_roleId r =? roleId)%string && ur_isActive r
       && OR [expiresAt_null; expiresAt_gt now] r
       && match departmentId with
          | Some d => departmentId_is d r
          | None => true
          end)
    (userRoles db).

(** [role: { isActive: true, rolePermissions: { some: { permission:
    { code, isActive: true } } } }]. *)
Definition role_grants_code (db : Database) (permissionCode : string)
    (r : UserRoleEntity) : bool :=
  match role_of db (ur_roleId r) with
  | Some ro =>
      role_isActive ro
      && existsb
           (fun rp =>
              (rp_roleId rp =? role_id ro)%string
              && match permission_of db (rp_permissionId rp) with
                 | Some p => (perm_code p =? permissionCode)%string && perm_isActive p
                 | None => false
                 end)
           (rolePermissions db)
  | None => false
  end.

Definition hasPermission (db : Database) (userId permissionCode : string)
    (departmentId : option string) (now : Z) : bool :=
  let count :=
    length
      (filter
         (fun r =>
            (ur_userId r =? userId)%string && ur_isActive r
            && role_grants_code db permissionCode r
            && OR (whereUserRole_OR departmentId now) r)
         (userRoles db)) in
  Nat.ltb 0 count.

End userRoleRepository.

(* ------------------------------------------------------------------ *)
(** ** Service layer (service.ts) *)

Module permissionService.

Definition update (db : Database) (id : string) (data : UpdatePermissionInput)
  : Outcome (Result PermissionEntity) * Database :=
  match permissionRepository.findById db id with
  | None => (Returned (error "Permission not found" "PERMISSION_NOT_FOUND"), db)
  | Some existing =>
      if perm_isSystem existing
         && match upd_isActive data with Some false => true | _ => false end
      then (Returned (error "System permissions cannot be deactivated" "SYSTEM_PERMISSION"), db)
      else
        match permissionRepository.update db id data with
        | Some (permission, db') =>
            (Returned (success permission (Some "Permission updated successfully")), db')
        | None => (Rejected, db)
        end
  end.

Definition deactivate (db : Database) (id : string)
  : Outcome (Result PermissionEntity) * Database :=
  match permissionRepository.findById db id with
  | None => (Returned (error "Permission not found" "PERMISSION_NOT_FOUND"), db)
  | Some existing =>
      if perm_isSystem existing
      then (Returned (error "System permissions cannot be deactivated" "SYSTEM_PERMISSION"), db)
      else
        match permissionRepository.deactivate db id with
        | Some (permission, db') =>
            (Returned (success permission (Some "Permission deactivated successfully")), db')
        | None => (Rejected, db)
        end
  end.

Definition delete (db : Database) (id : string)
  : Outcome (Result unit) * Database :=
  match permissionRepository.findById db id with
  | None => (Returned (error "Permission not found" "PERMISSION_NOT_FOUND"), db)
  | Some existing =>
      if perm_isSystem existing
      then (Returned (error "System permissions cannot be deleted" "SYSTEM_PERMISSION"), db)
      else
        match permissionRepository.delete db id with
        | Some db' => (Returned (success tt (Some "Permission deleted successfully")), db')
        | None => (Rejected, db)
        end
  end.

Definition getById (db : Database) (id : string) : Result PermissionEntity :=
  match permissionRepository.findById db id with
  | None => error "Permission not found" "PERMISSION_NOT_FOUND"
  | Some permission => success permission None
  end.

Definition getByCode (db : Database) (code : string) : Result PermissionEntity :=
  match permissionRepository.findByCode db code with
  | None => error "Permission not found" "PERMISSION_NOT_FOUND"
  | Some permission => success permission None
  end.

Definition create (db : Database) (data : CreatePermissionInput) (newId : string)
  : Outcome (Result PermissionEntity) * Database :=
  match permissionRepository.findByCode db (cpi_code data) with
  | Some _ =>
      (Returned (error "Permission code already exists" "PERMISSION_CODE_EXISTS"), db)
  | None =>
      match permissionRepository.create db data newId with
      | Some (permission, db') =>
          (Returned (success permission (Some "Permission created successfully")), db')
      | None => (Rejected, db)
      end
  end.

(** [createMany]; the message carries the count, which is the data. *)
Definition createMany (db : Database) (inputs : list CreatePermissionInput)
    (newId : nat -> string) : nat * Database :=
  permissionRepository.createMany db inputs newId.

End permissionService.

Module roleService.

Definition grantPermission (db : Database) (data : GrantPermissionInput)
    (now : Z) (newId : string) : Outcome (Result unit) * Database :=
  match roleRepository.findById db (grant_roleId data) with
  | None => (Returned (error "Role not found" "ROLE_NOT_FOUND"), db)
  | Some _ =>
      match permissionRepository.findById db (grant_permissionId data) with
      | None => (Returned (error "Permission not found" "PERMISSION_NOT_FOUND"), db)
      | Some _ =>
          match roleRepository.grantPermission db data now newId with
          | Some db' =>
              (Returned (success tt (Some "Permission granted successfully")), db')
          | None => (Rejected, db)
          end
      end
  end.

Definition revokePermission (db : Database) (roleId permissionId : string)
  : Result unit * Database :=
  match roleRepository.findById db roleId with
  | None => (error "Role not found" "ROLE_NOT_FOUND", db)
  | Some _ =>
      (success tt (Some "Permission revoked successfully"),
       roleRepository.revokePermission db roleId permissionId)
  end.

Definition getById (db : Database) (id : string) : Result RoleEntity :=
  match roleRepository.findById db id with
  | None => error "Role not found" "ROLE_NOT_FOUND"
  | Some role => success role None
  end.

Definition getByCode (db : Database) (code : string) : Result RoleEntity :=
  match roleRepository.findByCode db code with
  | None => error "Role not found" "ROLE_NOT_FOUND"
  | Some role => success role None
  end.

Definition getWithPermissions (db : Database) (id : string) : Result RoleWithPermissions :=
  match roleRepository.findWithPermissions db id with
  | None => error "Role not found" "ROLE_NOT_FOUND"
  | Some role => success role None
  end.

Definition create (db : Database) (data : CreateRoleInput) (newId : string)
  : Outcome (Result RoleEntity) * Database :=
  match roleRepository.findByCode db (cri_code data) with
  | Some _ => (Returned (error "Role code already exists" "ROLE_CODE_EXISTS"), db)
  | None =>
      let parentMissing :=
        match cri_parentRoleId data with
        | Some p =>
            truthy (Some p)
            && match roleRepository.findById db p with
               | None => true
               | Some _ => false
               end
        | None => false
        end in
      if parentMissing
      then (Returned (error "Parent role not found" "PARENT_ROLE_NOT_FOUND"), db)
      else
        match roleRepository.create db data newId with
        | Some (role, db') =>
            (Returned (success role (Some "Role created successfully")), db')
        | None => (Rejected, db)
        end
  end.

(** The parent checks of [update], made when [data.parentRoleId] is
    truthy: the error they end in, if any. *)
Definition parentError (db : Database) (id : string) (data : UpdateRoleInput)
  : option (Result RoleEntity) :=
  match uri_parentRoleId data with
  | Some (Some p) =>
      if truthy (Some p) then
        match roleRepository.findById db p with
        | None => Some (error "Parent role not found" "PARENT_ROLE_NOT_FOUND")
        | Some parentRole =>
            if (role_id parentRole =? id)%string
            then Some (error "Role cannot be its own parent" "INVALID_PARENT_ROLE")
            else None
        end
      else None
  | _ => None
  end.

Definition update (db : Database) (id : string) (data : UpdateRoleInput)
  : Outcome (Result RoleEntity) * Database :=
  match roleRepository.findById db id with
  | None => (Returned (error "Role not found" "ROLE_NOT_FOUND"), db)
  | Some existing =>
      if role_isSystem existing
         && match uri_isActive data with Some false => true | _ => false end
      then (Returned (error "System roles cannot be deactivated" "SYSTEM_ROLE"), db)
      else
        match parentError db id data with
        | Some e => (Returned e, db)
        | None =>
            match roleRepository.update db id data with
            | Some (role, db') =>
                (Returned (success role (Some "Role updated successfully")), db')
            | None => (Rejected, db)
            end
        end
  end.

Definition deactivate (db : Database) (id : string)
  : Outcome (Result RoleEntity) * Database :=
  match roleRepository.findById db id with
  | None => (Returned (error "Role not found" "ROLE_NOT_FOUND"), db)
  | Some existing =>
      if role_isSystem existing
      then (Returned (error "System roles cannot be deactivated" "SYSTEM_ROLE"), db)
      else
        match roleRepository.deactivate db id with
        | Some (role, db') =>
            (Returned (success role (Some "Role deactivated successfully")), db')
        | None => (Rejected, db)
        end
  end.

Definition delete (db : Database) (id : string) : Outcome (Result unit) * Database :=
  match roleRepository.findById db id with
  | None => (Returned (error "Role not found" "ROLE_NOT_FOUND"), db)
  | Some existing =>
      if role_isSystem existing
      then (Returned (error "System roles cannot be deleted" "SYSTEM_ROLE"), db)
      else
        match roleRepository.delete db id with
        | Some db' => (Returned (success tt (Some "Role deleted successfully")), db')
        | None => (Rejected, db)
        end
  end.

Definition getPermissions (db : Database) (roleId : string)
  : Result (list PermissionEntity) :=
  match roleRepository.findById db roleId with
  | None => error "Role not found" "ROLE_NOT_FOUND"
  | Some _ => success (roleRepository.getPermissions db roleId) None
  end.

Definition setPermissions (db : Database) (roleId : string)
    (permissionIds : list string) (grantedById : option string)
    (now : Z) (newId : nat -> string) : Outcome (Result unit) * Database :=
  match roleRepository.findById db roleId with
  | None => (Returned (error "Role not found" "ROLE_NOT_FOUND"), db)
  | Some _ =>
      match roleRepository.setPermissions db roleId permissionIds grantedById now newId with
      | Some db' =>
          (Returned (success tt (Some "Permissions updated successfully")), db')
      | None => (Rejected, db)
      end
  end.

End roleService.

Module authorizationService.

(** [assignRole] has no [try]: when the store refuses the new row the
    call throws ([Rejected]) and nothing is written. *)
Definition assignRole (db : Database) (data : AssignRoleInput) (now : Z) (newId : string)
  : Outcome (Result unit) * Database :=
  match roleRepository.findById db (asg_roleId data) with
  | None => (Returned (error "Role not found" "ROLE_NOT_FOUND"), db)
  | Some role =>
      if negb (role_isActive role)
      then (Returned (error "Cannot assign inactive role" "INACTIVE_ROLE"), db)
      else
        match userRoleRepository.assign db data now newId with
        | Some written =>
            (Returned (success tt (Some "Role assigned successfully")), snd written)
        | None => (Rejected, db)
        end
  end.

Definition revokeRole (db : Database) (userId roleId : string)
    (departmentId : option string) : Result unit * Database :=
  (success tt (Some "Role revoked successfully"),
   userRoleRepository.revoke db userId roleId departmentId).

Definition hasRole (db : Database) (userId roleCode : string)
    (departmentId : option string) (now : Z) : bool :=
  userRoleRepository.hasRole db userId roleCode departmentId now.

(** [UserEffectivePermissions]. *)
Record UserEffectivePermissions : Type := {
  eff_userId : string;
  eff_permissions : list PermissionEntity;
  eff_roles : list RoleWithPermissions;
  eff_departmentRoles : JsMap.t (list RoleWithPermissions);
  eff_computedAt : Z
}.

(** The variables the loop of [getEffectivePermissions] works on. *)
Record Accumulator : Type := {
  acc_permissions : list PermissionEntity;
  acc_roles : list RoleWithPermissions;
  acc_departmentRoles : JsMap.t (list RoleWithPermissions);
  acc_seenPermissionIds : JsSet.t;
  acc_seenRoleIds : JsSet.t
}.

(** The inner loop over [userRole.role.permissions]. *)
Definition addPermissions (ps : list PermissionEntity)
    (st : list PermissionEntity * JsSet.t) : list PermissionEntity * JsSet.t :=
  fold_left
    (fun st permission =>
       if negb (JsSet.has (snd st) (perm_id permission))
       then (fst st ++ [permission], JsSet.add (snd st) (perm_id permission))
       else st)
    ps st.

(** One turn of the outer loop. *)
Definition step (acc : Accumulator) (userRole : UserRoleWithDetails) : Accumulator :=
  let role := urd_role userRole in
  let roleId := role_id (rwp_role role) in
  let newRole := negb (JsSet.has (acc_seenRoleIds acc) roleId) in
  let ps := addPermissions (rwp_permissions role)
              (acc_permissions acc, acc_seenPermissionIds acc) in
  {| acc_permissions := fst ps;
     acc_roles := if newRole then acc_roles acc ++ [role] else acc_roles acc;
     acc_departmentRoles :=
       match ur_departmentId (urd_userRole userRole) with
       | Some d =>
           if truthy (Some d) then
             let deptRoles :=
               match JsMap.get (acc_departmentRoles acc) d with
               | Some l => l
               | None => []
               end in
             JsMap.set (acc_departmentRoles acc) d (deptRoles ++ [role])
           else acc_departmentRoles acc
       | None => acc_departmentRoles acc
       end;
     acc_seenPermissionIds := snd ps;
     acc_seenRoleIds :=
       if newRole then JsSet.add (acc_seenRoleIds acc) roleId else acc_seenRoleIds acc |}.

Definition getEffectivePermissions (db : Database) (userId : string) (now : Z)
  : Result UserEffectivePermissions :=
  let userRoles_ := userRoleRepository.getUserRoles db userId now in
  let acc :=
    fold_left step userRoles_
      {| acc_permissions := []; acc_roles := []; acc_departmentRoles := [];
         acc_seenPermissionIds := []; acc_seenRoleIds := [] |} in
  success
    {| eff_userId := userId;
       eff_permissions := acc_permissions acc;
       eff_roles := acc_roles acc;
       eff_departmentRoles := acc_departmentRoles acc;
       eff_computedAt := now |}
    None.

Definition scopePriority (s : Scope.t) : Z :=
  match s with
  | Scope.ALL => 3
  | Scope.DEPARTMENT => 2
  | Scope.OWN => 1
  end.

(** [`${resource.toLowerCase()}:${action.toLowerCase()}`]. *)
Definition permissionCode (resource : Resource.t) (action : Action.t) : string :=
  (toLowerCase (Resource.name resource) ++ ":" ++ toLowerCase (Action.name action))%string.

Definition checkPermission (db : Database) (request : PermissionCheckRequest) (now : Z)
  : PermissionCheckResult :=
  let userId := req_userId request in
  let resource := req_resource request in
  let action := req_action request in
  let targetOwnerId := req_targetOwnerId request in
  let permissions_ :=
    userRoleRepository.getAllUserPermissions db userId
      (req_targetDepartmentId request) now in
  let matchingPermissions :=
    filter (fun p => Resource.eqb (perm_resource p) resource
                     && Action.eqb (perm_action p) action)
           permissions_ in
  match matchingPermissions with
  | [] =>
      match find (fun p => Resource.eqb (perm_resource p) resource
                           && Action.eqb (perm_action p) Action.MANAGE)
                 permissions_ with
      | None =>
          {| allowed := false;
             reason := Some ("No permission for " ++ permissionCode resource action)%string;
             matchedPermission := None;
             effectiveScope := None |}
      | Some managePermission =>
          {| allowed := true;
             reason := None;
             matchedPermission := Some managePermission;
             effectiveScope := Some (perm_scope managePermission) |}
      end
  | first :: _ =>
      let bestPermission :=
        hd first
           (sort (fun a b => scopePriority (perm_scope b) - scopePriority (perm_scope a))
                 matchingPermissions) in
      if Scope.eqb (perm_scope bestPermission) Scope.OWN
         && truthy targetOwnerId
         && negb (opt_string_eqb targetOwnerId (Some userId))
      then
        {| allowed := false;
           reason := Some "Permission only allows access to own resources";
           matchedPermission := Some bestPermission;
           effectiveScope := Some (perm_scope bestPermission) |}
      else
        {| allowed := true;
           reason := None;
           matchedPermission := Some bestPermission;
           effectiveScope := Some (perm_scope bestPermission) |}
  end.

Definition getUserRoles (db : Database) (userId : string) (now : Z)
  : Result (list UserRoleWithDetails) :=
  success (userRoleRepository.getUserRoles db userId now) None.

Definition hasPermission (db : Database) (userId permissionCode : string)
    (departmentId : option string) (now : Z) : bool :=
  userRoleRepository.hasPermission db userId permissionCode departmentId now.

Definition getUserPermissions (db : Database) (userId : string)
    (departmentId : option string) (now : Z) : Result (list PermissionEntity) :=
  success (userRoleRepository.getAllUserPermissions db userId departmentId now) None.

(** The test [checkPermissions] makes of a gathered permission. *)
Definition grants (resource : Resource.t) (action : Action.t) (p : PermissionEntity)
  : bool :=
  (Resource.eqb (perm_resource p) resource && Action.eqb (perm_action p) action)
  || (Resource.eqb (perm_resource p) resource
      && Action.eqb (perm_action p) Action.MANAGE).

Definition checkPermissions (db : Database) (userId : string)
    (checks : list (Resource.t * Action.t)) (now : Z) : JsMap.t bool :=
  let permissions_ := userRoleRepository.getAllUserPermissions db userId None now in
  fold_left
    (fun results check =>
       let code := permissionCode (fst check) (snd check) in
       let hasPermission := existsb (grants (fst check) (snd check)) permissions_ in
       JsMap.set results code hasPermission)
    checks [].

End authorizationService.

(* ------------------------------------------------------------------ *)
(** ** Permission utilities (lib/auth/permissions.ts) *)

(** [String.prototype.toUpperCase] on the ASCII range: the result of
    JavaScript for a string of ASCII characters ([isAscii]). *)
Definition toUpperCase_ascii (c : ascii) : ascii :=
  let n := nat_of_ascii c in
  if (Nat.leb 97 n && Nat.leb n 122)%bool then ascii_of_nat (n - 32) else c.

Fixpoint toUpperCase (s : string) : string :=
  match s with
  | EmptyString => EmptyString
  | String c rest => String (toUpperCase_ascii c) (toUpperCase rest)
  end.

(** [s.split(sep)] for a separator of one character: the pieces between
    the separators, at least one. *)
Fixpoint split (sep : ascii) (s : string) : list string :=
  match s with
  | EmptyString => [EmptyString]
  | String c rest =>
      if Ascii.eqb c sep then EmptyString :: split sep rest
      else
        match split sep rest with
        | piece :: pieces => String c piece :: pieces
        | [] => [String c EmptyString]
        end
  end.

Module authPermissions.

Definition permissionCode (resource : Resource.t) (action : Action.t) : string :=
  (toLowerCase (Resource.name resource) ++ ":" ++ toLowerCase (Action.name action))%string.

(** [parsePermissionCode]: the first two pieces of the code, in upper
    case.  With no colon in the code the second piece is [undefined] and
    [action.toUpperCase()] throws ([None]). *)
Definition parsePermissionCode (code : string) : option (string * string) :=
  match split ":"%char code with
  | resource :: action :: _ => Some (toUpperCase resource, toUpperCase action)
  | _ => None
  end.

(** [can]; the two optional fields of [options] are the last arguments. *)
Definition can (db : Database) (userId : string) (resource : Resource.t)
    (action : Action.t) (departmentId targetOwnerId : option string) (now : Z) : bool :=
  allowed
    (authorizationService.checkPermission db
       {| req_userId := userId; req_resource := resource; req_action := action;
          req_targetDepartmentId := departmentId;
          req_targetOwnerId := targetOwnerId |}
       now).

Definition canAny (db : Database) (userId : string)
    (permissions_ : list (Resource.t * Action.t)) (now : Z) : bool :=
  existsb (fun allowed_ : bool => allowed_)
    (JsMap.values (authorizationService.checkPermissions db userId permissions_ now)).

Definition canAll (db : Database) (userId : string)
    (permissions_ : list (Resource.t * Action.t)) (now : Z) : bool :=
  forallb (fun allowed_ : bool => allowed_)
    (JsMap.values (authorizationService.checkPermissions db userId permissions_ now)).

Definition hasRole (db : Database) (userId roleCode : string)
    (departmentId : option string) (now : Z) : bool :=
  authorizationService.hasRole db userId roleCode departmentId now.

Definition hasAnyRole (db : Database) (userId : string) (roleCodes : list string)
    (departmentId : option string) (now : Z) : bool :=
  existsb (fun checked : bool => checked)
    (map (fun code => authorizationService.hasRole db userId code departmentId now)
         roleCodes).

Inductive PermissionGuardResult : Type :=
  | authorized
  | unauthorized (error_ : string) (code : string).

(** [createPermissionGuard(resource, action, options)(userId)];
    [targetOwnerId] is what [options.getTargetOwnerId], when given,
    returns. *)
Definition createPermissionGuard (resource : Resource.t) (action : Action.t)
    (departmentId targetOwnerId : option string)
    (db : Database) (userId : string) (now : Z) : PermissionGuardResult :=
  let result :=
    authorizationService.checkPermission db
      {| req_userId := userId; req_resource := resource; req_action := action;
         req_targetDepartmentId := departmentId;
         req_targetOwnerId := targetOwnerId |}
      now in
  if negb (allowed result)
  then unauthorized (or_else (reason result) "Permission denied") "PERMISSION_DENIED"
  else authorized.

Definition createAnyPermissionGuard (permissions_ : list (Resource.t * Action.t))
    (db : Database) (userId : string) (now : Z) : PermissionGuardResult :=
  if negb (canAny db userId permissions_ now)
  then unauthorized "Permission denied" "PERMISSION_DENIED"
  else authorized.

Definition createAllPermissionGuard (permissions_ : list (Resource.t * Action.t))
    (db : Database) (userId : string) (now : Z) : PermissionGuardResult :=
  if negb (canAll db userId permissions_ now)
  then unauthorized "Missing required permissions" "PERMISSION_DENIED"
  else authorized.

End authPermissions.

(* ------------------------------------------------------------------ *)
(** ** Server actions (app/actions/permissions.ts)

    [session] is [session?.user?.dbUserId]: the id of the signed-in user,
    if any.  The steps of one action read the clock one after the other;
    the model gives them the same instant [now]. *)

Module permissionActions.

(** The signed-in user a guard [if (!session?.user?.dbUserId)] lets
    through. *)
Definition signedIn (session : option string) : option string :=
  match session with
  | Some dbUserId => if truthy session then Some dbUserId else None
  | None => None
  end.

Definition assignRoleToUser (db : Database) (session : option string)
    (userId roleId : string) (departmentId : option string) (expiresAt : option Z)
    (now : Z) (newId : string) : Outcome (Result unit) * Database :=
  match signedIn session with
  | Some dbUserId =>
      if negb (authPermissions.can db dbUserId Resource.USER Action.MANAGE
                      None None now)
      then (Returned (error "Permission denied" "PERMISSION_DENIED"), db)
      else
        authorizationService.assignRole db
          {| asg_userId := userId; asg_roleId := roleId;
             asg_departmentId := departmentId;
             asg_assignedById := Some dbUserId;
             asg_expiresAt := expiresAt |}
          now newId
  | None => (Returned (error "Unauthorized" "UNAUTHORIZED"), db)
  end.

(** The guard of [revokeRoleFromUser] on the last super-admin: true when
    the role has the code [super-admin] and no other user holds it. *)
Definition lastSuperAdmin (db : Database) (userId roleId : string) (now : Z) : bool :=
  match roleService.getById db roleId with
  | success role _ =>
      if (role_code role =? "super-admin")%string then
        match roleService.getByCode db "super-admin" with
        | success superAdminRole _ =>
            let superAdmins :=
              userRoleRepository.getUsersByRole db (role_id superAdminRole) None now in
            let activeSuperAdmins :=
              filter (fun ur => ur_isActive ur && negb (ur_userId ur =? userId)%string)
                     superAdmins in
            Nat.eqb (length activeSuperAdmins) 0
        | error _ _ => false
        end
      else false
  | error _ _ => false
  end.

Definition revokeRoleFromUser (db : Database) (session : option string)
    (userId roleId : string) (departmentId : option string) (now : Z)
  : Result unit * Database :=
  match signedIn session with
  | Some dbUserId =>
      if negb (authPermissions.can db dbUserId Resource.USER Action.MANAGE
                      None None now)
      then (error "Permission denied" "PERMISSION_DENIED", db)
      else if lastSuperAdmin db userId roleId now
      then (error "Cannot remove the last super-admin from the system"
                  "VALIDATION_ERROR", db)
      else authorizationService.revokeRole db userId roleId departmentId
  | None => (error "Unauthorized" "UNAUTHORIZED", db)
  end.

(** [createRole(data)]: the input has no parent and no system flag. *)
Definition createRole (db : Database) (session : option string)
    (code name : string) (description : option string) (level : option Z)
    (now : Z) (newId : string) : Outcome (Result RoleEntity) * Database :=
  match signedIn session with
  | Some dbUserId =>
      if negb (authPermissions.can db dbUserId Resource.ROLE Action.CREATE
                      None None now)
      then (Returned (error "Permission denied" "PERMISSION_DENIED"), db)
      else
        roleService.create db
          {| cri_code := code; cri_name := name; cri_description := description;
             cri_level := level; cri_parentRoleId := None; cri_isSystem := None |}
          newId
  | None => (Returned (error "Unauthorized" "UNAUTHORIZED"), db)
  end.

(** [updateRole(id, data)]: the input has no parent. *)
Definition updateRole (db : Database) (session : option string) (id : string)
    (name description : option string) (level : option Z) (isActive : option bool)
    (now : Z) : Outcome (Result RoleEntity) * Database :=
  match signedIn session with
  | Some dbUserId =>
      if negb (authPermissions.can db dbUserId Resource.ROLE Action.UPDATE
                      None None now)
      then (Returned (error "Permission denied" "PERMISSION_DENIED"), db)
      else
        roleService.update db id
          {| uri_name := name; uri_description := description; uri_level := level;
             uri_parentRoleId := None; uri_isActive := isActive |}
  | None => (Returned (error "Unauthorized" "UNAUTHORIZED"), db)
  end.

Definition setRolePermissions (db : Database) (session : option string)
    (roleId : string) (permissionIds : list string) (now : Z) (newId : nat -> string)
  : Outcome (Result unit) * Database :=
  match signedIn session with
  | Some dbUserId =>
      if negb (authPermissions.can db dbUserId Resource.ROLE Action.MANAGE
                      None None now)
      then (Returned (error "Permission denied" "PERMISSION_DENIED"), db)
      else roleService.setPermissions db roleId permissionIds (Some dbUserId) now newId
  | None => (Returned (error "Unauthorized" "UNAUTHORIZED"), db)
  end.

Definition deleteRole (db : Database) (session : option string) (id : string) (now : Z)
  : Outcome (Result unit) * Database :=
  match signedIn session with
  | Some dbUserId =>
      if negb (authPermissions.can db dbUserId Resource.ROLE Action.DELETE
                      None None now)
      then (Returned (error "Permission denied" "PERMISSION_DENIED"), db)
      else roleService.delete db id
  | None => (Returned (error "Unauthorized" "UNAUTHORIZED"), db)
  end.

Definition getMyPermissions (db : Database) (session : option string) (now : Z)
  : Result authorizationService.UserEffectivePermissions :=
  match signedIn session with
  | Some dbUserId => authorizationService.getEffectivePermissions db dbUserId now
  | None => error "Unauthorized" "UNAUTHORIZED"
  end.

(** The action [checkPermissions]: without a session every check is
    answered false, under the key [`${c.resource}:${c.action}`]. *)
Definition checkPermissions (db : Database) (session : option string)
    (checks : list (Resource.t * Action.t)) (now : Z) : JsMap.t bool :=
  match signedIn session with
  | Some dbUserId => authorizationService.checkPermissions db dbUserId checks now
  | None =>
      fold_left
        (fun m c =>
           JsMap.set m (Resource.name (fst c) ++ ":" ++ Action.name (snd c))%string false)
        checks []
  end.

Definition getRoleUserCount (db : Database) (roleId : string) (now : Z) : nat :=
  length (userRoleRepository.getUsersByRole db roleId None now).

End permissionActions.

(* ------------------------------------------------------------------ *)
(** ** Client hook (lib/hooks/use-permissions.ts)

    The callbacks of [usePermissions], as functions of the state
    [permissions] the hook holds ([null] until the permissions of the
    user have been fetched). *)

Module usePermissions.

Definition can (permissions_ : option authorizationService.UserEffectivePermissions)
    (resource : Resource.t) (action : Action.t) : bool :=
  match permissions_ with
  | None => false
  | Some e =>
      existsb (authorizationService.grants resource action)
              (authorizationService.eff_permissions e)
  end.

Definition canAny (permissions_ : option authorizationService.UserEffectivePermissions)
    (checks : list (Resource.t * Action.t)) : bool :=
  existsb (fun check => can permissions_ (fst check) (snd check)) checks.

Definition canAll (permissions_ : option authorizationService.UserEffectivePermissions)
    (checks : list (Resource.t * Action.t)) : bool :=
  forallb (fun check => can permissions_ (fst check) (snd check)) checks.

Definition hasRole (permissions_ : option authorizationService.UserEffectivePermissions)
    (roleCode : string) : bool :=
  match permissions_ with
  | None => false
  | Some e =>
      existsb (fun r => (role_code (rwp_role r) =? roleCode)%string)
              (authorizationService.eff_roles e)
  end.

End usePermissions.

(* ------------------------------------------------------------------ *)
(** ** Seeding (seed.ts) *)

Module seed.

(** An entry of [DEFAULT_PERMISSIONS]: each gives code, name, resource,
    action and scope, and [isSystem: true]. *)
Definition entry (code name : string) (resource : Resource.t) (action : Action.t)
    (scope : Scope.t) : CreatePermissionInput :=
  {| cpi_code := code; cpi_name := name; cpi_description := None;
     cpi_resource := resource; cpi_action := action;
     cpi_scope := Some scope; cpi_isSystem := Some true |}.

Definition DEFAULT_PERMISSIONS : list CreatePermissionInput :=
  [
    entry "user:create" "Create Users"
      Resource.USER Action.CREATE Scope.ALL;
    entry "user:read" "Read Users"
      Resource.USER Action.READ Scope.OWN;
    entry "user:read:all" "Read All Users"
      Resource.USER Action.READ Scope.ALL;
    entry "user:read:department" "Read Department Users"
      Resource.USER Action.READ Scope.DEPARTMENT;
    entry "user:update" "Update Own Profile"
      Resource.USER Action.UPDATE Scope.OWN;
    entry "user:update:all" "Update Any User"
      Resource.USER Action.UPDATE Scope.ALL;
    entry "user:delete" "Delete Users"
      Resource.USER Action.DELETE Scope.ALL;
    entry "user:list" "List Users"
      Resource.USER Action.LIST Scope.ALL;
    entry "user:manage" "Manage Users"
      Resource.USER Action.MANAGE Scope.ALL;
    entry "department:create" "Create Departments"
      Resource.DEPARTMENT Action.CREATE Scope.ALL;
    entry "department:read" "Read Departments"
      Resource.DEPARTMENT Action.READ Scope.ALL;
    entry "department:update" "Update Departments"
      Resource.DEPARTMENT Action.UPDATE Scope.ALL;
    entry "department:delete" "Delete Departments"
      Resource.DEPARTMENT Action.DELETE Scope.ALL;
    entry "department:list" "List Departments"
      Resource.DEPARTMENT Action.LIST Scope.ALL;
    entry "department:manage" "Manage Departments"
      Resource.DEPARTMENT Action.MANAGE Scope.ALL;
    entry "role:create" "Create Roles"
      Resource.ROLE Action.CREATE Scope.ALL;
    entry "role:read" "Read Roles"
      Resource.ROLE Action.READ Scope.ALL;
    entry "role:update" "Update Roles"
      Resource.ROLE Action.UPDATE Scope.ALL;
    entry "role:delete" "Delete Roles"
      Resource.ROLE Action.DELETE Scope.ALL;
    entry "role:list" "List Roles"
      Resource.ROLE Action.LIST Scope.ALL;
    entry "role:manage" "Manage Roles"
      Resource.ROLE Action.MANAGE Scope.ALL;
    entry "permission:read" "Read Permissions"
      Resource.PERMISSION Action.READ Scope.ALL;
    entry "permission:list" "List Permissions"
      Resource.PERMISSION Action.LIST Scope.ALL;
    entry "permission:manage" "Manage Permissions"
      Resource.PERMISSION Action.MANAGE Scope.ALL;
    entry "expense-claim:create" "Create Expense Claims"
      Resource.EXPENSE_CLAIM Action.CREATE Scope.OWN;
    entry "expense-claim:read" "Read Own Expense Claims"
      Resource.EXPENSE_CLAIM Action.READ Scope.OWN;
    entry "expense-claim:read:department" "Read Department Expense Claims"
      Resource.EXPENSE_CLAIM Action.READ Scope.DEPARTMENT;
    entry "expense-claim:read:all" "Read All Expense Claims"
      Resource.EXPENSE_CLAIM Action.READ Scope.ALL;
    entry "expense-claim:update" "Update Own Expense Claims"
      Resource.EXPENSE_CLAIM Action.UPDATE Scope.OWN;
    entry "expense-claim:update:all" "Update Any Expense Claim"
      Resource.EXPENSE_CLAIM Action.UPDATE Scope.ALL;
    entry "expense-claim:delete" "Delete Own Expense Claims"
      Resource.EXPENSE_CLAIM Action.DELETE Scope.OWN;
    entry "expense-claim:delete:all" "Delete Any Expense Claim"
      Resource.EXPENSE_CLAIM Action.DELETE Scope.ALL;
    entry "expense-claim:list" "List Own Expense Claims"
      Resource.EXPENSE_CLAIM Action.LIST Scope.OWN;
    entry "expense-claim:list:department" "List Department Expense Claims"
      Resource.EXPENSE_CLAIM Action.LIST Scope.DEPARTMENT;
    entry "expense-claim:list:all" "List All Expense Claims"
      Resource.EXPENSE_CLAIM Action.LIST Scope.ALL;
    entry "expense-claim:submit" "Submit Expense Claims"
      Resource.EXPENSE_CLAIM Action.SUBMIT Scope.OWN;
    entry "expense-claim:approve" "Approve Expense Claims"
      Resource.EXPENSE_CLAIM Action.APPROVE Scope.DEPARTMENT;
    entry "expense-claim:approve:all" "Approve All Expense Claims"
      Resource.EXPENSE_CLAIM Action.APPROVE Scope.ALL;
    entry "expense-claim:reject" "Reject Expense Claims"
      Resource.EXPENSE_CLAIM Action.REJECT Scope.DEPARTMENT;
    entry "expense-claim:reject:all" "Reject All Expense Claims"
      Resource.EXPENSE_CLAIM Action.REJECT Scope.ALL;
    entry "expense-claim:cancel" "Cancel Own Expense Claims"
      Resource.EXPENSE_CLAIM Action.CANCEL Scope.OWN;
    entry "expense-claim:manage" "Manage Expense Claims"
      Resource.EXPENSE_CLAIM Action.MANAGE Scope.ALL;
    entry "off-site-work:create" "Create Off-Site Work"
      Resource.OFF_SITE_WORK Action.CREATE Scope.OWN;
    entry "off-site-work:read" "Read Own Off-Site Work"
      Resource.OFF_SITE_WORK Action.READ Scope.OWN;
    entry "off-site-work:read:all" "Read All Off-Site Work"
      Resource.OFF_SITE_WORK Action.READ Scope.ALL;
    entry "off-site-work:update" "Update Own Off-Site Work"
      Resource.OFF_SITE_WORK Action.UPDATE Scope.OWN;
    entry "off-site-work:update:all" "Update Any Off-Site Work"
      Resource.OFF_SITE_WORK Action.UPDATE Scope.ALL;
    entry "off-site-work:delete" "Delete Own Off-Site Work"
      Resource.OFF_SITE_WORK Action.DELETE Scope.OWN;
    entry "off-site-work:delete:all" "Delete Any Off-Site Work"
      Resource.OFF_SITE_WORK Action.DELETE Scope.ALL;
    entry "off-site-work:list" "List Off-Site Work"
      Resource.OFF_SITE_WORK Action.LIST Scope.OWN;
    entry "off-site-work:list:all" "List All Off-Site Work"
      Resource.OFF_SITE_WORK Action.LIST Scope.ALL;
    entry "off-site-work:manage" "Manage Off-Site Work"
      Resource.OFF_SITE_WORK Action.MANAGE Scope.ALL;
    entry "monthly-request:create" "Create Monthly Requests"
      Resource.MONTHLY_REQUEST Action.CREATE Scope.DEPARTMENT;
    entry "monthly-request:read" "Read Monthly Requests"
      Resource.MONTHLY_REQUEST Action.READ Scope.DEPARTMENT;
    entry "monthly-request:read:all" "Read All Monthly Requests"
      Resource.MONTHLY_REQUEST Action.READ Scope.ALL;
    entry "monthly-request:update" "Update Monthly Requests"
      Resource.MONTHLY_REQUEST Action.UPDATE Scope.DEPARTMENT;
    entry "monthly-request:submit" "Submit Monthly Requests"
      Resource.MONTHLY_REQUEST Action.SUBMIT Scope.DEPARTMENT;
    entry "monthly-request:approve" "Approve Monthly Requests"
      Resource.MONTHLY_REQUEST Action.APPROVE Scope.ALL;
    entry "monthly-request:manage" "Manage Monthly Requests"
      Resource.MONTHLY_REQUEST Action.MANAGE Scope.ALL;
    entry "signature:create" "Create Own Signature"
      Resource.SIGNATURE Action.CREATE Scope.OWN;
    entry "signature:read" "Read Own Signature"
      Resource.SIGNATURE Action.READ Scope.OWN;
    entry "signature:read:all" "Read All Signatures"
      Resource.SIGNATURE Action.READ Scope.ALL;
    entry "signature:update" "Update Own Signature"
      Resource.SIGNATURE Action.UPDATE Scope.OWN;
    entry "signature:delete" "Delete Own Signature"
      Resource.SIGNATURE Action.DELETE Scope.OWN;
    entry "signature:manage" "Manage Signatures"
      Resource.SIGNATURE Action.MANAGE Scope.ALL;
    entry "file:create" "Upload Files"
      Resource.FILE Action.CREATE Scope.OWN;
    entry "file:read" "Read Own Files"
      Resource.FILE Action.READ Scope.OWN;
    entry "file:read:all" "Read All Files"
      Resource.FILE Action.READ Scope.ALL;
    entry "file:delete" "Delete Own Files"
      Resource.FILE Action.DELETE Scope.OWN;
    entry "file:delete:all" "Delete Any File"
      Resource.FILE Action.DELETE Scope.ALL;
    entry "file:manage" "Manage Files"
      Resource.FILE Action.MANAGE Scope.ALL;
    entry "action-log:read" "Read Own Action Logs"
      Resource.ACTION_LOG Action.READ Scope.OWN;
    entry "action-log:read:all" "Read All Action Logs"
      Resource.ACTION_LOG Action.READ Scope.ALL;
    entry "action-log:list" "List Action Logs"
      Resource.ACTION_LOG Action.LIST Scope.ALL;
    entry "action-log:export" "Export Action Logs"
      Resource.ACTION_LOG Action.EXPORT Scope.ALL;
    entry "system:manage" "System Administration"
      Resource.SYSTEM Action.MANAGE Scope.ALL;
    entry "system:export" "Export System Data"
      Resource.SYSTEM Action.EXPORT Scope.ALL;
    entry "system:import" "Import System Data"
      Resource.SYSTEM Action.IMPORT Scope.ALL
  ].

(** An entry of [DEFAULT_ROLES]: each gives code, name, description and
    level, no parent, and [isSystem: true]. *)
Definition role (code name description : string) (level : Z) : CreateRoleInput :=
  {| cri_code := code; cri_name := name; cri_description := Some description;
     cri_level := Some level; cri_parentRoleId := None; cri_isSystem := Some true |}.

Definition DEFAULT_ROLES : list CreateRoleInput :=
  [
    role "super-admin" "Super Administrator"
      "Full system access with all permissions" 100;
    role "admin" "Administrator"
      "Administrative access to manage users, roles, and system settings" 90;
    role "manager" "Manager"
      "Department manager with approval permissions" 50;
    role "supervisor" "Supervisor"
      "Team supervisor with limited approval permissions" 40;
    role "employee" "Employee"
      "Regular employee with basic permissions" 10;
    role "viewer" "Viewer"
      "Read-only access to view data" 5
  ].

(** [ROLE_PERMISSIONS], in the order of [Object.entries]. *)
Definition ROLE_PERMISSIONS : list (string * list string) :=
  [
    ("super-admin",
      ["user:manage"; "department:manage"; "role:manage";
        "permission:manage"; "expense-claim:manage"; "off-site-work:manage";
        "monthly-request:manage"; "signature:manage"; "file:manage";
        "action-log:read:all"; "action-log:list"; "action-log:export";
        "system:manage"; "system:export"; "system:import"]);
    ("admin",
      ["user:create"; "user:read:all"; "user:update:all"; "user:delete";
        "user:list"; "department:read"; "department:list"; "role:read";
        "role:list"; "permission:read"; "permission:list";
        "expense-claim:read:all"; "expense-claim:list:all";
        "expense-claim:approve:all"; "expense-claim:reject:all";
        "off-site-work:read:all"; "off-site-work:list:all";
        "monthly-request:read:all"; "monthly-request:approve";
        "signature:read:all"; "file:read:all"; "action-log:read:all";
        "action-log:list"]);
    ("manager",
      ["user:read:department"; "department:read"; "department:list";
        "expense-claim:create"; "expense-claim:read";
        "expense-claim:read:department"; "expense-claim:update";
        "expense-claim:list"; "expense-claim:list:department";
        "expense-claim:submit"; "expense-claim:approve";
        "expense-claim:reject"; "expense-claim:cancel";
        "off-site-work:create"; "off-site-work:read";
        "off-site-work:read:all"; "off-site-work:update";
        "off-site-work:list"; "off-site-work:list:all";
        "monthly-request:create"; "monthly-request:read";
        "monthly-request:update"; "monthly-request:submit";
        "signature:create"; "signature:read"; "signature:update";
        "signature:delete"; "file:create"; "file:read"; "file:delete"]);
    ("supervisor",
      ["user:read:department"; "department:read"; "expense-claim:create";
        "expense-claim:read"; "expense-claim:read:department";
        "expense-claim:update"; "expense-claim:list";
        "expense-claim:list:department"; "expense-claim:submit";
        "expense-claim:cancel"; "off-site-work:create";
        "off-site-work:read"; "off-site-work:update"; "off-site-work:list";
        "monthly-request:read"; "signature:create"; "signature:read";
        "signature:update"; "file:create"; "file:read"]);
    ("employee",
      ["user:read"; "user:update"; "expense-claim:create";
        "expense-claim:read"; "expense-claim:update"; "expense-claim:list";
        "expense-claim:submit"; "expense-claim:cancel";
        "off-site-work:read"; "off-site-work:list"; "signature:create";
        "signature:read"; "signature:update"; "signature:delete";
        "file:create"; "file:read"; "file:delete"]);
    ("viewer",
      ["user:read"; "department:read"; "expense-claim:read";
        "expense-claim:list"; "off-site-work:read"; "off-site-work:list";
        "monthly-request:read"])
  ].

(** The loop of [seedPermissions] over the roles; a call of the service
    that throws ends the run, and what was written stays written. *)
Fixpoint createRoles (newId : nat -> string) (roles_ : list (nat * CreateRoleInput))
    (rolesCreated : nat) (db : Database) : Outcome nat * Database :=
  match roles_ with
  | [] => (Returned rolesCreated, db)
  | ir :: rest =>
      match roleService.create db (snd ir) (newId (fst ir)) with
      | (Returned (success _ _), db') => createRoles newId rest (S rolesCreated) db'
      | (Returned (error _ _), db') => createRoles newId rest rolesCreated db'
      | (Rejected, db') => (Rejected, db')
      end
  end.

(** [seedPermissions]: the pair of [permissionsCreated] and
    [rolesCreated]. *)
Definition seedPermissions (db : Database) (newPermissionId newRoleId : nat -> string)
  : Outcome (nat * nat) * Database :=
  let permissionResult :=
    permissionService.createMany db DEFAULT_PERMISSIONS newPermissionId in
  let permissionsCreated := fst permissionResult in
  match createRoles newRoleId (indexed DEFAULT_ROLES) 0 (snd permissionResult) with
  | (Returned rolesCreated, db') => (Returned (permissionsCreated, rolesCreated), db')
  | (Rejected, db') => (Rejected, db')
  end.

(** [where: { code: { in: permissionCodes } }]. *)
Definition code_in (permissionCodes : list string) (p : PermissionEntity) : bool :=
  existsb (fun code => (perm_code p =? code)%string) permissionCodes.

(** The inner loop of [assignDefaultRolePermissions]: one upsert per
    permission found, counted when it returns; an upsert that throws is
    caught and passed over. *)
Definition upsertAll (roleId : string) (now : Z) (newId : nat -> string)
    (permissions_ : list PermissionEntity) (st : nat * Database) : nat * Database :=
  fold_left
    (fun (st : nat * Database) (permission : PermissionEntity) =>
       match roleRepository.grantPermission (snd st)
               {| grant_roleId := roleId; grant_permissionId := perm_id permission;
                  grant_grantedById := None |}
               now (newId (fst st)) with
       | Some db' => (S (fst st), db')
       | None => st
       end)
    permissions_ st.

(** The loop over the entries of a table of role codes and permission
    codes, from a count and a store. *)
Definition assignAll (now : Z) (newId : nat -> string)
    (table : list (string * list string)) (st : nat * Database) : nat * Database :=
  fold_left
    (fun (st : nat * Database) (e : string * list string) =>
       match roleRepository.findByCode (snd st) (fst e) with
       | None => st
       | Some role =>
           upsertAll (role_id role) now newId
             (filter (code_in (snd e)) (permissions (snd st))) st
       end)
    table st.

(** [assignDefaultRolePermissions]: the count [assignmentsCreated] and
    the store. *)
Definition assignDefaultRolePermissions (db : Database) (now : Z)
    (newId : nat -> string) : nat * Database :=
  assignAll now newId ROLE_PERMISSIONS (0%nat, db).

End seed.

(* ------------------------------------------------------------------ *)
(** ** Vocabulary of the properties *)

(** A permission matches a request exactly, or through MANAGE. *)
Definition exactMatch (request : PermissionCheckRequest) (p : PermissionEntity) : Prop :=
  perm_resource p = req_resource request /\ perm_action p = req_action request.

Definition manageMatch (request : PermissionCheckRequest) (p : PermissionEntity) : Prop :=
  perm_resource p = req_resource request /\ perm_action p = Action.MANAGE.

(** A permission reached through a grant is the catalog's row for its id. *)
Definition canonical (db : Database) (p : PermissionEntity) : Prop :=
  permission_of db (perm_id p) = Some p.

(** The map of [getAllUserPermissions] is keyed by permission id. *)
Definition keyed (db : Database) (m : JsMap.t PermissionEntity) : Prop :=
  forall k v, In (k, v) m -> k = perm_id v /\ canonical db v.

(** An assignment row is currently effective. *)
Definition effective (now : Z) (r : UserRoleEntity) : Prop :=
  ur_isActive r = true
  /\ (ur_expiresAt r = None \/ exists e, ur_expiresAt r = Some e /\ now < e).

(** The role grants the permission, and the permission is active. *)
Definition grantedActive (db : Database) (roleId : string) (p : PermissionEntity) : Prop :=
  exists rp, In rp (rolePermissions db) /\ rp_roleId rp = roleId
             /\ permission_of db (rp_permissionId rp) = Some p
             /\ perm_isActive p = true.

(** The triple an assignment is stored under, and the invariant of the
    assignment table: no two rows under one triple. *)
Definition assignmentKey (r : UserRoleEntity) : string * string * option string :=
  (ur_userId r, ur_roleId r, ur_departmentId r).

Definition uniqueAssignments (db : Database) : Prop :=
  NoDup (map assignmentKey (userRoles db)).

(** The pair a grant is stored under, and the unique index
    [role_permissions_role_id_permission_id_key]. *)
Definition grantKey (rp : RolePermission) : string * string :=
  (rp_roleId rp, rp_permissionId rp).

Definition uniqueGrants (db : Database) : Prop :=
  NoDup (map grantKey (rolePermissions db)).

(** A sequence of calls of [roleService.grantPermission] for one pair;
    each call brings its granter, the time and the id a new row would
    get.  The run gives what each call returned, in order, and the store
    after the last call. *)
Definition grantMany (db : Database) (roleId permissionId : string)
    (calls : list (option string * Z * string))
  : list (Outcome (Result unit)) * Database :=
  fold_left
    (fun (st : list (Outcome (Result unit)) * Database) call =>
       let r :=
         roleService.grantPermission (snd st)
           {| grant_roleId := roleId; grant_permissionId := permissionId;
              grant_grantedById := fst (fst call) |}
           (snd (fst call)) (snd call) in
       (fst st ++ [fst r], snd r))
    calls ([], db).

(* ------------------------------------------------------------------ *)
(** ** A small store for worked examples

    Two roles, five permissions (the seeded [user:read], [user:read:all]
    and [expense-claim:approve], a custom [file:manage] created with the
    default scope, and a deactivated custom permission), and three
    assignments: user [u1] holds [employee] globally and [manager] in
    department [d1]; user [u2] holds [manager] globally with an expiry
    at time 50. *)
Module Demo.

Definition user_read : PermissionEntity :=
  {| perm_id := "p1"; perm_code := "user:read"; perm_name := "Read Users";
     perm_description := None; perm_resource := Resource.USER;
     perm_action := Action.READ; perm_scope := Scope.OWN;
     perm_isActive := true; perm_isSystem := true |}.

Definition user_read_all : PermissionEntity :=
  {| perm_id := "p2"; perm_code := "user:read:all"; perm_name := "Read All Users";
     perm_description := None; perm_resource := Resource.USER;
     perm_action := Action.READ; perm_scope := Scope.ALL;
     perm_isActive := true; perm_isSystem := true |}.

Definition file_manage : PermissionEntity :=
  {| perm_id := "p3"; perm_code := "file:manage"; perm_name := "Manage Own Files";
     perm_description := None; perm_resource := Resource.FILE;
     perm_action := Action.MANAGE; perm_scope := Scope.OWN;
     perm_isActive := true; perm_isSystem := false |}.

Definition claim_approve : PermissionEntity :=
  {| perm_id := "p4"; perm_code := "expense-claim:approve";
     perm_name := "Approve Expense Claims";
     perm_description := None; perm_resource := Resource.EXPENSE_CLAIM;
     perm_action := Action.APPROVE; perm_scope := Scope.DEPARTMENT;
     perm_isActive := true; perm_isSystem := true |}.

Definition role_read : PermissionEntity :=
  {| perm_id := "p5"; perm_code := "role:read:custom"; perm_name := "Read Roles";
     perm_description := None; perm_resource := Resource.ROLE;
     perm_action := Action.READ; perm_scope := Scope.ALL;
     perm_isActive := false; perm_isSystem := false |}.

Definition employee : RoleEntity :=
  {| role_id := "r1"; role_code := "employee"; role_name := "Employee";
     role_description := None; role_level := 10; role_parentRoleId := None;
     role_isActive := true; role_isSystem := true |}.

Definition manager : RoleEntity :=
  {| role_id := "r2"; role_code := "manager"; role_name := "Manager";
     role_description := None; role_level := 50; role_parentRoleId := None;
     role_isActive := true; role_isSystem := true |}.

Definition grant (id roleId permissionId : string) : RolePermission :=
  {| rp_id := id; rp_roleId := roleId; rp_permissionId := permissionId;
     rp_grantedById := None; rp_grantedAt := 0 |}.

Definition u1_employee : UserRoleEntity :=
  {| ur_id := "a1"; ur_userId := "u1"; ur_roleId := "r1";
     ur_departmentId := None; ur_assignedById := None; ur_assignedAt := 0;
     ur_expiresAt := None; ur_isActive := true |}.

Definition u1_manager_d1 : UserRoleEntity :=
  {| ur_id := "a2"; ur_userId := "u1"; ur_roleId := "r2";
     ur_departmentId := Some "d1"; ur_assignedById := None; ur_assignedAt := 0;
     ur_expiresAt := None; ur_isActive := true |}.

Definition u2_manager : UserRoleEntity :=
  {| ur_id := "a3"; ur_userId := "u2"; ur_roleId := "r2";
     ur_departmentId := None; ur_assignedById := Some "u1"; ur_assignedAt := 0;
     ur_expiresAt := Some 50; ur_isActive := true |}.

Definition db : Database :=
  {| permissions := [user_read; user_read_all; file_manage; claim_approve; role_read];
     roles := [employee; manager];
     rolePermissions :=
       [grant "g1" "r1" "p1"; grant "g2" "r1" "p3"; grant "g3" "r1" "p5";
        grant "g4" "r2" "p2"; grant "g5" "r2" "p4"];
     userRoles := [u1_employee; u1_manager_d1; u2_manager];
     users := ["u1"; "u2"; "u3"];
     departments := ["d1"; "d2"] |}.

(** Requests of user [u1]. *)
Definition request (resource : Resource.t) (action : Action.t)
    (targetDepartmentId targetOwnerId : option string) : PermissionCheckRequest :=
  {| req_userId := "u1"; req_resource := resource; req_action := action;
     req_targetDepartmentId := targetDepartmentId;
     req_targetOwnerId := targetOwnerId |}.

End Demo.

(** The string has no colon. *)
Fixpoint colonFree (s : string) : bool :=
  match s with
  | EmptyString => true
  | String c rest => negb (Ascii.eqb c ":"%char) && colonFree rest
  end.

(** Case analysis on membership in a list that computes. *)
Ltac by_cases_on H :=
  vm_compute in H;
  repeat match type of H with
         | _ \/ _ => destruct H as [H|H]
         | False => destruct H
         end.

(** The unique indexes of the catalog tables, as properties of a store. *)
Definition uniquePermissionCodes (db : Database) : Prop :=
  NoDup (map perm_code (permissions db)).

Definition uniqueRoleIds (db : Database) : Prop :=
  NoDup (map role_id (roles db)).

Definition uniqueRoleCodes (db : Database) : Prop :=
  NoDup (map role_code (roles db)).

(** Ids for the rows a call creates: [fresh n] for the row at index [n]. *)
Definition fresh (n : nat) : string :=
  String (ascii_of_nat (97 + n)) "-new".

(** A role is kept by a call: the store still has a role with its id,
    code and system flag, and an active role is still active. *)
Definition keepsRole (r : RoleEntity) (db' : Database) : Prop :=
  exists r', In r' (roles db') /\ role_id r' = role_id r
             /\ role_code r' = role_code r
             /\ role_isSystem r' = role_isSystem r
             /\ (role_isActive r = true -> role_isActive r' = true).

(** Every parent reference names a role of the store other than the
    role itself. *)
Definition parentsSound (db : Database) : Prop :=
  forall r, In r (roles db) ->
  forall parent, role_parentRoleId r = Some parent ->
    parent <> role_id r /\ roleRepository.findById db parent <> None.

(** The role table is sound: ids and codes are unique, no id is the
    empty string, and parents are sound. *)
Definition rolesSound (db : Database) : Prop :=
  uniqueRoleIds db /\ uniqueRoleCodes db
  /\ (forall r, In r (roles db) -> role_id r <> "")
  /\ parentsSound db.

(** The pairs of role id and permission id a table of role codes and
    permission codes resolves to in a store, entry by entry. *)
Definition resolvedPairs (db : Database) (table : list (string * list string))
  : list (string * string) :=
  flat_map
    (fun e =>
       match roleRepository.findByCode db (fst e) with
       | None => []
       | Some role =>
           map (fun p => (role_id role, perm_id p))
               (filter (seed.code_in (snd e)) (permissions db))
       end)
    table.

(** A second example store: the store of [Demo] with the permissions
    [user:manage] and [role:manage], the system role [super-admin] that
    is granted both, the custom roles [auditor] (child of [manager]) and
    [trainee] (child of [auditor]), two super-admins [u8] and [u9] and
    an auditor [u3]. *)
Module Office.

Definition user_manage : PermissionEntity :=
  {| perm_id := "p6"; perm_code := "user:manage"; perm_name := "Manage Users";
     perm_description := None; perm_resource := Resource.USER;
     perm_action := Action.MANAGE; perm_scope := Scope.ALL;
     perm_isActive := true; perm_isSystem := true |}.

Definition role_manage : PermissionEntity :=
  {| perm_id := "p7"; perm_code := "role:manage"; perm_name := "Manage Roles";
     perm_description := None; perm_resource := Resource.ROLE;
     perm_action := Action.MANAGE; perm_scope := Scope.ALL;
     perm_isActive := true; perm_isSystem := true |}.

Definition super_admin : RoleEntity :=
  {| role_id := "r0"; role_code := "super-admin"; role_name := "Super Administrator";
     role_description := None; role_level := 100; role_parentRoleId := None;
     role_isActive := true; role_isSystem := true |}.

Definition auditor : RoleEntity :=
  {| role_id := "r3"; role_code := "auditor"; role_name := "Auditor";
     role_description := None; role_level := 40; role_parentRoleId := Some "r2";
     role_isActive := true; role_isSystem := false |}.

Definition trainee : RoleEntity :=
  {| role_id := "r4"; role_code := "trainee"; role_name := "Trainee";
     role_description := None; role_level := 5; role_parentRoleId := Some "r3";
     role_isActive := true; role_isSystem := false |}.

Definition holds (id userId roleId : string) : UserRoleEntity :=
  {| ur_id := id; ur_userId := userId; ur_roleId := roleId;
     ur_departmentId := None; ur_assignedById := None; ur_assignedAt := 0;
     ur_expiresAt := None; ur_isActive := true |}.

Definition db : Database :=
  {| permissions := permissions Demo.db ++ [user_manage; role_manage];
     roles := roles Demo.db ++ [super_admin; auditor; trainee];
     rolePermissions :=
       rolePermissions Demo.db
       ++ [Demo.grant "g6" "r0" "p6"; Demo.grant "g7" "r0" "p7";
           Demo.grant "g8" "r3" "p2"];
     userRoles :=
       userRoles Demo.db
       ++ [holds "a4" "u9" "r0"; holds "a5" "u8" "r0"; holds "a6" "u3" "r3"];
     users := users Demo.db ++ ["u8"; "u9"];
     departments := departments Demo.db |}.

End Office.

(* ================================================================== *)
(** * Properties *)

(** ** Equality tests *)

Lemma Resource_eqb_eq (a b : Resource.t) : Resource.eqb a b = true <-> a = b.
Proof.
  unfold Resource.eqb. destruct (Resource.eq_dec a b); split; congruence.
Qed.

Lemma Action_eqb_eq (a b : Action.t) : Action.eqb a b = true <-> a = b.
Proof.
  unfold Action.eqb. destruct (Action.eq_dec a b); split; congruence.
Qed.

Lemma Scope_eqb_eq (a b : Scope.t) : Scope.eqb a b = true <-> a = b.
Proof.
  unfold Scope.eqb. destruct (Scope.eq_dec a b); split; congruence.
Qed.

Lemma opt_string_eqb_eq (a b : option string) : opt_string_eqb a b = true <-> a = b.
Proof.
  destruct a as [x|], b as [y|]; simpl; split; try congruence.
  - intros H. apply String.eqb_eq in H. congruence.
  - intros H. injection H as ->. apply String.eqb_refl.
Qed.

Lemma opt_string_eqb_refl (a : option string) : opt_string_eqb a a = true.
Proof. apply opt_string_eqb_eq. reflexivity. Qed.

(** ** The permission catalog *)

Lemma findById_In (db : Database) (id : string) (p : PermissionEntity) :
  permissionRepository.findById db id = Some p ->
  In p (permissions db) /\ perm_id p = id.
Proof.
  unfold permissionRepository.findById. intros H.
  apply find_some in H. destruct H as [Hin Heq].
  apply String.eqb_eq in Heq. auto.
Qed.

Lemma repository_update_found (db : Database) (id : string)
    (data : UpdatePermissionInput) (p : PermissionEntity) :
  permissionRepository.findById db id = Some p ->
  exists db', permissionRepository.update db id data
              = Some (permissionRepository.applyUpdate data p, db').
Proof.
  intros H. unfold permissionRepository.update. rewrite H. eauto.
Qed.

Lemma repository_delete_found (db : Database) (id : string) (p : PermissionEntity) :
  permissionRepository.findById db id = Some p ->
  perm_isSystem p = false ->
  exists db',
    permissionRepository.delete db id = Some db'
    /\ permissions db'
       = filter (fun q => negb ((perm_id q =? id)%string && negb (perm_isSystem q)))
                (permissions db)
    /\ rolePermissions db'
       = filter (fun rp => negb (rp_permissionId rp =? id)%string) (rolePermissions db)
    /\ roles db' = roles db /\ userRoles db' = userRoles db.
Proof.
  intros Hf Hsys. unfold permissionRepository.delete.
  destruct (find (fun q => (perm_id q =? id)%string && negb (perm_isSystem q))
                 (permissions db)) eqn:E.
  - eexists. split; [reflexivity|]. simpl. auto.
  - exfalso. apply findById_In in Hf. destruct Hf as [Hin Hid].
    pose proof (find_none _ _ E p Hin) as Hn. simpl in Hn.
    rewrite Hid, String.eqb_refl, Hsys in Hn. discriminate.
Qed.

(** C9.  Writes to the permission catalog are guarded.  On an id that no
    permission has, [update], [deactivate] and [delete] return the
    not-found error.  On a system permission, [update] with
    [isActive = false], [deactivate] and [delete] return the
    system-permission error.  In all these cases the store is returned
    as it was.  On a permission that is not a system permission,
    [delete] succeeds and removes the row (and the grants that refer to
    it), keeping every other row. *)
Theorem permission_catalog_guards (db : Database) (id : string) :
  (permissionRepository.findById db id = None ->
     (forall data, permissionService.update db id data
        = (Returned (error "Permission not found" "PERMISSION_NOT_FOUND"), db))
     /\ permissionService.deactivate db id
        = (Returned (error "Permission not found" "PERMISSION_NOT_FOUND"), db)
     /\ permissionService.delete db id
        = (Returned (error "Permission not found" "PERMISSION_NOT_FOUND"), db))
  /\ (forall p, permissionRepository.findById db id = Some p ->
        perm_isSystem p = true ->
        (forall data, upd_isActive data = Some false ->
           permissionService.update db id data
           = (Returned (error "System permissions cannot be deactivated"
                              "SYSTEM_PERMISSION"), db))
        /\ permissionService.deactivate db id
           = (Returned (error "System permissions cannot be deactivated"
                              "SYSTEM_PERMISSION"), db)
        /\ permissionService.delete db id
           = (Returned (error "System permissions cannot be deleted"
                              "SYSTEM_PERMISSION"), db))
  /\ (forall p, permissionRepository.findById db id = Some p ->
        perm_isSystem p = false ->
        exists db',
          permissionService.delete db id
          = (Returned (success tt (Some "Permission deleted successfully")), db')
          /\ ~ In p (permissions db')
          /\ (forall q, In q (permissions db') <->
                        In q (permissions db)
                        /\ ~ (perm_id q = id /\ perm_isSystem q = false))
          /\ (forall rp, In rp (rolePermissions db') <->
                         In rp (rolePermissions db) /\ rp_permissionId rp <> id)).
Proof.
  split; [|split].
  - intros Hnone.
    unfold permissionService.update, permissionService.deactivate,
      permissionService.delete.
    rewrite Hnone. auto.
  - intros p Hf Hsys.
    unfold permissionService.update, permissionService.deactivate,
      permissionService.delete.
    rewrite Hf, Hsys. repeat split; auto.
    intros data Hd. rewrite Hd. reflexivity.
  - intros p Hf Hsys.
    destruct (repository_delete_found db id p Hf Hsys)
      as (db' & Hdel & Hperms & Hrps & _ & _).
    exists db'. unfold permissionService.delete. rewrite Hf, Hsys, Hdel.
    assert (Hq : forall q, In q (permissions db') <->
                 In q (permissions db)
                 /\ ~ (perm_id q = id /\ perm_isSystem q = false)).
    { intros q. rewrite Hperms, filter_In. split.
      - intros [Hin Hb]. split; [exact Hin|]. intros [Hid Hs].
        rewrite Hid, String.eqb_refl, Hs in Hb. discriminate.
      - intros [Hin Hn]. split; [exact Hin|].
        destruct (perm_id q =? id)%string eqn:E; [|reflexivity].
        destruct (perm_isSystem q) eqn:S; [reflexivity|].
        exfalso. apply Hn. apply String.eqb_eq in E. auto. }
    split; [reflexivity|]. split; [|split].
    + intros Hin. apply Hq in Hin. destruct Hin as [_ Hn]. apply Hn.
      apply findById_In in Hf. destruct Hf. auto.
    + exact Hq.
    + intros rp. rewrite Hrps, filter_In. split.
      * intros [Hin Hb]. split; [exact Hin|]. intros Hid.
        rewrite Hid, String.eqb_refl in Hb. discriminate.
      * intros [Hin Hn]. split; [exact Hin|].
        destruct (rp_permissionId rp =? id)%string eqn:E; [|reflexivity].
        apply String.eqb_eq in E. contradiction.
Qed.

(** ** What the gathering step returns *)

Lemma permission_of_Some (db : Database) (i : string) (p : PermissionEntity) :
  permission_of db i = Some p -> In p (permissions db) /\ perm_id p = i.
Proof.
  unfold permission_of. intros H. apply find_some in H.
  destruct H as [Hin Heq]. apply String.eqb_eq in Heq. auto.
Qed.

Lemma include_rolePermissions_In (db : Database) (roleId : string)
    (rp : RolePermission) (p : PermissionEntity) :
  In (rp, p) (include_rolePermissions db roleId) <->
  In rp (rolePermissions db) /\ rp_roleId rp = roleId
  /\ permission_of db (rp_permissionId rp) = Some p /\ perm_isActive p = true.
Proof.
  unfold include_rolePermissions. rewrite in_flat_map. split.
  - intros (rp' & Hin & H).
    destruct (rp_roleId rp' =? roleId)%string eqn:E; [|contradiction].
    destruct (permission_of db (rp_permissionId rp')) as [q|] eqn:P; [|contradiction].
    destruct (perm_isActive q) eqn:A; [|contradiction].
    destruct H as [H|[]]. injection H as -> ->.
    apply String.eqb_eq in E. auto.
  - intros (Hin & Hr & Hp & Ha). exists rp. split; [exact Hin|].
    rewrite Hr, String.eqb_refl, Hp, Ha. left. reflexivity.
Qed.

Lemma include_rolePermissions_canonical (db : Database) (roleId : string)
    (p : PermissionEntity) :
  In p (map snd (include_rolePermissions db roleId)) ->
  canonical db p /\ perm_isActive p = true.
Proof.
  intros H. apply in_map_iff in H. destruct H as ([rp q] & Heq & Hin).
  simpl in Heq. subst q. apply include_rolePermissions_In in Hin.
  destruct Hin as (_ & _ & Hp & Ha). split; [|exact Ha].
  unfold canonical. destruct (permission_of_Some _ _ _ Hp) as [_ Hid].
  rewrite Hid. exact Hp.
Qed.

Lemma JsMap_has_true {V} (m : JsMap.t V) (k : string) :
  JsMap.has m k = true <-> exists v, In (k, v) m.
Proof.
  unfold JsMap.has. rewrite existsb_exists. split.
  - intros ([k' v] & Hin & E). simpl in E. apply String.eqb_eq in E. subst. eauto.
  - intros (v & Hin). exists (k, v). simpl. rewrite String.eqb_refl. auto.
Qed.

Lemma JsMap_set_fresh {V} (m : JsMap.t V) (k : string) (v : V) :
  JsMap.has m k = false -> JsMap.set m k v = m ++ [(k, v)].
Proof. intros H. unfold JsMap.set. rewrite H. reflexivity. Qed.

Lemma collect_spec (db : Database) (rps : list (RolePermission * PermissionEntity)) :
  forall m : JsMap.t PermissionEntity,
    keyed db m ->
    (forall p, In p (map snd rps) -> canonical db p) ->
    keyed db (userRoleRepository.collect m rps)
    /\ (forall p, In p (JsMap.values (userRoleRepository.collect m rps)) <->
                  In p (JsMap.values m) \/ In p (map snd rps)).
Proof.
  induction rps as [|[rp q] rps IH]; intros m Hk Hc.
  - simpl. split; [exact Hk|]. intros p. tauto.
  - unfold userRoleRepository.collect in *. simpl fold_left.
    assert (Hq : canonical db q) by (apply Hc; simpl; auto).
    assert (Hc' : forall p, In p (map snd rps) -> canonical db p)
      by (intros p Hp; apply Hc; simpl; auto).
    destruct (JsMap.has m (perm_id q)) eqn:Hhas; simpl negb; cbv iota.
    + destruct (IH m Hk Hc') as [Hk' Hin']. split; [exact Hk'|].
      intros p. rewrite Hin'. simpl. split; [tauto|].
      intros [H|[H|H]]; auto. subst p. left.
      apply JsMap_has_true in Hhas. destruct Hhas as (v & Hv).
      destruct (Hk _ _ Hv) as [Hid Hcan].
      unfold canonical in Hcan, Hq. rewrite <- Hid, Hq in Hcan.
      injection Hcan as <-. unfold JsMap.values. apply in_map_iff.
      exists (perm_id q, q). auto.
    + rewrite (JsMap_set_fresh _ _ _ Hhas).
      assert (Hk2 : keyed db (m ++ [(perm_id q, q)])).
      { intros k v Hin. apply in_app_or in Hin. destruct Hin as [Hin|[Hin|[]]].
        - apply Hk. exact Hin.
        - injection Hin as <- <-. auto. }
      destruct (IH _ Hk2 Hc') as [Hk' Hin']. split; [exact Hk'|].
      intros p. rewrite Hin'. unfold JsMap.values. rewrite map_app, in_app_iff.
      simpl. tauto.
Qed.

Lemma gather_spec (db : Database) (rows : list UserRoleEntity) :
  forall m : JsMap.t PermissionEntity,
    keyed db m ->
    forall p,
      In p (JsMap.values
              (fold_left
                 (fun m userRole =>
                    userRoleRepository.collect m
                      (include_rolePermissions db (ur_roleId userRole)))
                 rows m)) <->
      In p (JsMap.values m)
      \/ exists r, In r rows
                   /\ In p (map snd (include_rolePermissions db (ur_roleId r))).
Proof.
  induction rows as [|r rows IH]; intros m Hk p.
  - simpl. split; [tauto|]. intros [H|(r & [] & _)]. exact H.
  - simpl fold_left.
    destruct (collect_spec db (include_rolePermissions db (ur_roleId r)) m Hk)
      as [Hk' Hin'].
    { intros q Hq. apply include_rolePermissions_canonical in Hq. tauto. }
    rewrite (IH _ Hk' p), Hin'. split.
    + intros [[H|H]|(r' & Hr' & H)]; eauto.
      * right. exists r. simpl. auto.
      * right. exists r'. simpl. auto.
    + intros [H|(r' & [Hr'|Hr'] & H)]; auto.
      * subst r'. auto.
      * right. eauto.
Qed.

(** A permission is gathered exactly when one of the selected assignments
    has a role that grants it while it is active. *)
Lemma getAllUserPermissions_In (db : Database) (userId : string)
    (departmentId : option string) (now : Z) (p : PermissionEntity) :
  In p (userRoleRepository.getAllUserPermissions db userId departmentId now) <->
  exists r, In r (userRoles db)
            /\ userRoleRepository.whereUserRole db userId departmentId now r = true
            /\ In p (map snd (include_rolePermissions db (ur_roleId r))).
Proof.
  unfold userRoleRepository.getAllUserPermissions.
  rewrite gather_spec.
  - split.
    + intros [[]|(r & Hr & H)]. apply filter_In in Hr. exists r. tauto.
    + intros (r & Hr & Hw & H). right. exists r. rewrite filter_In. auto.
  - intros k v [].
Qed.

(** ** Sorting by scope priority *)

Section SortFacts.
Context {A : Type} (cmp : A -> A -> Z).

Lemma sort_insert_In (x a : A) (l : list A) :
  In a (sort_insert cmp x l) <-> a = x \/ In a l.
Proof.
  induction l as [|y l IH]; simpl.
  - intuition.
  - destruct (cmp y x <? 0); simpl; rewrite ?IH; intuition.
Qed.

Lemma sort_In (a : A) (l : list A) : In a (sort cmp l) <-> In a l.
Proof.
  induction l as [|x l IH]; simpl; [tauto|].
  rewrite sort_insert_In, IH. intuition.
Qed.

Lemma sort_nil_inv (l : list A) : sort cmp l = [] -> l = [].
Proof.
  destruct l as [|x l]; [reflexivity|]. intros H. exfalso.
  assert (Hin : In x (sort cmp (x :: l))) by (apply sort_In; simpl; auto).
  rewrite H in Hin. exact Hin.
Qed.
End SortFacts.

(** The head of the sorted array is an element of greatest priority. *)
Lemma sort_head_best (d : PermissionEntity) (l : list PermissionEntity) :
  l <> [] ->
  let cmp := fun a b : PermissionEntity =>
    authorizationService.scopePriority (perm_scope b)
    - authorizationService.scopePriority (perm_scope a) in
  In (hd d (sort cmp l)) l
  /\ forall p, In p l ->
       authorizationService.scopePriority (perm_scope p)
       <= authorizationService.scopePriority (perm_scope (hd d (sort cmp l))).
Proof.
  intros Hne cmp. induction l as [|x l IH]; [congruence|].
  simpl sort. destruct l as [|y l].
  - simpl. split; [auto|]. intros p [<-|[]]. lia.
  - assert (Hne' : y :: l <> []) by congruence.
    specialize (IH Hne'). destruct IH as [Hin Hmax].
    destruct (sort cmp (y :: l)) as [|z t] eqn:E.
    + apply sort_nil_inv in E. congruence.
    + simpl hd in *. simpl sort_insert.
      destruct (cmp z x <? 0) eqn:C; unfold cmp in C.
      * apply Z.ltb_lt in C. simpl hd. split; [right; exact Hin|].
        intros p [<-|Hp]; [lia|]. apply Hmax. exact Hp.
      * apply Z.ltb_ge in C. simpl hd. split; [left; reflexivity|].
        intros p [<-|Hp]; [lia|]. specialize (Hmax p Hp). lia.
Qed.

Lemma scopePriority_ALL (s : Scope.t) :
  authorizationService.scopePriority Scope.ALL
  <= authorizationService.scopePriority s -> s = Scope.ALL.
Proof. destruct s; simpl; intros; try reflexivity; lia. Qed.

(** ** checkPermission *)

Lemma filter_exact_In (request : PermissionCheckRequest)
    (l : list PermissionEntity) (p : PermissionEntity) :
  In p (filter (fun p => Resource.eqb (perm_resource p) (req_resource request)
                         && Action.eqb (perm_action p) (req_action request)) l)
  <-> In p l /\ exactMatch request p.
Proof.
  rewrite filter_In, andb_true_iff, Resource_eqb_eq, Action_eqb_eq.
  unfold exactMatch. tauto.
Qed.

Lemma find_manage_Some (request : PermissionCheckRequest)
    (l : list PermissionEntity) (m : PermissionEntity) :
  find (fun p => Resource.eqb (perm_resource p) (req_resource request)
                 && Action.eqb (perm_action p) Action.MANAGE) l = Some m ->
  In m l /\ manageMatch request m.
Proof.
  intros H. apply find_some in H. destruct H as [Hin Hb].
  apply andb_true_iff in Hb. rewrite Resource_eqb_eq, Action_eqb_eq in Hb.
  unfold manageMatch. tauto.
Qed.

Lemma find_manage_None (request : PermissionCheckRequest)
    (l : list PermissionEntity) :
  find (fun p => Resource.eqb (perm_resource p) (req_resource request)
                 && Action.eqb (perm_action p) Action.MANAGE) l = None ->
  forall m, In m l -> ~ manageMatch request m.
Proof.
  intros H m Hin [Hr Ha]. pose proof (find_none _ _ H m Hin) as Hn.
  simpl in Hn. apply andb_false_iff in Hn.
  destruct Hn as [Hn|Hn]; [rewrite <- Resource_eqb_eq in Hr | rewrite <- Action_eqb_eq in Ha];
    congruence.
Qed.

(** C4.  When no gathered permission matches the requested resource and
    action exactly: if some gathered permission is MANAGE on the
    resource, the check allows and reports such a permission with its
    scope; if none is, the check denies with the reason
    ["No permission for " ++ lower(resource) ++ ":" ++ lower(action)]. *)
Theorem checkPermission_manage_wildcard
    (db : Database) (request : PermissionCheckRequest) (now : Z) :
  let gathered :=
    userRoleRepository.getAllUserPermissions db (req_userId request)
      (req_targetDepartmentId request) now in
  (forall p, In p gathered -> ~ exactMatch request p) ->
  ((exists m, In m gathered /\ manageMatch request m) ->
   exists m, In m gathered /\ manageMatch request m
             /\ authorizationService.checkPermission db request now
                = {| allowed := true; reason := None;
                     matchedPermission := Some m;
                     effectiveScope := Some (perm_scope m) |})
  /\ ((forall m, In m gathered -> ~ manageMatch request m) ->
      authorizationService.checkPermission db request now
      = {| allowed := false;
           reason := Some ("No permission for "
                           ++ toLowerCase (Resource.name (req_resource request))
                           ++ ":"
                           ++ toLowerCase (Action.name (req_action request)))%string;
           matchedPermission := None;
           effectiveScope := None |}).
Proof.
  intros gathered Hno.
  unfold authorizationService.checkPermission. fold gathered.
  destruct (filter _ gathered) as [|first rest] eqn:F.
  2:{ exfalso. apply (Hno first).
      - eapply (proj1 (filter_exact_In request gathered first)).
        rewrite F. simpl. auto.
      - eapply (proj1 (filter_exact_In request gathered first)).
        rewrite F. simpl. auto. }
  destruct (find _ gathered) as [m|] eqn:M.
  - split.
    + intros _. apply find_manage_Some in M. destruct M as [Hin Hm].
      exists m. auto.
    + intros Hnone. apply find_manage_Some in M. destruct M as [Hin Hm].
      exfalso. exact (Hnone m Hin Hm).
  - split.
    + intros (m & Hin & Hm). exfalso.
      exact (find_manage_None request gathered M m Hin Hm).
    + intros _. reflexivity.
Qed.

(** The exact-match path: the permission chosen is an exact match of
    greatest priority, and the result is decided by the ownership rule. *)
Lemma checkPermission_exact_path
    (db : Database) (request : PermissionCheckRequest) (now : Z) :
  let gathered :=
    userRoleRepository.getAllUserPermissions db (req_userId request)
      (req_targetDepartmentId request) now in
  (exists p, In p gathered /\ exactMatch request p) ->
  exists best,
    In best gathered /\ exactMatch request best
    /\ (forall p, In p gathered -> exactMatch request p ->
          authorizationService.scopePriority (perm_scope p)
          <= authorizationService.scopePriority (perm_scope best))
    /\ authorizationService.checkPermission db request now
       = if Scope.eqb (perm_scope best) Scope.OWN
            && truthy (req_targetOwnerId request)
            && negb (opt_string_eqb (req_targetOwnerId request)
                                    (Some (req_userId request)))
         then {| allowed := false;
                 reason := Some "Permission only allows access to own resources";
                 matchedPermission := Some best;
                 effectiveScope := Some (perm_scope best) |}
         else {| allowed := true; reason := None;
                 matchedPermission := Some best;
                 effectiveScope := Some (perm_scope best) |}.
Proof.
  intros gathered (p0 & Hin0 & Hex0).
  unfold authorizationService.checkPermission. fold gathered.
  destruct (filter _ gathered) as [|first rest] eqn:F.
  { exfalso. assert (H : In p0 []); [|exact H].
    rewrite <- F. apply filter_exact_In. auto. }
  assert (Hne : first :: rest <> []) by congruence.
  destruct (sort_head_best first (first :: rest) Hne) as [Hbin Hbmax].
  set (best := hd first (sort _ (first :: rest))) in *.
  rewrite <- F in Hbin. apply filter_exact_In in Hbin. destruct Hbin as [Hbg Hbe].
  exists best. repeat split; try assumption; try apply Hbe.
  intros p Hp He. apply Hbmax. rewrite <- F. apply filter_exact_In. auto.
Qed.

(** C5.  When gathered permissions match the request exactly, the
    permission the check reports is one of them and no exact match has a
    scope of greater priority (ALL 3, DEPARTMENT 2, OWN 1); the reported
    scope is its scope.  In particular, with an exact match of scope ALL
    among them (say next to one of scope OWN), the check allows with
    effective scope ALL. *)
Theorem checkPermission_scope_precedence
    (db : Database) (request : PermissionCheckRequest) (now : Z) :
  let gathered :=
    userRoleRepository.getAllUserPermissions db (req_userId request)
      (req_targetDepartmentId request) now in
  let result := authorizationService.checkPermission db request now in
  (exists p, In p gathered /\ exactMatch request p) ->
  authorizationService.scopePriority Scope.OWN
    < authorizationService.scopePriority Scope.DEPARTMENT
    < authorizationService.scopePriority Scope.ALL
  /\ (exists best,
        matchedPermission result = Some best
        /\ effectiveScope result = Some (perm_scope best)
        /\ In best gathered /\ exactMatch request best
        /\ forall p, In p gathered -> exactMatch request p ->
             authorizationService.scopePriority (perm_scope p)
             <= authorizationService.scopePriority (perm_scope best))
  /\ ((exists p, In p gathered /\ exactMatch request p /\ perm_scope p = Scope.ALL) ->
      allowed result = true /\ effectiveScope result = Some Scope.ALL).
Proof.
  intros gathered result Hex.
  split; [simpl; lia|].
  destruct (checkPermission_exact_path db request now Hex)
    as (best & Hbg & Hbe & Hmax & Hres).
  fold gathered in Hbg, Hmax. unfold result. rewrite Hres. split.
  - exists best.
    destruct (Scope.eqb (perm_scope best) Scope.OWN && truthy (req_targetOwnerId request)
              && negb (opt_string_eqb (req_targetOwnerId request)
                                      (Some (req_userId request))));
      simpl; auto.
  - intros (p & Hp & He & Hs).
    assert (Hb : perm_scope best = Scope.ALL).
    { apply scopePriority_ALL. rewrite <- Hs. apply Hmax; assumption. }
    rewrite Hb. simpl. auto.
Qed.

(** The ownership rule on the exact-match path: when the exact matches
    all have scope OWN and a target owner other than the user is given,
    the check denies. *)
Lemma checkPermission_own_exact_denies
    (db : Database) (request : PermissionCheckRequest) (now : Z) (owner : string) :
  let gathered :=
    userRoleRepository.getAllUserPermissions db (req_userId request)
      (req_targetDepartmentId request) now in
  let result := authorizationService.checkPermission db request now in
  (exists p, In p gathered /\ exactMatch request p) ->
  (forall p, In p gathered -> exactMatch request p -> perm_scope p = Scope.OWN) ->
  req_targetOwnerId request = Some owner -> owner <> "" ->
  owner <> req_userId request ->
  allowed result = false
  /\ reason result = Some "Permission only allows access to own resources"
  /\ effectiveScope result = Some Scope.OWN.
Proof.
  intros gathered result Hex Hown Ho Hne Hdiff.
  destruct (checkPermission_exact_path db request now Hex)
    as (best & Hbg & Hbe & _ & Hres).
  fold gathered in Hbg. unfold result. rewrite Hres.
  rewrite (Hown best Hbg Hbe), Ho. simpl.
  assert (H1 : (owner =? "")%string = false) by (apply String.eqb_neq; exact Hne).
  assert (H2 : (owner =? req_userId request)%string = false)
    by (apply String.eqb_neq; exact Hdiff).
  rewrite H1, H2. simpl. auto.
Qed.

(** C1.  A request of user [u1] to delete a file owned by [u2], with
    [file:manage] of scope OWN as the only permission on files: no
    permission matches exactly, the MANAGE permission is found, and the
    check returns through the MANAGE branch with [allowed = true] and
    effective scope OWN, without the ownership rule being applied. *)
Theorem checkPermission_manage_skips_ownership :
  authorizationService.checkPermission Demo.db
    (Demo.request Resource.FILE Action.DELETE None (Some "u2")) 100
  = {| allowed := true; reason := None;
       matchedPermission := Some Demo.file_manage;
       effectiveScope := Some Scope.OWN |}.
Proof. vm_compute. reflexivity. Qed.

Lemma checkPermission_matched_gathered
    (db : Database) (request : PermissionCheckRequest) (now : Z) (q : PermissionEntity) :
  matchedPermission (authorizationService.checkPermission db request now) = Some q ->
  In q (userRoleRepository.getAllUserPermissions db (req_userId request)
          (req_targetDepartmentId request) now).
Proof.
  unfold authorizationService.checkPermission.
  set (gathered := userRoleRepository.getAllUserPermissions _ _ _ _).
  destruct (filter _ gathered) as [|first rest] eqn:F.
  - destruct (find _ gathered) as [m|] eqn:M; simpl; [|discriminate].
    intros H. injection H as <-. apply find_manage_Some in M. tauto.
  - assert (Hne : first :: rest <> []) by congruence.
    destruct (sort_head_best first (first :: rest) Hne) as [Hbin _].
    set (best := hd first (sort _ (first :: rest))) in *.
    rewrite <- F in Hbin. apply filter_exact_In in Hbin.
    match goal with |- context [if ?c then _ else _] => destruct c end;
      simpl; intros H; injection H as <-; tauto.
Qed.

Lemma checkPermission_allowed_matched
    (db : Database) (request : PermissionCheckRequest) (now : Z) :
  allowed (authorizationService.checkPermission db request now) = true ->
  exists q, matchedPermission (authorizationService.checkPermission db request now)
            = Some q.
Proof.
  unfold authorizationService.checkPermission.
  set (gathered := userRoleRepository.getAllUserPermissions _ _ _ _).
  destruct (filter _ gathered) as [|first rest].
  - destruct (find _ gathered) as [m|]; simpl; [eauto|discriminate].
  - match goal with |- context [if ?c then _ else _] => destruct c end;
      simpl; eauto.
Qed.

(** ** Active permissions only *)

Lemma gathered_active (db : Database) (userId : string)
    (departmentId : option string) (now : Z) (p : PermissionEntity) :
  In p (userRoleRepository.getAllUserPermissions db userId departmentId now) ->
  perm_isActive p = true.
Proof.
  intros H. apply getAllUserPermissions_In in H. destruct H as (r & _ & _ & H).
  apply include_rolePermissions_canonical in H. tauto.
Qed.

Lemma getUserRoles_In (db : Database) (userId : string) (now : Z)
    (d : UserRoleWithDetails) :
  In d (userRoleRepository.getUserRoles db userId now) <->
  In (urd_userRole d) (userRoles db)
  /\ ur_userId (urd_userRole d) = userId
  /\ ur_isActive (urd_userRole d) = true
  /\ OR [expiresAt_null; expiresAt_gt now] (urd_userRole d) = true
  /\ userRoleRepository.include_role db (urd_userRole d) = Some (urd_role d)
  /\ role_isActive (rwp_role (urd_role d)) = true.
Proof.
  unfold userRoleRepository.getUserRoles. rewrite in_flat_map. split.
  - intros (ur & Hf & H). apply filter_In in Hf. destruct Hf as [Hin Hb].
    destruct (userRoleRepository.include_role db ur) as [ro|] eqn:E; [|contradiction].
    destruct (role_isActive (rwp_role ro)) eqn:A; [|contradiction].
    destruct H as [H|[]]. subst d. simpl.
    apply andb_true_iff in Hb. destruct Hb as [Hb Ho].
    apply andb_true_iff in Hb. destruct Hb as [Hu Ha].
    apply String.eqb_eq in Hu. auto 10.
  - intros (Hin & Hu & Ha & Ho & Hi & Hr). exists (urd_userRole d). split.
    + apply filter_In. split; [exact Hin|].
      rewrite Hu, String.eqb_refl, Ha, Ho. reflexivity.
    + rewrite Hi, Hr. left. destruct d. reflexivity.
Qed.

Lemma getUserRoles_active (db : Database) (userId : string) (now : Z)
    (d : UserRoleWithDetails) (p : PermissionEntity) :
  In d (userRoleRepository.getUserRoles db userId now) ->
  In p (rwp_permissions (urd_role d)) -> perm_isActive p = true.
Proof.
  intros Hd Hp. apply getUserRoles_In in Hd.
  destruct Hd as (_ & _ & _ & _ & Hi & _).
  unfold userRoleRepository.include_role in Hi.
  destruct (role_of db (ur_roleId (urd_userRole d))) as [ro|]; [|discriminate].
  injection Hi as Hi. rewrite <- Hi in Hp. simpl in Hp.
  apply include_rolePermissions_canonical in Hp. tauto.
Qed.

Lemma addPermissions_In (ps : list PermissionEntity) :
  forall (st : list PermissionEntity * JsSet.t) (p : PermissionEntity),
    In p (fst (authorizationService.addPermissions ps st)) ->
    In p (fst st) \/ In p ps.
Proof.
  unfold authorizationService.addPermissions.
  induction ps as [|q ps IH]; intros st p H; simpl in *; [auto|].
  apply IH in H.
  destruct (JsSet.has (snd st) (perm_id q)); simpl in H.
  - tauto.
  - destruct H as [H|H]; [|tauto]. apply in_app_or in H.
    destruct H as [H|[H|[]]]; auto.
Qed.

Lemma effective_permissions_In (ds : list UserRoleWithDetails) :
  forall (acc : authorizationService.Accumulator) (p : PermissionEntity),
    In p (authorizationService.acc_permissions
            (fold_left authorizationService.step ds acc)) ->
    In p (authorizationService.acc_permissions acc)
    \/ exists d, In d ds /\ In p (rwp_permissions (urd_role d)).
Proof.
  induction ds as [|d ds IH]; intros acc p H; simpl in *; [auto|].
  apply IH in H. destruct H as [H|(d' & Hd' & H)].
  - unfold authorizationService.step in H. simpl in H.
    apply addPermissions_In in H. simpl in H. destruct H as [H|H]; [auto|].
    right. exists d. auto.
  - right. exists d'. auto.
Qed.

(** C10.  A permission whose [isActive] flag is false is in no gathered
    set: not in the result of [getAllUserPermissions], not among the
    permissions of a role returned by [getUserRoles], not in the
    permissions of [getEffectivePermissions]; [checkPermission] never
    reports it as the matched permission, and whenever it allows, the
    permission it reports is active. *)
Theorem inactive_permission_invisible (db : Database) (p : PermissionEntity) :
  perm_isActive p = false ->
  forall (userId : string) (now : Z),
    (forall departmentId,
        ~ In p (userRoleRepository.getAllUserPermissions db userId departmentId now))
    /\ (forall d, In d (userRoleRepository.getUserRoles db userId now) ->
                  ~ In p (rwp_permissions (urd_role d)))
    /\ (forall e message,
          authorizationService.getEffectivePermissions db userId now = success e message ->
          ~ In p (authorizationService.eff_permissions e))
    /\ (forall request,
          matchedPermission (authorizationService.checkPermission db request now)
          <> Some p
          /\ (allowed (authorizationService.checkPermission db request now) = true ->
              exists q,
                matchedPermission (authorizationService.checkPermission db request now)
                = Some q
                /\ perm_isActive q = true)).
Proof.
  intros Hp userId now. repeat split.
  - intros departmentId H. apply gathered_active in H. congruence.
  - intros d Hd H. pose proof (getUserRoles_active _ _ _ _ _ Hd H). congruence.
  - intros e message He H.
    unfold authorizationService.getEffectivePermissions in He.
    injection He as <- _. simpl in H.
    apply effective_permissions_In in H. simpl in H.
    destruct H as [[]|(d & Hd & H)].
    pose proof (getUserRoles_active _ _ _ _ _ Hd H). congruence.
  - intros H. apply checkPermission_matched_gathered in H.
    apply gathered_active in H. congruence.
  - intros Ha. destruct (checkPermission_allowed_matched _ _ _ Ha) as (q & Hq).
    exists q. split; [exact Hq|].
    apply checkPermission_matched_gathered in Hq.
    apply gathered_active in Hq. exact Hq.
Qed.

(** ** hasRole *)

Lemma hasRole_true (db : Database) (userId roleCode : string)
    (departmentId : option string) (now : Z) :
  userRoleRepository.hasRole db userId roleCode departmentId now = true <->
  exists r ro,
    In r (userRoles db) /\ ur_userId r = userId
    /\ role_of db (ur_roleId r) = Some ro
    /\ role_code ro = roleCode /\ role_isActive ro = true
    /\ ur_isActive r = true
    /\ OR (userRoleRepository.hasRole_OR departmentId now) r = true.
Proof.
  unfold userRoleRepository.hasRole. rewrite Nat.ltb_lt. split.
  - intros H.
    destruct (filter _ (userRoles db)) as [|r rest] eqn:F; [simpl in H; lia|].
    assert (Hr : In r (r :: rest)) by (simpl; auto).
    rewrite <- F in Hr. apply filter_In in Hr. destruct Hr as [Hin Hb].
    repeat (apply andb_true_iff in Hb; destruct Hb as [Hb ?]).
    destruct (role_of db (ur_roleId r)) as [ro|] eqn:E; [|discriminate].
    exists r, ro.
    match goal with H : (_ && _)%bool = true |- _ =>
      apply andb_true_iff in H; destruct H as [Hc Ha] end.
    apply String.eqb_eq in Hb, Hc. auto 10.
  - intros (r & ro & Hin & Hu & Hro & Hc & Ha & Hact & Ho).
    assert (Hr : In r (filter
      (fun r => (ur_userId r =? userId)%string
                && match role_of db (ur_roleId r) with
                   | Some ro => (role_code ro =? roleCode)%string && role_isActive ro
                   | None => false
                   end
                && ur_isActive r
                && OR (userRoleRepository.hasRole_OR departmentId now) r)
      (userRoles db))).
    { apply filter_In. split; [exact Hin|].
      rewrite Hu, Hro, Hc, !String.eqb_refl, Ha, Hact, Ho. reflexivity. }
    destruct (filter _ (userRoles db)); [contradiction|]. simpl. lia.
Qed.

(** Without a department, [hasRole] asks for a row that is active and
    not expired. *)
Lemma hasRole_no_department (db : Database) (userId roleCode : string) (now : Z) :
  userRoleRepository.hasRole db userId roleCode None now = true <->
  exists r ro,
    In r (userRoles db) /\ ur_userId r = userId
    /\ role_of db (ur_roleId r) = Some ro
    /\ role_code ro = roleCode /\ role_isActive ro = true
    /\ ur_isActive r = true
    /\ (ur_expiresAt r = None \/ exists e, ur_expiresAt r = Some e /\ now < e).
Proof.
  rewrite hasRole_true. split; intros (r & ro & Hin & Hu & Hro & Hc & Ha & Hact & Ho);
    exists r, ro; repeat (split; [assumption|]).
  - simpl in Ho. unfold expiresAt_null, expiresAt_gt in Ho.
    destruct (ur_expiresAt r) as [e|]; [|auto]. right. exists e.
    simpl in Ho. rewrite orb_false_r in Ho. apply Z.ltb_lt in Ho. auto.
  - simpl. unfold expiresAt_null, expiresAt_gt.
    destruct Ho as [Ho|(e & Ho & He)]; rewrite Ho; [reflexivity|].
    simpl. rewrite orb_false_r. apply Z.ltb_lt. exact He.
Qed.

(** With a department, the only alternatives left in the query are on
    the department of the row: its expiry is not looked at. *)
Lemma hasRole_department (db : Database) (userId roleCode d : string) (now : Z) :
  userRoleRepository.hasRole db userId roleCode (Some d) now = true <->
  exists r ro,
    In r (userRoles db) /\ ur_userId r = userId
    /\ role_of db (ur_roleId r) = Some ro
    /\ role_code ro = roleCode /\ role_isActive ro = true
    /\ ur_isActive r = true
    /\ (ur_departmentId r = Some d \/ ur_departmentId r = None).
Proof.
  rewrite hasRole_true. split; intros (r & ro & Hin & Hu & Hro & Hc & Ha & Hact & Ho);
    exists r, ro; repeat (split; [assumption|]).
  - simpl in Ho. unfold departmentId_is, departmentId_null in Ho.
    destruct (ur_departmentId r) as [x|]; [|auto]. left.
    simpl in Ho. rewrite orb_false_r in Ho. apply String.eqb_eq in Ho. congruence.
  - simpl. unfold departmentId_is, departmentId_null.
    destruct Ho as [Ho|Ho]; rewrite Ho; [|reflexivity].
    rewrite String.eqb_refl. reflexivity.
Qed.

(** C2.  User [u2] holds [manager] through one assignment, global and
    expired since time 50.  At time 100, asked without a department,
    [hasRole] answers false; asked with department [d1], it answers
    true: the expired row qualifies. *)
Theorem hasRole_department_ignores_expiry :
  authorizationService.hasRole Demo.db "u2" "manager" None 100 = false
  /\ authorizationService.hasRole Demo.db "u2" "manager" (Some "d1") 100 = true.
Proof. split; vm_compute; reflexivity. Qed.

(** ** Which assignments the gathering step selects *)

Lemma grantedActive_include (db : Database) (roleId : string) (p : PermissionEntity) :
  In p (map snd (include_rolePermissions db roleId)) <-> grantedActive db roleId p.
Proof.
  unfold grantedActive. rewrite in_map_iff. split.
  - intros ([rp q] & Heq & Hin). simpl in Heq. subst q.
    apply include_rolePermissions_In in Hin. exists rp. exact Hin.
  - intros (rp & H). exists (rp, p). split; [reflexivity|].
    apply include_rolePermissions_In. exact H.
Qed.

Lemma expiry_alternatives (now : Z) (r : UserRoleEntity) :
  OR [expiresAt_null; expiresAt_gt now] r = true <->
  (ur_expiresAt r = None \/ exists e, ur_expiresAt r = Some e /\ now < e).
Proof.
  simpl. unfold expiresAt_null, expiresAt_gt.
  destruct (ur_expiresAt r) as [e|]; simpl; rewrite ?orb_false_r.
  - rewrite Z.ltb_lt. split.
    + intros H. right. exists e. auto.
    + intros [H|(e' & H & Hlt)]; [discriminate|]. injection H as ->. exact Hlt.
  - split; auto.
Qed.

Lemma truthy_Some (d : string) : truthy (Some d) = true <-> d <> "".
Proof.
  simpl. rewrite negb_true_iff. apply String.eqb_neq.
Qed.

Lemma whereUserRole_OR_true (departmentId : option string) (now : Z) (r : UserRoleEntity) :
  OR (userRoleRepository.whereUserRole_OR departmentId now) r = true <->
  (ur_expiresAt r = None \/ exists e, ur_expiresAt r = Some e /\ now < e)
  /\ (truthy departmentId = false
      \/ ur_departmentId r = None \/ ur_departmentId r = departmentId).
Proof.
  unfold userRoleRepository.whereUserRole_OR.
  destruct departmentId as [d|].
  2:{ rewrite expiry_alternatives. simpl. tauto. }
  destruct (truthy (Some d)) eqn:T.
  2:{ rewrite expiry_alternatives. tauto. }
  rewrite <- expiry_alternatives. simpl.
  unfold both, departmentId_null, departmentId_is.
  destruct (ur_departmentId r) as [x|]; simpl; rewrite ?orb_false_r.
  - destruct (x =? d)%string eqn:E; simpl.
    + apply String.eqb_eq in E. subst x. intuition.
    + apply String.eqb_neq in E. split.
      * intros H. discriminate.
      * intros [_ [H|[H|H]]]; try discriminate. congruence.
  - intuition.
Qed.

Lemma whereUserRole_true (db : Database) (userId : string)
    (departmentId : option string) (now : Z) (r : UserRoleEntity) :
  userRoleRepository.whereUserRole db userId departmentId now r = true <->
  ur_userId r = userId /\ effective now r /\ role_isActive_of db r = true
  /\ (truthy departmentId = false
      \/ ur_departmentId r = None \/ ur_departmentId r = departmentId).
Proof.
  unfold userRoleRepository.whereUserRole, effective.
  rewrite !andb_true_iff, whereUserRole_OR_true, String.eqb_eq. tauto.
Qed.

(** A permission is gathered exactly when an effective assignment of the
    user, let through by the department rule and with an active role,
    carries it through an active grant. *)
Lemma gathered_iff (db : Database) (userId : string)
    (departmentId : option string) (now : Z) (p : PermissionEntity) :
  In p (userRoleRepository.getAllUserPermissions db userId departmentId now) <->
  exists r, In r (userRoles db) /\ ur_userId r = userId /\ effective now r
            /\ role_isActive_of db r = true
            /\ (truthy departmentId = false
                \/ ur_departmentId r = None \/ ur_departmentId r = departmentId)
            /\ grantedActive db (ur_roleId r) p.
Proof.
  rewrite getAllUserPermissions_In. split.
  - intros (r & Hin & Hw & Hp). exists r.
    apply whereUserRole_true in Hw. apply grantedActive_include in Hp. tauto.
  - intros (r & Hin & Hu & He & Hr & Hd & Hp). exists r.
    rewrite whereUserRole_true, grantedActive_include. tauto.
Qed.

(** C3 (as the code has it).  A user whose assignments are a global one
    to role X and one to role Y in department D, both effective and with
    active roles.  Gathered with target department D: the active
    permissions of X and of Y.  Gathered with another (non-empty)
    department: those of X only.  Gathered with no department: those of
    X and of Y again, since without a department no assignment is left
    out on account of its department. *)
Theorem department_union
    (db : Database) (userId X Y D : string) (aX aY : UserRoleEntity) (now : Z) :
  (forall r, In r (userRoles db) /\ ur_userId r = userId <-> r = aX \/ r = aY) ->
  ur_roleId aX = X -> ur_departmentId aX = None ->
  ur_roleId aY = Y -> ur_departmentId aY = Some D -> D <> "" ->
  effective now aX -> effective now aY ->
  role_isActive_of db aX = true -> role_isActive_of db aY = true ->
  (forall p,
      In p (userRoleRepository.getAllUserPermissions db userId (Some D) now) <->
      grantedActive db X p \/ grantedActive db Y p)
  /\ (forall D', D' <> D -> D' <> "" ->
      forall p,
        In p (userRoleRepository.getAllUserPermissions db userId (Some D') now) <->
        grantedActive db X p)
  /\ (forall p,
        In p (userRoleRepository.getAllUserPermissions db userId None now) <->
        grantedActive db X p \/ grantedActive db Y p).
Proof.
  intros Hrows HX HdX HY HdY HD HeX HeY HrX HrY.
  assert (HinX : In aX (userRoles db) /\ ur_userId aX = userId)
    by (apply Hrows; auto).
  assert (HinY : In aY (userRoles db) /\ ur_userId aY = userId)
    by (apply Hrows; auto).
  assert (Hcase : forall r, In r (userRoles db) -> ur_userId r = userId ->
                            r = aX \/ r = aY)
    by (intros r H1 H2; apply Hrows; auto).
  split; [|split].
  - intros p. rewrite gathered_iff. split.
    + intros (r & Hin & Hu & _ & _ & _ & Hp).
      destruct (Hcase r Hin Hu) as [-> | ->]; [left|right]; congruence.
    + intros [Hp|Hp]; [exists aX | exists aY]; subst X Y; intuition.
  - intros D' Hne HD' p. rewrite gathered_iff. split.
    + intros (r & Hin & Hu & _ & _ & Hd & Hp).
      destruct (Hcase r Hin Hu) as [-> | ->]; [congruence|].
      exfalso. destruct Hd as [Hd|[Hd|Hd]].
      * apply truthy_Some in HD'. congruence.
      * congruence.
      * rewrite HdY in Hd. injection Hd as Hd. congruence.
    + intros Hp. exists aX. subst X. intuition.
  - intros p. rewrite gathered_iff. split.
    + intros (r & Hin & Hu & _ & _ & _ & Hp).
      destruct (Hcase r Hin Hu) as [-> | ->]; [left|right]; congruence.
    + intros [Hp|Hp]; [exists aX | exists aY]; subst X Y; simpl; intuition.
Qed.

Lemma department_union_witness :
  (forall p,
      In p (userRoleRepository.getAllUserPermissions Demo.db "u1" (Some "d1") 100) <->
      grantedActive Demo.db "r1" p \/ grantedActive Demo.db "r2" p)
  /\ (forall D', D' <> "d1" -> D' <> "" ->
      forall p,
        In p (userRoleRepository.getAllUserPermissions Demo.db "u1" (Some D') 100) <->
        grantedActive Demo.db "r1" p)
  /\ (forall p,
        In p (userRoleRepository.getAllUserPermissions Demo.db "u1" None 100) <->
        grantedActive Demo.db "r1" p \/ grantedActive Demo.db "r2" p).
Proof.
  apply (department_union Demo.db "u1" "r1" "r2" "d1"
           Demo.u1_employee Demo.u1_manager_d1 100).
  - intros r. split.
    + intros [Hin Hu]. simpl in Hin.
      destruct Hin as [<-|[<-|[<-|[]]]]; auto. discriminate.
    + intros [->| ->]; simpl; auto.
  - reflexivity.
  - reflexivity.
  - reflexivity.
  - reflexivity.
  - discriminate.
  - split; simpl; auto.
  - split; simpl; auto.
  - reflexivity.
  - reflexivity.
Defined.

(** C3, the claim as worded fails: gathered with no department, the
    permissions of user [u1] include [expense-claim:approve], which role
    [employee] (held globally) does not grant; it comes from [manager],
    held in department [d1]. *)
Lemma department_union_no_department_counterexample :
  ~ (forall p,
        In p (userRoleRepository.getAllUserPermissions Demo.db "u1" None 100) ->
        grantedActive Demo.db "r1" p).
Proof.
  intros H. specialize (H Demo.claim_approve).
  assert (Hin : In Demo.claim_approve
                  (userRoleRepository.getAllUserPermissions Demo.db "u1" None 100)).
  { vm_compute. auto 10. }
  apply H in Hin. apply grantedActive_include in Hin.
  vm_compute in Hin. intuition discriminate.
Qed.

(** ** The cached permissions and the gathered ones *)

Lemma role_of_id (db : Database) (roleId : string) (ro : RoleEntity) :
  role_of db roleId = Some ro -> role_id ro = roleId /\ In ro (roles db).
Proof.
  unfold role_of. intros H. apply find_some in H. destruct H as [Hin E].
  apply String.eqb_eq in E. auto.
Qed.

Lemma has_pairs (acc : list PermissionEntity) (k : string) :
  JsMap.has (map (fun p => (perm_id p, p)) acc) k = JsSet.has (map perm_id acc) k.
Proof.
  unfold JsMap.has, JsSet.has. induction acc as [|p acc IH]; simpl; [reflexivity|].
  rewrite IH. reflexivity.
Qed.

(** The two inner loops add the same permissions. *)
Lemma collect_addPermissions (rps : list (RolePermission * PermissionEntity)) :
  forall acc : list PermissionEntity,
    exists acc',
      userRoleRepository.collect (map (fun p => (perm_id p, p)) acc) rps
      = map (fun p => (perm_id p, p)) acc'
      /\ authorizationService.addPermissions (map snd rps) (acc, map perm_id acc)
         = (acc', map perm_id acc').
Proof.
  unfold userRoleRepository.collect, authorizationService.addPermissions.
  induction rps as [|[rp q] rps IH]; intros acc; simpl.
  - exists acc. auto.
  - rewrite has_pairs. destruct (JsSet.has (map perm_id acc) (perm_id q)) eqn:H; simpl.
    + apply IH.
    + rewrite JsMap_set_fresh by (rewrite has_pairs; exact H).
      unfold JsSet.add. rewrite H.
      replace (map (fun p => (perm_id p, p)) acc ++ [(perm_id q, q)])
        with (map (fun p => (perm_id p, p)) (acc ++ [q]))
        by (rewrite map_app; reflexivity).
      replace (map perm_id acc ++ [perm_id q]) with (map perm_id (acc ++ [q]))
        by (rewrite map_app; reflexivity).
      apply IH.
Qed.

Lemma existsb_pointwise {A : Type} (f g : A -> bool) (l : list A) :
  (forall x, f x = g x) -> existsb f l = existsb g l.
Proof.
  intros H. induction l as [|x l IH]; simpl; [reflexivity|]. rewrite H, IH. reflexivity.
Qed.

Lemma forallb_pointwise {A : Type} (f g : A -> bool) (l : list A) :
  (forall x, f x = g x) -> forallb f l = forallb g l.
Proof.
  intros H. induction l as [|x l IH]; simpl; [reflexivity|]. rewrite H, IH. reflexivity.
Qed.

Lemma filter_head {A : Type} (f : A -> bool) (x : A) (l : list A) :
  filter f (x :: l) = if f x then x :: filter f l else filter f l.
Proof. reflexivity. Qed.

Lemma flat_map_head {A B : Type} (f : A -> list B) (x : A) (l : list A) :
  flat_map f (x :: l) = f x ++ flat_map f l.
Proof. reflexivity. Qed.

Lemma values_pairs (acc : list PermissionEntity) :
  JsMap.values (map (fun p => (perm_id p, p)) acc) = acc.
Proof.
  unfold JsMap.values. rewrite map_map. simpl. apply map_id.
Qed.

Lemma effective_equals_gathered_loop (db : Database) (userId : string) (now : Z)
    (rows : list UserRoleEntity) :
  forall (A : authorizationService.Accumulator) (acc : list PermissionEntity),
    authorizationService.acc_permissions A = acc ->
    authorizationService.acc_seenPermissionIds A = map perm_id acc ->
    authorizationService.acc_permissions
      (fold_left authorizationService.step
         (flat_map
            (fun ur =>
               match userRoleRepository.include_role db ur with
               | Some ro =>
                   if role_isActive (rwp_role ro)
                   then [{| urd_userRole := ur; urd_role := ro |}]
                   else []
               | None => []
               end)
            (filter (fun r => (ur_userId r =? userId)%string && ur_isActive r
                              && OR [expiresAt_null; expiresAt_gt now] r)
                    rows))
         A)
    = JsMap.values
        (fold_left
           (fun m userRole =>
              userRoleRepository.collect m
                (include_rolePermissions db (ur_roleId userRole)))
           (filter (userRoleRepository.whereUserRole db userId None now) rows)
           (map (fun p => (perm_id p, p)) acc)).
Proof.
  induction rows as [|r rows IH]; intros A acc HA Hseen.
  - simpl. rewrite values_pairs. exact HA.
  - rewrite !filter_head.
    assert (Hw : userRoleRepository.whereUserRole db userId None now r
                 = ((ur_userId r =? userId)%string && ur_isActive r
                    && OR [expiresAt_null; expiresAt_gt now] r)
                   && role_isActive_of db r).
    { unfold userRoleRepository.whereUserRole, userRoleRepository.whereUserRole_OR.
      destruct (ur_userId r =? userId)%string, (ur_isActive r),
        (role_isActive_of db r), (OR [expiresAt_null; expiresAt_gt now] r);
        reflexivity. }
    rewrite Hw.
    destruct ((ur_userId r =? userId)%string && ur_isActive r
              && OR [expiresAt_null; expiresAt_gt now] r).
    2:{ apply IH; assumption. }
    rewrite andb_true_l, flat_map_head.
    unfold role_isActive_of, userRoleRepository.include_role.
    destruct (role_of db (ur_roleId r)) as [ro|] eqn:R.
    2:{ apply IH; assumption. }
    destruct (role_of_id _ _ _ R) as [Hid _].
    cbn [rwp_role].
    destruct (role_isActive ro) eqn:Act.
    2:{ apply IH; assumption. }
    destruct (collect_addPermissions (include_rolePermissions db (ur_roleId r)) acc)
      as (acc' & Hc & Ha).
    cbn [app fold_left]. rewrite Hc. apply IH.
    + unfold authorizationService.step.
      cbn [authorizationService.acc_permissions urd_role rwp_permissions rwp_role fst snd].
      rewrite Hid, HA, Hseen. exact (f_equal fst Ha).
    + unfold authorizationService.step.
      cbn [authorizationService.acc_seenPermissionIds urd_role rwp_permissions rwp_role
           fst snd].
      rewrite Hid, HA, Hseen. exact (f_equal snd Ha).
Qed.

Lemma effective_permissions_eq (db : Database) (userId : string) (now : Z)
    (e : authorizationService.UserEffectivePermissions) (message : option string) :
  authorizationService.getEffectivePermissions db userId now = success e message ->
  authorizationService.eff_permissions e
  = userRoleRepository.getAllUserPermissions db userId None now.
Proof.
  unfold authorizationService.getEffectivePermissions. intros H.
  injection H as <- _. simpl.
  unfold userRoleRepository.getUserRoles, userRoleRepository.getAllUserPermissions.
  apply (effective_equals_gathered_loop db userId now (userRoles db) _ []);
    reflexivity.
Qed.

(** ** Expiry *)





(** ** Rows under a unique key *)

Lemma NoDup_snoc {K : Type} (l : list K) (x : K) :
  NoDup l -> ~ In x l -> NoDup (l ++ [x]).
Proof.
  induction l as [|y l IH]; intros Hnd Hx; simpl.
  - constructor; [auto|constructor].
  - apply NoDup_cons_iff in Hnd. destruct Hnd as [Hy Hnd].
    constructor.
    + rewrite in_app_iff. simpl. intros [H|[H|[]]]; [auto|].
      apply Hx. simpl. auto.
    + apply IH; [exact Hnd|]. intros H. apply Hx. simpl. auto.
Qed.

Section UniqueKey.
Context {A K : Type} (key : A -> K) (test : A -> bool) (k : K).
Hypothesis test_key : forall a, test a = true <-> key a = k.

Lemma filter_none (l : list A) :
  (forall a, In a l -> key a <> k) -> filter test l = [].
Proof.
  induction l as [|a l IH]; intros H; simpl; [reflexivity|].
  destruct (test a) eqn:T.
  - apply test_key in T. exfalso. apply (H a); simpl; auto.
  - apply IH. intros b Hb. apply H. simpl. auto.
Qed.

Lemma find_None_filter (l : list A) : find test l = None -> filter test l = [].
Proof.
  intros H. apply filter_none. intros a Ha Hk.
  apply test_key in Hk. pose proof (find_none _ _ H a Ha). congruence.
Qed.

Lemma find_None_key (l : list A) : find test l = None -> ~ In k (map key l).
Proof.
  intros H Hin. apply in_map_iff in Hin. destruct Hin as (a & Hk & Ha).
  apply test_key in Hk. pose proof (find_none _ _ H a Ha). congruence.
Qed.

Lemma filter_map_unique (f : A -> A) (l : list A) (x : A) :
  (forall a, key (f a) = key a) ->
  NoDup (map key l) -> In x l -> key x = k ->
  filter test (map f l) = [f x].
Proof.
  intros Hf. induction l as [|a l IH]; intros Hnd Hin Hk; [contradiction|].
  simpl in Hnd. apply NoDup_cons_iff in Hnd. destruct Hnd as [Hnot Hnd'].
  simpl. destruct (test (f a)) eqn:T.
  - apply test_key in T. rewrite Hf in T.
    assert (Hx : x = a).
    { destruct Hin as [Hin|Hin]; [auto|]. exfalso. apply Hnot.
      rewrite T, <- Hk. apply in_map. exact Hin. }
    subst x. f_equal. apply filter_none. intros b Hb Hkb.
    apply in_map_iff in Hb. destruct Hb as (c & <- & Hc).
    rewrite Hf in Hkb. apply Hnot. rewrite T, <- Hkb. apply in_map. exact Hc.
  - destruct Hin as [Hin|Hin].
    + subst a. exfalso.
      assert (test (f x) = true) by (apply test_key; rewrite Hf; exact Hk).
      congruence.
    + apply IH; assumption.
Qed.

Lemma filter_unique (l : list A) (x : A) :
  NoDup (map key l) -> In x l -> key x = k -> filter test l = [x].
Proof.
  intros Hnd Hin Hk.
  rewrite <- (map_id l) at 1. apply (filter_map_unique (fun a => a)); auto.
Qed.
End UniqueKey.

(** ** Grants *)

Lemma roleId_permissionId_key (roleId permissionId : string) (rp : RolePermission) :
  roleRepository.roleId_permissionId roleId permissionId rp = true <->
  grantKey rp = (roleId, permissionId).
Proof.
  unfold roleRepository.roleId_permissionId, grantKey.
  rewrite andb_true_iff, !String.eqb_eq. split.
  - intros [-> ->]. reflexivity.
  - intros H. injection H as -> ->. auto.
Qed.

Lemma grantPermission_one_row (db : Database) (data : GrantPermissionInput)
    (now : Z) (newId : string) :
  uniqueGrants db ->
  roleRepository.findById db (grant_roleId data) <> None ->
  permissionRepository.findById db (grant_permissionId data) <> None ->
  exists db',
    roleRepository.grantPermission db data now newId = Some db'
    /\ uniqueGrants db'
    /\ (exists rp,
          filter (roleRepository.roleId_permissionId
                    (grant_roleId data) (grant_permissionId data))
                 (rolePermissions db') = [rp])
    /\ filter (fun rp => negb (roleRepository.roleId_permissionId
                                 (grant_roleId data) (grant_permissionId data) rp))
              (rolePermissions db')
       = filter (fun rp => negb (roleRepository.roleId_permissionId
                                   (grant_roleId data) (grant_permissionId data) rp))
                (rolePermissions db)
    /\ roles db' = roles db /\ permissions db' = permissions db.
Proof.
  intros Hu Hr Hp. unfold roleRepository.grantPermission.
  set (test := roleRepository.roleId_permissionId
                 (grant_roleId data) (grant_permissionId data)).
  pose proof (roleId_permissionId_key (grant_roleId data) (grant_permissionId data))
    as Hkey.
  destruct (find test (rolePermissions db)) as [rp|] eqn:F.
  - exists db. split; [reflexivity|]. split; [exact Hu|]. split; [|auto].
    exists rp. apply find_some in F. destruct F as [Hin Ht].
    apply (filter_unique grantKey test _ Hkey); [exact Hu|exact Hin|].
    apply Hkey. exact Ht.
  - destruct (roleRepository.findById db (grant_roleId data)); [|congruence].
    unfold permissionRepository.findById in Hp. unfold permission_of.
    destruct (find _ (permissions db)); [|congruence].
    eexists. split; [reflexivity|]. simpl. split; [|split; [|split; [|auto]]].
    + unfold uniqueGrants. simpl. rewrite map_app. simpl.
      apply NoDup_snoc; [exact Hu|].
      apply (find_None_key grantKey test _ Hkey). exact F.
    + eexists. rewrite filter_app.
      rewrite (find_None_filter grantKey test _ Hkey _ F). simpl.
      unfold test at 1. unfold roleRepository.roleId_permissionId. simpl.
      rewrite !String.eqb_refl. reflexivity.
    + rewrite filter_app. simpl.
      unfold test at 2. unfold roleRepository.roleId_permissionId. simpl.
      rewrite !String.eqb_refl. simpl. apply app_nil_r.
Qed.

Lemma grantPermission_existing (db : Database) (data : GrantPermissionInput)
    (now : Z) (newId : string) (rp : RolePermission) :
  In rp (rolePermissions db) ->
  grantKey rp = (grant_roleId data, grant_permissionId data) ->
  roleRepository.grantPermission db data now newId = Some db.
Proof.
  intros Hin Hk. unfold roleRepository.grantPermission.
  destruct (find _ (rolePermissions db)) eqn:F; [reflexivity|].
  exfalso. pose proof (find_none _ _ F rp Hin) as Hn.
  apply roleId_permissionId_key in Hk. simpl in Hn. congruence.
Qed.

(** What the service returns when the role and the permission are in
    the store. *)
Lemma service_grant_written (db : Database) (data : GrantPermissionInput)
    (now : Z) (newId : string) (db' : Database) :
  roleRepository.findById db (grant_roleId data) <> None ->
  permissionRepository.findById db (grant_permissionId data) <> None ->
  roleRepository.grantPermission db data now newId = Some db' ->
  roleService.grantPermission db data now newId
  = (Returned (success tt (Some "Permission granted successfully")), db').
Proof.
  intros Hr Hp H. unfold roleService.grantPermission.
  destruct (roleRepository.findById db (grant_roleId data)); [|congruence].
  destruct (permissionRepository.findById db (grant_permissionId data)); [|congruence].
  rewrite H. reflexivity.
Qed.

Lemma grantMany_loop (roleId permissionId : string)
    (calls : list (option string * Z * string)) :
  forall (acc : list (Outcome (Result unit))) (db : Database) (rp : RolePermission),
    roleRepository.findById db roleId <> None ->
    permissionRepository.findById db permissionId <> None ->
    In rp (rolePermissions db) -> grantKey rp = (roleId, permissionId) ->
    fold_left
      (fun (st : list (Outcome (Result unit)) * Database) call =>
         let r :=
           roleService.grantPermission (snd st)
             {| grant_roleId := roleId; grant_permissionId := permissionId;
                grant_grantedById := fst (fst call) |}
             (snd (fst call)) (snd call) in
         (fst st ++ [fst r], snd r))
      calls (acc, db)
    = (acc ++ map (fun _ => Returned
                              (success tt (Some "Permission granted successfully")))
                  calls,
       db).
Proof.
  induction calls as [|c calls IH]; intros acc db rp Hr Hp Hin Hk.
  - simpl. rewrite app_nil_r. reflexivity.
  - cbn [fold_left map]. cbn zeta. cbn [fst snd].
    rewrite (service_grant_written db
               {| grant_roleId := roleId; grant_permissionId := permissionId;
                  grant_grantedById := fst (fst c) |} (snd (fst c)) (snd c) db Hr Hp
               (grantPermission_existing db
                  {| grant_roleId := roleId; grant_permissionId := permissionId;
                     grant_grantedById := fst (fst c) |}
                  (snd (fst c)) (snd c) rp Hin Hk)).
    cbn [fst snd]. rewrite (IH _ db rp Hr Hp Hin Hk), <- app_assoc. reflexivity.
Qed.

Lemma filter_all {A : Type} (f : A -> bool) (l : list A) :
  (forall a, In a l -> f a = true) -> filter f l = l.
Proof.
  induction l as [|a l IH]; intros H; simpl; [reflexivity|].
  rewrite (H a) by (simpl; auto). f_equal. apply IH.
  intros b Hb. apply H. simpl. auto.
Qed.

Lemma filter_split_length {A : Type} (f : A -> bool) (l : list A) :
  length l = (length (filter f l) + length (filter (fun a => negb (f a)) l))%nat.
Proof.
  induction l as [|a l IH]; simpl; [reflexivity|].
  destruct (f a); simpl; lia.
Qed.

(** C8 (as the code has it).  Under the unique index on (role,
    permission).  For a role and a permission of the store: every call
    of a non-empty sequence of [grantPermission] calls for the pair
    succeeds, and afterwards the table holds exactly one row for the
    pair, the rows of the other pairs being what they were; granting a
    pair that is already granted returns the store as it is.  For a
    role or a permission the store does not have, the service answers
    ROLE_NOT_FOUND or PERMISSION_NOT_FOUND and writes nothing, and the
    upsert by itself throws exactly when the pair has no row and the
    role or the permission is missing.  [revokePermission] leaves no row
    for the pair, removes at most one row and no other row, and changes
    nothing when no row matches; the service call succeeds for a role
    of the store, also when no row matches, and answers ROLE_NOT_FOUND,
    writing nothing, for a role the store does not have. *)
Theorem grantPermission_idempotent (db : Database) (roleId permissionId : string) :
  uniqueGrants db ->
  (roleRepository.findById db roleId <> None ->
   permissionRepository.findById db permissionId <> None ->
   (forall calls, calls <> [] ->
      let run := grantMany db roleId permissionId calls in
      fst run
      = map (fun _ => Returned (success tt (Some "Permission granted successfully")))
            calls
      /\ uniqueGrants (snd run)
      /\ length (filter (roleRepository.roleId_permissionId roleId permissionId)
                        (rolePermissions (snd run)))
         = 1%nat
      /\ filter (fun rp => negb (roleRepository.roleId_permissionId
                                   roleId permissionId rp))
                (rolePermissions (snd run))
         = filter (fun rp => negb (roleRepository.roleId_permissionId
                                     roleId permissionId rp))
                  (rolePermissions db))
   /\ (forall rp, In rp (rolePermissions db) -> grantKey rp = (roleId, permissionId) ->
       forall grantedById now newId,
         roleRepository.grantPermission db
           {| grant_roleId := roleId; grant_permissionId := permissionId;
              grant_grantedById := grantedById |} now newId = Some db
         /\ roleService.grantPermission db
              {| grant_roleId := roleId; grant_permissionId := permissionId;
                 grant_grantedById := grantedById |} now newId
            = (Returned (success tt (Some "Permission granted successfully")), db)))
  /\ (forall grantedById now newId,
        (roleRepository.findById db roleId = None ->
         roleService.grantPermission db
           {| grant_roleId := roleId; grant_permissionId := permissionId;
              grant_grantedById := grantedById |} now newId
         = (Returned (error "Role not found" "ROLE_NOT_FOUND"), db))
        /\ (roleRepository.findById db roleId <> None ->
            permissionRepository.findById db permissionId = None ->
            roleService.grantPermission db
              {| grant_roleId := roleId; grant_permissionId := permissionId;
                 grant_grantedById := grantedById |} now newId
            = (Returned (error "Permission not found" "PERMISSION_NOT_FOUND"), db))
        /\ (roleRepository.grantPermission db
              {| grant_roleId := roleId; grant_permissionId := permissionId;
                 grant_grantedById := grantedById |} now newId = None
            <-> (forall rp, In rp (rolePermissions db) ->
                            grantKey rp <> (roleId, permissionId))
                /\ (roleRepository.findById db roleId = None
                    \/ permissionRepository.findById db permissionId = None)))
  /\ (filter (roleRepository.roleId_permissionId roleId permissionId)
             (rolePermissions (roleRepository.revokePermission db roleId permissionId))
      = []
      /\ (forall rp,
            In rp (rolePermissions (roleRepository.revokePermission db roleId permissionId))
            <-> In rp (rolePermissions db) /\ grantKey rp <> (roleId, permissionId))
      /\ (length (rolePermissions db)
          <= length (rolePermissions
                       (roleRepository.revokePermission db roleId permissionId)) + 1)%nat
      /\ ((forall rp, In rp (rolePermissions db) -> grantKey rp <> (roleId, permissionId)) ->
          rolePermissions (roleRepository.revokePermission db roleId permissionId)
          = rolePermissions db)
      /\ (roleRepository.findById db roleId <> None ->
          roleService.revokePermission db roleId permissionId
          = (success tt (Some "Permission revoked successfully"),
             roleRepository.revokePermission db roleId permissionId))
      /\ (roleRepository.findById db roleId = None ->
          roleService.revokePermission db roleId permissionId
          = (error "Role not found" "ROLE_NOT_FOUND", db))).
Proof.
  intros Hu.
  pose proof (roleId_permissionId_key roleId permissionId) as Hkey.
  set (test := roleRepository.roleId_permissionId roleId permissionId) in *.
  split; [|split].
  - intros Hr Hp. split.
    + intros [|c calls] Hne; [congruence|]. cbn zeta.
      unfold grantMany. cbn [fold_left]. cbn zeta. cbn [fst snd].
      set (data := {| grant_roleId := roleId; grant_permissionId := permissionId;
                      grant_grantedById := fst (fst c) |}).
      destruct (grantPermission_one_row db data (snd (fst c)) (snd c) Hu Hr Hp)
        as (db1 & Hg & Hu1 & (rp & Hrp) & Hothers & Hroles & Hperms).
      cbn [grant_roleId grant_permissionId data] in Hrp, Hothers.
      fold test in Hrp.
      rewrite (service_grant_written db data (snd (fst c)) (snd c) db1 Hr Hp Hg).
      cbn [fst snd app].
      assert (Hin : In rp (filter test (rolePermissions db1)))
        by (rewrite Hrp; simpl; auto).
      apply filter_In in Hin. destruct Hin as [Hin Ht]. apply Hkey in Ht.
      assert (Hr1 : roleRepository.findById db1 roleId <> None)
        by (unfold roleRepository.findById in *; rewrite Hroles; exact Hr).
      assert (Hp1 : permissionRepository.findById db1 permissionId <> None)
        by (unfold permissionRepository.findById in *; rewrite Hperms; exact Hp).
      rewrite (grantMany_loop roleId permissionId calls _ db1 rp Hr1 Hp1 Hin Ht).
      cbn [fst snd app map].
      split; [reflexivity|]. split; [exact Hu1|].
      split; [rewrite Hrp; reflexivity|exact Hothers].
    + intros rp Hin Hk grantedById now newId.
      assert (Hnoop : roleRepository.grantPermission db
                {| grant_roleId := roleId; grant_permissionId := permissionId;
                   grant_grantedById := grantedById |} now newId = Some db)
        by (apply (grantPermission_existing db _ now newId rp Hin); exact Hk).
      split; [exact Hnoop|].
      apply service_grant_written; assumption.
  - intros grantedById now newId. split; [|split].
    + intros E. unfold roleService.grantPermission. cbn [grant_roleId].
      rewrite E. reflexivity.
    + intros Hr E. unfold roleService.grantPermission.
      cbn [grant_roleId grant_permissionId].
      destruct (roleRepository.findById db roleId); [|congruence].
      rewrite E. reflexivity.
    + unfold roleRepository.grantPermission. cbn [grant_roleId grant_permissionId].
      fold test. unfold permissionRepository.findById, permission_of.
      destruct (find test (rolePermissions db)) as [rp|] eqn:F.
      * split; [discriminate|]. intros [Hnone _]. exfalso.
        apply find_some in F. destruct F as [Hin Ht]. apply Hkey in Ht.
        exact (Hnone rp Hin Ht).
      * assert (Hnone : forall rp, In rp (rolePermissions db) ->
                                   grantKey rp <> (roleId, permissionId)).
        { intros rp Hin Hk. apply Hkey in Hk.
          pose proof (find_none _ _ F rp Hin). congruence. }
        destruct (roleRepository.findById db roleId);
          destruct (find _ (permissions db));
          (split;
           [intros H; first [discriminate H | split; [exact Hnone|auto]]
           |intros [_ [E|E]]; first [reflexivity | discriminate E]]).
  - unfold roleRepository.revokePermission. simpl rolePermissions. fold test.
    assert (Hmem : forall rp,
               In rp (filter (fun rp => negb (test rp)) (rolePermissions db))
               <-> In rp (rolePermissions db) /\ grantKey rp <> (roleId, permissionId)).
    { intros rp. rewrite filter_In, negb_true_iff. split.
      - intros [Hin Hf]. split; [exact Hin|]. intros Hk. apply Hkey in Hk. congruence.
      - intros [Hin Hk]. split; [exact Hin|].
        destruct (test rp) eqn:T; [|reflexivity]. apply Hkey in T. contradiction. }
    split; [|split; [|split; [|split; [|split]]]].
    + apply (filter_none grantKey test _ Hkey). intros rp Hin. apply Hmem in Hin. tauto.
    + exact Hmem.
    + rewrite (filter_split_length test (rolePermissions db)).
      assert (length (filter test (rolePermissions db)) <= 1)%nat; [|lia].
      destruct (find test (rolePermissions db)) as [rp|] eqn:F.
      * apply find_some in F. destruct F as [Hin Ht]. apply Hkey in Ht.
        rewrite (filter_unique grantKey test _ Hkey _ rp Hu Hin Ht). simpl. lia.
      * rewrite (find_None_filter grantKey test _ Hkey _ F). simpl. lia.
    + intros Hnone. apply filter_all. intros rp Hin. apply negb_true_iff.
      destruct (test rp) eqn:T; [|reflexivity].
      exfalso. apply Hkey in T. exact (Hnone rp Hin T).
    + intros Hr. unfold roleService.revokePermission, roleRepository.revokePermission.
      destruct (roleRepository.findById db roleId); [reflexivity|congruence].
    + intros Hr. unfold roleService.revokePermission. rewrite Hr. reflexivity.
Qed.

(** C8, the claim as worded fails for a role the store does not have:
    no row matches the pair, yet [revokePermission] answers with an
    error; and two grants of the pair leave no row for it. *)
Lemma grantPermission_missing_role_counterexample :
  ~ (length (filter (roleRepository.roleId_permissionId "r9" "p1")
                    (rolePermissions
                       (snd (grantMany Demo.db "r9" "p1"
                               [(Some "u1", 100, "g6"); (Some "u1", 101, "g7")]))))
     = 1%nat)
  /\ ~ (filter (roleRepository.roleId_permissionId "r9" "p1") (rolePermissions Demo.db)
        = [] ->
        exists message db',
          roleService.revokePermission Demo.db "r9" "p1" = (success tt message, db')).
Proof.
  split.
  - vm_compute. discriminate.
  - intros H. destruct (H eq_refl) as (message & db' & E).
    vm_compute in E. discriminate.
Qed.

(** ** Assignments *)

Lemma sameAssignment_key (userId roleId : string) (departmentId : option string)
    (r : UserRoleEntity) :
  userRoleRepository.sameAssignment userId roleId departmentId r = true <->
  assignmentKey r = (userId, roleId, departmentId).
Proof.
  unfold userRoleRepository.sameAssignment, assignmentKey.
  rewrite !andb_true_iff, !String.eqb_eq, opt_string_eqb_eq. split.
  - intros [[-> ->] ->]. reflexivity.
  - intros H. injection H as -> -> ->. auto.
Qed.

Lemma map_key_preserved (f : UserRoleEntity -> UserRoleEntity)
    (l : list UserRoleEntity) :
  (forall r, assignmentKey (f r) = assignmentKey r) ->
  map assignmentKey (map f l) = map assignmentKey l.
Proof.
  intros H. rewrite map_map. apply map_ext. exact H.
Qed.

Lemma reactivate_if_key (data : AssignRoleInput) (now : Z) (id : string)
    (r : UserRoleEntity) :
  assignmentKey (if (ur_id r =? id)%string
                 then userRoleRepository.reactivate data now r else r)
  = assignmentKey r.
Proof. destruct (ur_id r =? id)%string; reflexivity. Qed.

Lemma deactivated_if_key (userId roleId : string) (departmentId : option string)
    (r : UserRoleEntity) :
  assignmentKey (if userRoleRepository.sameAssignment userId roleId departmentId r
                 then userRoleRepository.deactivated r else r)
  = assignmentKey r.
Proof.
  destruct (userRoleRepository.sameAssignment userId roleId departmentId r);
    reflexivity.
Qed.

(** [revoke] keeps the table free of duplicates and leaves every row of
    the triple inactive. *)
Lemma revoke_spec (db : Database) (userId roleId : string)
    (departmentId : option string) :
  uniqueAssignments db ->
  uniqueAssignments (userRoleRepository.revoke db userId roleId departmentId)
  /\ length (userRoles (userRoleRepository.revoke db userId roleId departmentId))
     = length (userRoles db)
  /\ forall r,
       In r (userRoles (userRoleRepository.revoke db userId roleId departmentId)) ->
       assignmentKey r = (userId, roleId, departmentId) ->
       ur_isActive r = false.
Proof.
  intros Hu. unfold userRoleRepository.revoke, uniqueAssignments. simpl.
  split; [|split].
  - rewrite map_key_preserved; [exact Hu|]. apply deactivated_if_key.
  - apply length_map.
  - intros r Hin Hk. apply in_map_iff in Hin. destruct Hin as (r0 & Hr & _).
    destruct (userRoleRepository.sameAssignment userId roleId departmentId r0) eqn:S.
    + subst r. reflexivity.
    + subst r0. apply sameAssignment_key in Hk. congruence.
Qed.

(** [assign] returns unless the triple has no row and the store refuses
    the new one. *)
Lemma assign_refused (db : Database) (data : AssignRoleInput) (now : Z)
    (newId : string) :
  userRoleRepository.assign db data now newId = None
  <-> find (userRoleRepository.sameAssignment
              (asg_userId data) (asg_roleId data) (asg_departmentId data))
           (userRoles db) = None
      /\ userRoleRepository.referencesKept db data = false.
Proof.
  unfold userRoleRepository.assign.
  destruct (find _ (userRoles db)) as [existing|].
  - split; [discriminate|intros [H _]; discriminate].
  - destruct (userRoleRepository.referencesKept db data).
    + split; [discriminate|intros [_ H]; discriminate].
    + split; auto.
Qed.

(** [assign] keeps the table free of duplicates; afterwards the triple
    has exactly one row, the one the call returns, active and assigned at
    the time of the call. *)
Lemma assign_spec (db : Database) (data : AssignRoleInput) (now : Z) (newId : string)
    (r' : UserRoleEntity) (db' : Database) :
  uniqueAssignments db ->
  userRoleRepository.assign db data now newId = Some (r', db') ->
  uniqueAssignments db'
  /\ filter (userRoleRepository.sameAssignment
               (asg_userId data) (asg_roleId data) (asg_departmentId data))
            (userRoles db') = [r']
  /\ ur_isActive r' = true /\ ur_assignedAt r' = now
  /\ (forall e, asg_expiresAt data = Some e -> ur_expiresAt r' = Some e)
  /\ (forall a, asg_assignedById data = Some a -> ur_assignedById r' = Some a).
Proof.
  intros Hu. unfold userRoleRepository.assign.
  pose proof (sameAssignment_key (asg_userId data) (asg_roleId data)
                (asg_departmentId data)) as Hkey.
  set (test := userRoleRepository.sameAssignment
                 (asg_userId data) (asg_roleId data) (asg_departmentId data)) in *.
  destruct (find test (userRoles db)) as [existing|] eqn:F.
  - intros E. injection E as <- <-. simpl.
    apply find_some in F. destruct F as [Hin Ht]. apply Hkey in Ht.
    split; [|split; [|split; [|split; [|split]]]].
    + unfold uniqueAssignments. simpl. rewrite map_key_preserved; [exact Hu|].
      intros r. apply reactivate_if_key.
    + rewrite (filter_map_unique assignmentKey test _ Hkey _ _ existing
                 (fun r => reactivate_if_key data now (ur_id existing) r) Hu Hin Ht).
      rewrite String.eqb_refl. reflexivity.
    + reflexivity.
    + reflexivity.
    + intros e He. rewrite He. reflexivity.
    + intros a Ha. rewrite Ha. reflexivity.
  - destruct (userRoleRepository.referencesKept db data); [|discriminate].
    intros E. injection E as <- <-. simpl.
    split; [|split; [|split; [|split; [|split]]]].
    + unfold uniqueAssignments. simpl. rewrite map_app. simpl.
      apply NoDup_snoc; [exact Hu|].
      apply (find_None_key assignmentKey test _ Hkey). exact F.
    + rewrite filter_app, (find_None_filter assignmentKey test _ Hkey _ F). simpl.
      unfold test at 1. unfold userRoleRepository.sameAssignment. simpl.
      rewrite !String.eqb_refl, opt_string_eqb_refl. reflexivity.
    + reflexivity.
    + reflexivity.
    + intros e He. exact He.
    + intros a Ha. exact Ha.
Qed.

(** A matching row is reactivated where it stands: the call is accepted
    and no row is added. *)
Lemma assign_existing (db : Database) (data : AssignRoleInput) (now : Z)
    (newId : string) (existing : UserRoleEntity) :
  find (userRoleRepository.sameAssignment
          (asg_userId data) (asg_roleId data) (asg_departmentId data))
       (userRoles db) = Some existing ->
  exists db',
    userRoleRepository.assign db data now newId
    = Some (userRoleRepository.reactivate data now existing, db')
    /\ length (userRoles db') = length (userRoles db)
    /\ map assignmentKey (userRoles db') = map assignmentKey (userRoles db).
Proof.
  intros F. unfold userRoleRepository.assign. rewrite F.
  eexists. split; [reflexivity|]. simpl. split.
  - apply length_map.
  - apply map_key_preserved. intros r. apply reactivate_if_key.
Qed.

(** Revoking a triple and assigning it again, when the triple has a row
    or the store accepts a new one, leaves exactly one row for the
    triple, active, with [assignedAt] the time of the second call. *)
Lemma revoke_then_assign (db : Database) (data : AssignRoleInput) (now : Z)
    (newId : string) :
  uniqueAssignments db ->
  (exists existing,
      In existing (userRoles db)
      /\ assignmentKey existing
         = (asg_userId data, asg_roleId data, asg_departmentId data))
  \/ userRoleRepository.referencesKept db data = true ->
  let revoked :=
    userRoleRepository.revoke db (asg_userId data) (asg_roleId data)
      (asg_departmentId data) in
  exists r' db',
    userRoleRepository.assign revoked data now newId = Some (r', db')
    /\ uniqueAssignments db'
    /\ filter (userRoleRepository.sameAssignment
                 (asg_userId data) (asg_roleId data) (asg_departmentId data))
              (userRoles db') = [r']
    /\ ur_isActive r' = true /\ ur_assignedAt r' = now.
Proof.
  intros Hu Hok revoked.
  destruct (revoke_spec db (asg_userId data) (asg_roleId data)
              (asg_departmentId data) Hu) as [Hu1 _].
  destruct (userRoleRepository.assign revoked data now newId) as [[r' db']|] eqn:E.
  - exists r', db'. split; [reflexivity|].
    destruct (assign_spec revoked data now newId r' db' Hu1 E)
      as (H1 & H2 & H3 & H4 & _).
    auto.
  - exfalso. apply assign_refused in E. destruct E as [F R].
    destruct Hok as [(existing & Hin & Hk)|Hrefs].
    + assert (Hin' : In (userRoleRepository.deactivated existing) (userRoles revoked)).
      { unfold revoked, userRoleRepository.revoke. simpl. apply in_map_iff.
        exists existing. split; [|exact Hin].
        apply sameAssignment_key in Hk. rewrite Hk. reflexivity. }
      pose proof (find_none _ _ F _ Hin') as Hno.
      apply sameAssignment_key in Hk.
      unfold userRoleRepository.sameAssignment in *. simpl in Hno.
      rewrite Hk in Hno. discriminate.
    + change (userRoleRepository.referencesKept db data = false) in R. congruence.
Qed.

(** C7.  User [u2] holds [manager] globally through a row that expired
    at time 50 and was assigned by [u1].  Assigning the same triple
    again at time 100, with no expiry and no assigner in the input,
    updates that row (no second row): it is active and [assignedAt] is
    refreshed, but [expiresAt] and [assignedById] keep the stored
    values; the service reports the role as assigned, and the user still
    gathers no permission. *)
Theorem assign_keeps_omitted_fields :
  let data := {| asg_userId := "u2"; asg_roleId := "r2"; asg_departmentId := None;
                 asg_assignedById := None; asg_expiresAt := None |} in
  exists result,
    userRoleRepository.assign Demo.db data 100 "a4" = Some result
    /\ fst result
       = {| ur_id := "a3"; ur_userId := "u2"; ur_roleId := "r2";
            ur_departmentId := None; ur_assignedById := Some "u1";
            ur_assignedAt := 100; ur_expiresAt := Some 50; ur_isActive := true |}
    /\ userRoles (snd result)
       = [Demo.u1_employee; Demo.u1_manager_d1; fst result]
    /\ authorizationService.assignRole Demo.db data 100 "a4"
       = (Returned (success tt (Some "Role assigned successfully")), snd result)
    /\ userRoleRepository.getAllUserPermissions (snd result) "u2" None 100 = [].
Proof. cbn zeta. eexists. split; [vm_compute; reflexivity|]. vm_compute. auto. Qed.

(** ** The theorems at work on the example store *)

Lemma checkPermission_manage_wildcard_witness :
  (exists m,
      In m (userRoleRepository.getAllUserPermissions Demo.db "u1" None 100)
      /\ manageMatch (Demo.request Resource.FILE Action.DELETE None None) m
      /\ authorizationService.checkPermission Demo.db
           (Demo.request Resource.FILE Action.DELETE None None) 100
         = {| allowed := true; reason := None; matchedPermission := Some m;
              effectiveScope := Some (perm_scope m) |})
  /\ authorizationService.checkPermission Demo.db
       (Demo.request Resource.SYSTEM Action.EXPORT None None) 100
     = {| allowed := false; reason := Some "No permission for system:export";
          matchedPermission := None; effectiveScope := None |}.
Proof.
  split.
  - apply (checkPermission_manage_wildcard Demo.db
             (Demo.request Resource.FILE Action.DELETE None None) 100).
    + intros p Hin [Hr Ha]. by_cases_on Hin; subst p; discriminate.
    + exists Demo.file_manage. split.
      * vm_compute. auto.
      * split; reflexivity.
  - apply (checkPermission_manage_wildcard Demo.db
             (Demo.request Resource.SYSTEM Action.EXPORT None None) 100).
    + intros p Hin [Hr Ha]. by_cases_on Hin; subst p; discriminate.
    + intros p Hin [Hr Ha]. by_cases_on Hin; subst p; discriminate.
Defined.

Lemma checkPermission_scope_precedence_witness :
  allowed (authorizationService.checkPermission Demo.db
             (Demo.request Resource.USER Action.READ (Some "d1") (Some "u2")) 100)
  = true
  /\ effectiveScope (authorizationService.checkPermission Demo.db
                       (Demo.request Resource.USER Action.READ (Some "d1") (Some "u2")) 100)
     = Some Scope.ALL.
Proof.
  apply (checkPermission_scope_precedence Demo.db
           (Demo.request Resource.USER Action.READ (Some "d1") (Some "u2")) 100).
  - exists Demo.user_read. split.
    + vm_compute. auto.
    + split; reflexivity.
  - exists Demo.user_read_all. split.
    + vm_compute. auto.
    + repeat split; reflexivity.
Defined.

Lemma demo_uniqueGrants : uniqueGrants Demo.db.
Proof.
  unfold uniqueGrants. simpl.
  repeat (constructor; [simpl; intuition discriminate|]). constructor.
Defined.

Lemma grantPermission_idempotent_witness :
  length (filter (roleRepository.roleId_permissionId "r1" "p2")
                 (rolePermissions
                    (snd (grantMany Demo.db "r1" "p2"
                            [(Some "u1", 100, "g6"); (None, 101, "g7");
                             (Some "u2", 102, "g8")]))))
  = 1%nat
  /\ roleService.grantPermission Demo.db
       {| grant_roleId := "r1"; grant_permissionId := "p1";
          grant_grantedById := Some "u1" |} 100 "g6"
     = (Returned (success tt (Some "Permission granted successfully")), Demo.db)
  /\ roleService.revokePermission Demo.db "r2" "p1"
     = (success tt (Some "Permission revoked successfully"),
        roleRepository.revokePermission Demo.db "r2" "p1").
Proof.
  split; [|split].
  - apply (proj1 (proj1 (grantPermission_idempotent Demo.db "r1" "p2"
                           demo_uniqueGrants)
                        ltac:(discriminate) ltac:(discriminate))
             [(Some "u1", 100, "g6"); (None, 101, "g7"); (Some "u2", 102, "g8")]).
    discriminate.
  - apply (proj2 (proj1 (grantPermission_idempotent Demo.db "r1" "p1"
                           demo_uniqueGrants)
                        ltac:(discriminate) ltac:(discriminate))
             (Demo.grant "g1" "r1" "p1")).
    + simpl. auto.
    + reflexivity.
  - apply (grantPermission_idempotent Demo.db "r2" "p1" demo_uniqueGrants).
    discriminate.
Defined.

Lemma permission_catalog_guards_witness :
  permissionService.delete Demo.db "p9"
  = (Returned (error "Permission not found" "PERMISSION_NOT_FOUND"), Demo.db)
  /\ permissionService.update Demo.db "p1"
       {| upd_name := None; upd_description := None; upd_scope := None;
          upd_isActive := Some false |}
     = (Returned (error "System permissions cannot be deactivated" "SYSTEM_PERMISSION"),
        Demo.db)
  /\ permissionService.delete Demo.db "p1"
     = (Returned (error "System permissions cannot be deleted" "SYSTEM_PERMISSION"),
        Demo.db)
  /\ exists db',
       permissionService.delete Demo.db "p3"
       = (Returned (success tt (Some "Permission deleted successfully")), db')
       /\ ~ In Demo.file_manage (permissions db').
Proof.
  destruct (permission_catalog_guards Demo.db "p9") as (Hmissing & _ & _).
  destruct (permission_catalog_guards Demo.db "p1") as (_ & Hsystem & _).
  destruct (permission_catalog_guards Demo.db "p3") as (_ & _ & Hdelete).
  split; [|split; [|split]].
  - apply Hmissing. reflexivity.
  - apply (Hsystem Demo.user_read); reflexivity.
  - apply (Hsystem Demo.user_read); reflexivity.
  - destruct (Hdelete Demo.file_manage eq_refl eq_refl) as (db' & H1 & H2 & _).
    exists db'. auto.
Defined.

Lemma inactive_permission_invisible_witness :
  ~ In Demo.role_read
       (userRoleRepository.getAllUserPermissions Demo.db "u1" None 100)
  /\ matchedPermission
       (authorizationService.checkPermission Demo.db
          (Demo.request Resource.ROLE Action.READ None None) 100)
     <> Some Demo.role_read.
Proof.
  destruct (inactive_permission_invisible Demo.db Demo.role_read eq_refl "u1" 100)
    as (Hgather & _ & _ & Hcheck).
  split.
  - apply Hgather.
  - apply Hcheck.
Defined.

(* ================================================================== *)
(** * Further properties of the permission domain and its callers *)

(** ** Permission codes *)

Lemma parse_of_code (resource : Resource.t) (action : Action.t) :
  authPermissions.parsePermissionCode (authPermissions.permissionCode resource action)
  = Some (Resource.name resource, Action.name action).
Proof. destruct resource, action; reflexivity. Qed.

Lemma Resource_name_inj (r r' : Resource.t) :
  Resource.name r = Resource.name r' -> r = r'.
Proof. destruct r, r'; simpl; intros H; try reflexivity; discriminate. Qed.

Lemma Action_name_inj (a a' : Action.t) : Action.name a = Action.name a' -> a = a'.
Proof. destruct a, a'; simpl; intros H; try reflexivity; discriminate. Qed.

Lemma permissionCode_inj (r r' : Resource.t) (a a' : Action.t) :
  authPermissions.permissionCode r a = authPermissions.permissionCode r' a' ->
  r = r' /\ a = a'.
Proof.
  intros H.
  pose proof (parse_of_code r a) as H1. rewrite H, parse_of_code in H1.
  injection H1 as Hr Ha.
  split; [apply Resource_name_inj | apply Action_name_inj]; congruence.
Qed.

(** X1.  Parsing the code generated for a resource and an action gives
    the resource and the action back (by their enum names), so distinct
    pairs have distinct codes; the service builds its codes the same
    way. *)
Theorem permissionCode_round_trip (resource resource' : Resource.t)
    (action action' : Action.t) :
  authPermissions.parsePermissionCode (authPermissions.permissionCode resource action)
  = Some (Resource.name resource, Action.name action)
  /\ (authPermissions.permissionCode resource action
      = authPermissions.permissionCode resource' action' ->
      resource = resource' /\ action = action')
  /\ authorizationService.permissionCode resource action
     = authPermissions.permissionCode resource action.
Proof.
  split; [apply parse_of_code|]. split; [apply permissionCode_inj|reflexivity].
Qed.

Lemma split_colonFree (s : string) :
  colonFree s = true -> split ":"%char s = [s].
Proof.
  induction s as [|c s IH]; simpl; [reflexivity|].
  destruct (Ascii.eqb c ":"%char); simpl; [discriminate|].
  intros H. rewrite (IH H). reflexivity.
Qed.

Lemma split_append (a b : string) :
  colonFree a = true ->
  split ":"%char (a ++ String ":"%char b) = a :: split ":"%char b.
Proof.
  induction a as [|c a IH]; simpl; [reflexivity|].
  destruct (Ascii.eqb c ":"%char); simpl; [discriminate|].
  intros H. rewrite (IH H). reflexivity.
Qed.

(** X2.  On a code whose first two colon-separated pieces are strings of
    ASCII characters, [parsePermissionCode] reads these two pieces, in
    upper case, and drops whatever follows a second colon (so a catalog
    code with a scope suffix parses to its resource and action); a code
    without a colon makes it throw. *)
Theorem parsePermissionCode_pieces (a b : string) :
  isAscii a = true -> isAscii b = true ->
  colonFree a = true -> colonFree b = true ->
  authPermissions.parsePermissionCode a = None
  /\ authPermissions.parsePermissionCode (a ++ ":" ++ b)
     = Some (toUpperCase a, toUpperCase b)
  /\ forall rest,
       authPermissions.parsePermissionCode (a ++ ":" ++ b ++ ":" ++ rest)
       = Some (toUpperCase a, toUpperCase b).
Proof.
  intros _ _ Ha Hb. unfold authPermissions.parsePermissionCode. split; [|split].
  - rewrite (split_colonFree a Ha). reflexivity.
  - simpl String.append. rewrite (split_append a b Ha), (split_colonFree b Hb).
    reflexivity.
  - intros rest. simpl String.append.
    rewrite (split_append a _ Ha), (split_append b rest Hb).
    destruct (split ":"%char rest); reflexivity.
Qed.

Lemma parsePermissionCode_pieces_witness :
  authPermissions.parsePermissionCode "user" = None
  /\ authPermissions.parsePermissionCode "user:read" = Some ("USER", "READ")
  /\ authPermissions.parsePermissionCode "user:read:all" = Some ("USER", "READ").
Proof.
  destruct (parsePermissionCode_pieces "user" "read" eq_refl eq_refl eq_refl eq_refl)
    as (H1 & H2 & H3).
  split; [exact H1|]. split; [exact H2|]. exact (H3 "all").
Defined.

(** ** Single checks, batch checks and guards *)

Lemma grants_true (request : PermissionCheckRequest) (p : PermissionEntity) :
  authorizationService.grants (req_resource request) (req_action request) p = true <->
  exactMatch request p \/ manageMatch request p.
Proof.
  unfold authorizationService.grants, exactMatch, manageMatch.
  rewrite orb_true_iff, !andb_true_iff, !Resource_eqb_eq, !Action_eqb_eq. tauto.
Qed.

Lemma checkPermission_no_exact_allowed
    (db : Database) (request : PermissionCheckRequest) (now : Z) :
  let gathered :=
    userRoleRepository.getAllUserPermissions db (req_userId request)
      (req_targetDepartmentId request) now in
  (forall p, In p gathered -> ~ exactMatch request p) ->
  allowed (authorizationService.checkPermission db request now)
  = existsb (authorizationService.grants (req_resource request) (req_action request))
            gathered.
Proof.
  intros gathered Hno.
  unfold authorizationService.checkPermission. fold gathered.
  destruct (filter _ gathered) as [|first rest] eqn:F.
  2:{ exfalso. apply (Hno first);
        eapply (proj1 (filter_exact_In request gathered first));
        rewrite F; simpl; auto. }
  destruct (find _ gathered) as [m|] eqn:M; simpl; symmetry.
  - apply find_manage_Some in M. destruct M as [Hin Hm].
    apply existsb_exists. exists m. split; [exact Hin|].
    apply grants_true. right. exact Hm.
  - destruct (existsb _ gathered) eqn:G; [|reflexivity].
    apply existsb_exists in G. destruct G as (m & Hm & Hg).
    apply grants_true in Hg. destruct Hg as [Hg|Hg].
    + exfalso. exact (Hno m Hm Hg).
    + exfalso. exact (find_manage_None request gathered M m Hm Hg).
Qed.

(** The decision of [checkPermission] in terms of what was gathered: a
    permission must grant the action, exactly or through MANAGE, and the
    ownership rule must not apply to the exact matches. *)
Lemma checkPermission_allowed (db : Database) (request : PermissionCheckRequest) (now : Z) :
  let gathered :=
    userRoleRepository.getAllUserPermissions db (req_userId request)
      (req_targetDepartmentId request) now in
  allowed (authorizationService.checkPermission db request now)
  = existsb (authorizationService.grants (req_resource request) (req_action request))
            gathered
    && negb (existsb (fun p => Resource.eqb (perm_resource p) (req_resource request)
                               && Action.eqb (perm_action p) (req_action request))
                     gathered
             && forallb (fun p => negb (Resource.eqb (perm_resource p) (req_resource request)
                                        && Action.eqb (perm_action p) (req_action request))
                                  || Scope.eqb (perm_scope p) Scope.OWN)
                        gathered
             && truthy (req_targetOwnerId request)
             && negb (opt_string_eqb (req_targetOwnerId request)
                                     (Some (req_userId request)))).
Proof.
  intros gathered.
  set (exact := fun p => Resource.eqb (perm_resource p) (req_resource request)
                         && Action.eqb (perm_action p) (req_action request)).
  assert (Hexact : forall p, exact p = true <-> exactMatch request p).
  { intros p. unfold exact, exactMatch.
    rewrite andb_true_iff, Resource_eqb_eq, Action_eqb_eq. tauto. }
  destruct (existsb exact gathered) eqn:E.
  - apply existsb_exists in E. destruct E as (p0 & Hin0 & Hp0).
    assert (Hex : exists p, In p gathered /\ exactMatch request p)
      by (exists p0; split; [exact Hin0|apply Hexact; exact Hp0]).
    destruct (checkPermission_exact_path db request now Hex)
      as (best & Hbg & Hbe & Hmax & Hres).
    fold gathered in Hbg, Hmax. rewrite Hres.
    assert (Hg : existsb (authorizationService.grants (req_resource request)
                            (req_action request)) gathered = true).
    { apply existsb_exists. exists p0. split; [exact Hin0|].
      apply grants_true. left. apply Hexact. exact Hp0. }
    rewrite Hg. simpl andb.
    assert (Hall : forallb (fun p => negb (Resource.eqb (perm_resource p)
                                                        (req_resource request)
                                          && Action.eqb (perm_action p)
                                                        (req_action request))
                                     || Scope.eqb (perm_scope p) Scope.OWN)
                           gathered
                   = Scope.eqb (perm_scope best) Scope.OWN).
    { destruct (Scope.eqb (perm_scope best) Scope.OWN) eqn:S.
      - apply Scope_eqb_eq in S. apply forallb_forall. intros p Hp.
        change (negb (exact p) || Scope.eqb (perm_scope p) Scope.OWN = true).
        destruct (exact p) eqn:Ep; [|reflexivity]. simpl.
        apply Hexact in Ep. specialize (Hmax p Hp Ep). rewrite S in Hmax.
        apply Scope_eqb_eq. destruct (perm_scope p); simpl in Hmax; try reflexivity; lia.
      - destruct (forallb _ gathered) eqn:F; [|reflexivity].
        rewrite forallb_forall in F. specialize (F best Hbg).
        change (negb (exact best) || Scope.eqb (perm_scope best) Scope.OWN = true) in F.
        assert (Eb : exact best = true) by (apply Hexact; exact Hbe).
        rewrite Eb, S in F. discriminate. }
    rewrite Hall.
    destruct (Scope.eqb (perm_scope best) Scope.OWN && truthy (req_targetOwnerId request)
              && negb (opt_string_eqb (req_targetOwnerId request)
                                      (Some (req_userId request)))); reflexivity.
  - simpl andb. rewrite andb_true_r.
    assert (Hno : forall p, In p gathered -> ~ exactMatch request p).
    { intros p Hp He. apply Hexact in He.
      assert (existsb exact gathered = true)
        by (apply existsb_exists; exists p; auto).
      congruence. }
    apply (checkPermission_no_exact_allowed db request now Hno).
Qed.

Lemma can_allowed (db : Database) (userId : string) (resource : Resource.t)
    (action : Action.t) (departmentId targetOwnerId : option string) (now : Z) :
  let gathered :=
    userRoleRepository.getAllUserPermissions db userId departmentId now in
  authPermissions.can db userId resource action departmentId targetOwnerId now
  = existsb (authorizationService.grants resource action) gathered
    && negb (existsb (fun p => Resource.eqb (perm_resource p) resource
                               && Action.eqb (perm_action p) action) gathered
             && forallb (fun p => negb (Resource.eqb (perm_resource p) resource
                                        && Action.eqb (perm_action p) action)
                                  || Scope.eqb (perm_scope p) Scope.OWN) gathered
             && truthy targetOwnerId
             && negb (opt_string_eqb targetOwnerId (Some userId))).
Proof.
  intros gathered. unfold authPermissions.can.
  apply (checkPermission_allowed db
           {| req_userId := userId; req_resource := resource; req_action := action;
              req_targetDepartmentId := departmentId;
              req_targetOwnerId := targetOwnerId |} now).
Qed.

(** X3.  [can] answers true exactly when a gathered permission is on the
    resource with the requested action or with MANAGE, except in one
    case: there are exact matches, every one of them has scope OWN, and
    a non-empty target owner other than the user is named. *)
Theorem can_decision (db : Database) (userId : string) (resource : Resource.t)
    (action : Action.t) (departmentId targetOwnerId : option string) (now : Z) :
  let gathered :=
    userRoleRepository.getAllUserPermissions db userId departmentId now in
  let exact := fun p => perm_resource p = resource /\ perm_action p = action in
  authPermissions.can db userId resource action departmentId targetOwnerId now = true
  <-> (exists p, In p gathered
                 /\ (exact p \/ (perm_resource p = resource
                                 /\ perm_action p = Action.MANAGE)))
      /\ ~ ((exists p, In p gathered /\ exact p)
            /\ (forall p, In p gathered -> exact p -> perm_scope p = Scope.OWN)
            /\ exists owner, targetOwnerId = Some owner /\ owner <> ""
                             /\ owner <> userId).
Proof.
  intros gathered exact. rewrite can_allowed. fold gathered.
  set (req := {| req_userId := userId; req_resource := resource; req_action := action;
                 req_targetDepartmentId := departmentId;
                 req_targetOwnerId := targetOwnerId |}).
  assert (Hexact : forall p, Resource.eqb (perm_resource p) resource
                             && Action.eqb (perm_action p) action = true <-> exact p).
  { intros p. unfold exact. rewrite andb_true_iff, Resource_eqb_eq, Action_eqb_eq. tauto. }
  assert (Howner : truthy targetOwnerId
                   && negb (opt_string_eqb targetOwnerId (Some userId)) = true
                   <-> exists owner, targetOwnerId = Some owner /\ owner <> ""
                                     /\ owner <> userId).
  { destruct targetOwnerId as [o|]; simpl.
    - rewrite andb_true_iff, !negb_true_iff, !String.eqb_neq. split.
      + intros [H1 H2]. exists o. auto.
      + intros (o' & H & H1 & H2). injection H as <-. auto.
    - split; [discriminate|]. intros (o & H & _). discriminate. }
  rewrite andb_true_iff, negb_true_iff. split.
  - intros [Hg Hn]. split.
    + apply existsb_exists in Hg. destruct Hg as (p & Hp & Hg). exists p.
      split; [exact Hp|]. apply (grants_true req) in Hg. exact Hg.
    + intros (Hex & Hown & Ho).
      rewrite <- !andb_assoc in Hn. apply andb_false_iff in Hn.
      destruct Hn as [Hn|Hn].
      * destruct Hex as (p & Hp & He).
        assert (existsb (fun p => Resource.eqb (perm_resource p) resource
                                  && Action.eqb (perm_action p) action) gathered = true).
        { apply existsb_exists. exists p. split; [exact Hp|]. apply Hexact. exact He. }
        congruence.
      * apply andb_false_iff in Hn. destruct Hn as [Hn|Hn].
        -- assert (forallb (fun p => negb (Resource.eqb (perm_resource p) resource
                                           && Action.eqb (perm_action p) action)
                                     || Scope.eqb (perm_scope p) Scope.OWN) gathered
                   = true); [|congruence].
           apply forallb_forall. intros p Hp.
           destruct (Resource.eqb (perm_resource p) resource
                     && Action.eqb (perm_action p) action) eqn:E; [|reflexivity].
           simpl. apply Scope_eqb_eq. apply Hown; [exact Hp|]. apply Hexact. exact E.
        -- apply Howner in Ho. congruence.
  - intros [(p & Hp & Hg) Hn]. split.
    + apply existsb_exists. exists p. split; [exact Hp|].
      apply (grants_true req). exact Hg.
    + destruct (existsb _ gathered && forallb _ gathered && truthy targetOwnerId
                && negb (opt_string_eqb targetOwnerId (Some userId))) eqn:E;
        [|reflexivity].
      exfalso. apply Hn.
      rewrite <- !andb_assoc in E. apply andb_true_iff in E. destruct E as [E1 E].
      apply andb_true_iff in E. destruct E as [E2 E3].
      split; [|split].
      * apply existsb_exists in E1. destruct E1 as (q & Hq & E1). exists q.
        split; [exact Hq|]. apply Hexact. exact E1.
      * intros q Hq He. rewrite forallb_forall in E2. specialize (E2 q Hq).
        apply Hexact in He. rewrite He in E2. simpl in E2.
        apply Scope_eqb_eq. exact E2.
      * apply Howner. exact E3.
Qed.

(** X4.  Naming a target owner only restricts: whatever [can] allows
    with a target owner it allows without one, and with no owner, an
    empty one or the user themself as owner the answer is the one given
    without an owner. *)
Theorem can_owner_only_restricts (db : Database) (userId : string)
    (resource : Resource.t) (action : Action.t)
    (departmentId targetOwnerId : option string) (now : Z) :
  (authPermissions.can db userId resource action departmentId targetOwnerId now = true ->
   authPermissions.can db userId resource action departmentId None now = true)
  /\ (targetOwnerId = None \/ targetOwnerId = Some "" \/ targetOwnerId = Some userId ->
      authPermissions.can db userId resource action departmentId targetOwnerId now
      = authPermissions.can db userId resource action departmentId None now).
Proof.
  rewrite !can_allowed. simpl truthy. rewrite !andb_false_r. simpl negb.
  rewrite andb_true_r. split.
  - intros H. apply andb_true_iff in H. tauto.
  - intros [->|[->| ->]]; simpl.
    + rewrite !andb_false_r. simpl. apply andb_true_r.
    + rewrite !andb_false_r. simpl. apply andb_true_r.
    + rewrite String.eqb_refl. simpl. rewrite !andb_false_r. simpl. apply andb_true_r.
Qed.

(** ** Maps filled by a loop of [set] *)

Lemma JsMap_get_In {V} (m : JsMap.t V) (k : string) (v : V) :
  JsMap.get m k = Some v -> In (k, v) m.
Proof.
  unfold JsMap.get. destruct (find _ m) as [[k' v']|] eqn:F; simpl; [|discriminate].
  intros H. injection H as <-. apply find_some in F. destruct F as [Hin E].
  simpl in E. apply String.eqb_eq in E. subst k'. exact Hin.
Qed.

Lemma JsMap_get_set_eq {V} (m : JsMap.t V) (k : string) (v : V) :
  JsMap.get (JsMap.set m k v) k = Some v.
Proof.
  unfold JsMap.set, JsMap.get. destruct (JsMap.has m k) eqn:H.
  - unfold JsMap.has in H. induction m as [|[k' v'] m IH]; simpl in *; [discriminate|].
    destruct (k' =? k)%string eqn:E; simpl.
    + rewrite String.eqb_refl. reflexivity.
    + rewrite E. apply IH. exact H.
  - unfold JsMap.has in H. induction m as [|[k' v'] m IH]; simpl in *.
    + rewrite String.eqb_refl. reflexivity.
    + apply orb_false_iff in H. destruct H as [E H]. rewrite E. apply IH. exact H.
Qed.

Lemma JsMap_get_set_neq {V} (m : JsMap.t V) (k k' : string) (v : V) :
  k' <> k -> JsMap.get (JsMap.set m k v) k' = JsMap.get m k'.
Proof.
  intros Hne. unfold JsMap.set, JsMap.get. destruct (JsMap.has m k).
  - induction m as [|[k0 v0] m IH]; simpl; [reflexivity|].
    destruct (k0 =? k)%string eqn:E; simpl.
    + apply String.eqb_eq in E. subst k0.
      assert (E' : (k =? k')%string = false) by (apply String.eqb_neq; congruence).
      rewrite E'. exact IH.
    + destruct (k0 =? k')%string; [reflexivity|exact IH].
  - induction m as [|[k0 v0] m IH]; simpl.
    + assert (E' : (k =? k')%string = false) by (apply String.eqb_neq; congruence).
      rewrite E'. reflexivity.
    + destruct (k0 =? k')%string; [reflexivity|exact IH].
Qed.

Lemma JsMap_set_In {V} (m : JsMap.t V) (k : string) (v : V) (k' : string) (v' : V) :
  In (k', v') (JsMap.set m k v) ->
  (k' = k /\ v' = v) \/ (k' <> k /\ In (k', v') m).
Proof.
  unfold JsMap.set. destruct (JsMap.has m k) eqn:Hhas.
  - intros H. apply in_map_iff in H. destruct H as ([k0 v0] & Heq & Hin).
    simpl in Heq. destruct (k0 =? k)%string eqn:E.
    + injection Heq as <- <-. auto.
    + injection Heq as <- <-. right. split; [|exact Hin].
      apply String.eqb_neq. exact E.
  - intros H. apply in_app_or in H. destruct H as [H|[H|[]]].
    + right. split; [|exact H]. intros ->.
      assert (JsMap.has m k = true) by (apply JsMap_has_true; eauto).
      congruence.
    + injection H as <- <-. auto.
Qed.

(** A loop that sets, for each element, a key to a value that depends
    on the key only: afterwards the map holds, under the key of each
    element, the value of that element, and nothing else. *)
Section SetLoop.
Context {X : Type} (key : X -> string) (val : X -> bool).
Hypothesis val_key : forall x y, key x = key y -> val x = val y.

Let loop (xs : list X) (m : JsMap.t bool) : JsMap.t bool :=
  fold_left (fun m x => JsMap.set m (key x) (val x)) xs m.

Lemma set_loop_get (xs : list X) :
  forall (m : JsMap.t bool) (x : X),
    In x xs -> JsMap.get (loop xs m) (key x) = Some (val x).
Proof.
  induction xs as [|y xs IH]; intros m x Hin; [contradiction|].
  unfold loop in *. simpl.
  destruct (in_dec String.string_dec (key x) (map key xs)) as [Hk|Hk].
  - apply in_map_iff in Hk. destruct Hk as (z & Hz & Hzin).
    rewrite <- Hz, (val_key x z (eq_sym Hz)). apply IH. exact Hzin.
  - destruct Hin as [->|Hin]; [|exfalso; apply Hk; apply in_map; exact Hin].
    clear IH. revert m. induction xs as [|z xs IH]; intros m; simpl.
    + apply JsMap_get_set_eq.
    + assert (Hne : key x <> key z) by (intros E; apply Hk; simpl; auto).
      assert (Hk' : ~ In (key x) (map key xs)) by (intros E; apply Hk; simpl; auto).
      specialize (IH Hk').
      (* the set of [z] does not touch the key of [x] *)
      assert (Hswap : forall m0,
                 JsMap.get
                   (fold_left (fun m x => JsMap.set m (key x) (val x)) xs m0) (key x)
                 = JsMap.get m0 (key x)).
      { clear - Hk'. induction xs as [|w xs IHx]; intros m0; simpl; [reflexivity|].
        rewrite IHx by (intros E; apply Hk'; simpl; auto).
        apply JsMap_get_set_neq. intros E. apply Hk'. simpl. auto. }
      rewrite Hswap, JsMap_get_set_neq by exact Hne.
      apply JsMap_get_set_eq.
Qed.

Lemma set_loop_In (xs : list X) :
  forall (m : JsMap.t bool) (k : string) (b : bool),
    In (k, b) (loop xs m) ->
    In (k, b) m \/ exists x, In x xs /\ k = key x /\ b = val x.
Proof.
  induction xs as [|y xs IH]; intros m k b H; [auto|].
  unfold loop in *. simpl in H. apply IH in H. destruct H as [H|(x & Hx & Hk & Hb)].
  - apply JsMap_set_In in H. destruct H as [[-> ->]|[_ H]]; [|auto].
    right. exists y. simpl. auto.
  - right. exists x. simpl. auto.
Qed.

Lemma set_loop_exists (xs : list X) :
  existsb (fun b : bool => b) (JsMap.values (loop xs [])) = existsb val xs.
Proof.
  destruct (existsb val xs) eqn:E.
  - apply existsb_exists in E. destruct E as (x & Hx & Hv).
    apply existsb_exists. exists true. split; [|reflexivity].
    unfold JsMap.values. apply in_map_iff. exists (key x, true). split; [reflexivity|].
    apply JsMap_get_In. rewrite <- Hv. apply set_loop_get. exact Hx.
  - destruct (existsb _ (JsMap.values (loop xs []))) eqn:F; [|reflexivity].
    apply existsb_exists in F. destruct F as (b & Hb & ->).
    unfold JsMap.values in Hb. apply in_map_iff in Hb.
    destruct Hb as ([k b'] & Heq & Hin). simpl in Heq. subst b'.
    apply set_loop_In in Hin. destruct Hin as [[]|(x & Hx & _ & Hv)].
    assert (existsb val xs = true) by (apply existsb_exists; exists x; auto).
    congruence.
Qed.

Lemma set_loop_forall (xs : list X) :
  forallb (fun b : bool => b) (JsMap.values (loop xs [])) = forallb val xs.
Proof.
  destruct (forallb val xs) eqn:E.
  - apply forallb_forall. intros b Hb.
    unfold JsMap.values in Hb. apply in_map_iff in Hb.
    destruct Hb as ([k b'] & Heq & Hin). simpl in Heq. subst b'.
    apply set_loop_In in Hin. destruct Hin as [[]|(x & Hx & _ & ->)].
    rewrite forallb_forall in E. apply E. exact Hx.
  - destruct (forallb _ (JsMap.values (loop xs []))) eqn:F; [|reflexivity].
    rewrite forallb_forall in F.
    assert (forallb val xs = true); [|congruence].
    apply forallb_forall. intros x Hx. apply F.
    unfold JsMap.values. apply in_map_iff. exists (key x, val x). split; [reflexivity|].
    apply JsMap_get_In. apply set_loop_get. exact Hx.
Qed.
End SetLoop.

Lemma can_plain (db : Database) (userId : string) (resource : Resource.t)
    (action : Action.t) (now : Z) :
  authPermissions.can db userId resource action None None now
  = existsb (authorizationService.grants resource action)
            (userRoleRepository.getAllUserPermissions db userId None now).
Proof.
  rewrite can_allowed. simpl truthy. rewrite !andb_false_r. simpl. apply andb_true_r.
Qed.

Lemma check_value_by_code (db : Database) (userId : string) (now : Z)
    (x y : Resource.t * Action.t) :
  authorizationService.permissionCode (fst x) (snd x)
  = authorizationService.permissionCode (fst y) (snd y) ->
  existsb (authorizationService.grants (fst x) (snd x))
          (userRoleRepository.getAllUserPermissions db userId None now)
  = existsb (authorizationService.grants (fst y) (snd y))
            (userRoleRepository.getAllUserPermissions db userId None now).
Proof.
  intros H. apply (permissionCode_inj (fst x) (fst y) (snd x) (snd y)) in H.
  destruct H as [-> ->]. reflexivity.
Qed.

(** X5.  The batch check answers each requested pair, under its code,
    with what [can] answers for the pair without a department and
    without a target owner; the map has no other keys. *)
Theorem checkPermissions_agrees_with_can (db : Database) (userId : string)
    (checks : list (Resource.t * Action.t)) (now : Z) :
  (forall resource action, In (resource, action) checks ->
     JsMap.get (authorizationService.checkPermissions db userId checks now)
               (authPermissions.permissionCode resource action)
     = Some (authPermissions.can db userId resource action None None now))
  /\ (forall code answer,
        In (code, answer) (authorizationService.checkPermissions db userId checks now) ->
        exists resource action,
          In (resource, action) checks
          /\ code = authPermissions.permissionCode resource action
          /\ answer = authPermissions.can db userId resource action None None now).
Proof.
  unfold authorizationService.checkPermissions. split.
  - intros resource action Hin. rewrite can_plain.
    apply (set_loop_get
             (fun c => authorizationService.permissionCode (fst c) (snd c))
             (fun c => existsb (authorizationService.grants (fst c) (snd c))
                               (userRoleRepository.getAllUserPermissions db userId None now))
             (check_value_by_code db userId now)
             checks [] (resource, action) Hin).
  - intros code answer Hin.
    apply (set_loop_In
             (fun c => authorizationService.permissionCode (fst c) (snd c))
             (fun c => existsb (authorizationService.grants (fst c) (snd c))
                               (userRoleRepository.getAllUserPermissions db userId None now))
             (check_value_by_code db userId now))
      in Hin.
    destruct Hin as [[]|([resource action] & Hx & Hk & Hv)].
    exists resource, action. rewrite can_plain. simpl in Hk, Hv.
    split; [exact Hx|]. split; [exact Hk|exact Hv].
Qed.

Lemma canAny_canAll_server (db : Database) (userId : string)
    (checks : list (Resource.t * Action.t)) (now : Z) :
  authPermissions.canAny db userId checks now
  = existsb (fun c => authPermissions.can db userId (fst c) (snd c) None None now) checks
  /\ authPermissions.canAll db userId checks now
     = forallb (fun c => authPermissions.can db userId (fst c) (snd c) None None now) checks.
Proof.
  unfold authPermissions.canAny, authPermissions.canAll,
    authorizationService.checkPermissions.
  rewrite (set_loop_exists
             (fun c => authorizationService.permissionCode (fst c) (snd c))
             (fun c => existsb (authorizationService.grants (fst c) (snd c))
                               (userRoleRepository.getAllUserPermissions db userId None now))
             (check_value_by_code db userId now)).
  rewrite (set_loop_forall
             (fun c => authorizationService.permissionCode (fst c) (snd c))
             (fun c => existsb (authorizationService.grants (fst c) (snd c))
                               (userRoleRepository.getAllUserPermissions db userId None now))
             (check_value_by_code db userId now)).
  split.
  - induction checks as [|c checks IH]; simpl; [reflexivity|].
    rewrite IH, can_plain. reflexivity.
  - induction checks as [|c checks IH]; simpl; [reflexivity|].
    rewrite IH, can_plain. reflexivity.
Qed.

(** X6.  [canAny] is true exactly when [can] (without department and
    owner) is true for one of the pairs, [canAll] when it is true for
    all of them; on an empty list [canAny] is false and [canAll] true. *)
Theorem canAny_canAll (db : Database) (userId : string)
    (checks : list (Resource.t * Action.t)) (now : Z) :
  authPermissions.canAny db userId checks now
  = existsb (fun c => authPermissions.can db userId (fst c) (snd c) None None now) checks
  /\ authPermissions.canAll db userId checks now
     = forallb (fun c => authPermissions.can db userId (fst c) (snd c) None None now) checks.
Proof. apply canAny_canAll_server. Qed.

(** ** What a denial says *)

Lemma checkPermission_outcome
    (db : Database) (request : PermissionCheckRequest) (now : Z) :
  let result := authorizationService.checkPermission db request now in
  (allowed result = true /\ reason result = None
   /\ exists p, matchedPermission result = Some p
                /\ effectiveScope result = Some (perm_scope p))
  \/ (allowed result = false
      /\ reason result
         = Some ("No permission for "
                 ++ authPermissions.permissionCode (req_resource request)
                      (req_action request))%string
      /\ matchedPermission result = None /\ effectiveScope result = None)
  \/ (allowed result = false
      /\ reason result = Some "Permission only allows access to own resources"
      /\ exists p, matchedPermission result = Some p /\ perm_scope p = Scope.OWN
                   /\ effectiveScope result = Some Scope.OWN).
Proof.
  intros result. unfold result, authorizationService.checkPermission.
  set (gathered := userRoleRepository.getAllUserPermissions _ _ _ _).
  destruct (filter _ gathered) as [|first rest].
  - destruct (find _ gathered) as [m|]; simpl.
    + left. split; [reflexivity|]. split; [reflexivity|]. exists m. auto.
    + right. left. auto.
  - set (best := hd first _).
    destruct (Scope.eqb (perm_scope best) Scope.OWN) eqn:S; simpl.
    + apply Scope_eqb_eq in S.
      destruct (truthy (req_targetOwnerId request)
                && negb (opt_string_eqb (req_targetOwnerId request)
                                        (Some (req_userId request)))); simpl.
      * right. right. split; [reflexivity|]. split; [reflexivity|].
        exists best. rewrite S. auto.
      * left. split; [reflexivity|]. split; [reflexivity|]. exists best. auto.
    + left. split; [reflexivity|]. split; [reflexivity|]. exists best. auto.
Qed.

(** X7.  Every result of [checkPermission] is of one of three kinds:
    allowed, with the matched permission and its scope and no reason;
    denied for want of a permission, with the reason naming the code and
    no matched permission; denied by the ownership rule, with its reason
    and the matched OWN-scoped permission.  A guard made by
    [createPermissionGuard] authorizes exactly when [can] does, and
    otherwise reports the reason of the check as its error. *)
Theorem denial_carries_reason
    (db : Database) (userId : string) (resource : Resource.t) (action : Action.t)
    (departmentId targetOwnerId : option string) (now : Z) :
  let request :=
    {| req_userId := userId; req_resource := resource; req_action := action;
       req_targetDepartmentId := departmentId; req_targetOwnerId := targetOwnerId |} in
  let result := authorizationService.checkPermission db request now in
  let guard :=
    authPermissions.createPermissionGuard resource action departmentId targetOwnerId
      db userId now in
  ((allowed result = true /\ reason result = None
    /\ exists p, matchedPermission result = Some p
                 /\ effectiveScope result = Some (perm_scope p))
   \/ (allowed result = false
       /\ reason result
          = Some ("No permission for "
                  ++ authPermissions.permissionCode resource action)%string
       /\ matchedPermission result = None /\ effectiveScope result = None)
   \/ (allowed result = false
       /\ reason result = Some "Permission only allows access to own resources"
       /\ exists p, matchedPermission result = Some p /\ perm_scope p = Scope.OWN
                    /\ effectiveScope result = Some Scope.OWN))
  /\ (guard = authPermissions.authorized <->
      authPermissions.can db userId resource action departmentId targetOwnerId now = true)
  /\ (forall e code, guard = authPermissions.unauthorized e code ->
        code = "PERMISSION_DENIED" /\ reason result = Some e).
Proof.
  intros request result guard.
  pose proof (checkPermission_outcome db request now) as H. fold result in H.
  split; [exact H|].
  unfold guard, authPermissions.createPermissionGuard, authPermissions.can.
  fold request result.
  destruct H as [(Ha & Hr & _)|[(Ha & Hr & _)|(Ha & Hr & _)]]; rewrite Ha, Hr; simpl.
  - split; [tauto|]. intros e code H. discriminate.
  - split; [split; discriminate|].
    intros e code H. injection H as <- <-. auto.
  - split; [split; discriminate|].
    intros e code H. injection H as <- <-. auto.
Qed.

(** ** Gathered permissions, by code and without repetition *)

Lemma role_grants_code_true (db : Database) (code : string) (r : UserRoleEntity) :
  userRoleRepository.role_grants_code db code r = true <->
  role_isActive_of db r = true
  /\ exists p, grantedActive db (ur_roleId r) p /\ perm_code p = code.
Proof.
  unfold userRoleRepository.role_grants_code, role_isActive_of.
  destruct (role_of db (ur_roleId r)) as [ro|] eqn:R.
  2:{ split; [discriminate|]. intros [H _]. discriminate. }
  destruct (role_of_id _ _ _ R) as [Hid _].
  rewrite andb_true_iff, existsb_exists. unfold grantedActive. rewrite Hid. split.
  - intros [Ha (rp & Hin & H)]. split; [exact Ha|].
    apply andb_true_iff in H. destruct H as [Hr H].
    destruct (permission_of db (rp_permissionId rp)) as [p|] eqn:P; [|discriminate].
    apply andb_true_iff in H. destruct H as [Hc Hact].
    apply String.eqb_eq in Hr, Hc. exists p. split; [|exact Hc]. exists rp. auto.
  - intros [Ha (p & (rp & Hin & Hr & Hp & Hact) & Hc)]. split; [exact Ha|].
    exists rp. split; [exact Hin|].
    rewrite Hr, String.eqb_refl, Hp, Hc, String.eqb_refl, Hact. reflexivity.
Qed.

(** X8.  [hasPermission] answers true for a code exactly when a
    permission with that code is among those [getAllUserPermissions]
    gathers for the same user and department at the same time. *)
Theorem hasPermission_iff_gathered (db : Database) (userId code : string)
    (departmentId : option string) (now : Z) :
  authorizationService.hasPermission db userId code departmentId now = true <->
  exists p,
    In p (userRoleRepository.getAllUserPermissions db userId departmentId now)
    /\ perm_code p = code.
Proof.
  unfold authorizationService.hasPermission, userRoleRepository.hasPermission.
  rewrite Nat.ltb_lt. split.
  - intros H.
    destruct (filter _ (userRoles db)) as [|r rest] eqn:F; [simpl in H; lia|].
    assert (Hr : In r (r :: rest)) by (simpl; auto).
    rewrite <- F in Hr. apply filter_In in Hr. destruct Hr as [Hin Hb].
    apply andb_true_iff in Hb. destruct Hb as [Hb Hor].
    apply andb_true_iff in Hb. destruct Hb as [Hb Hg].
    apply andb_true_iff in Hb. destruct Hb as [Hu Ha].
    apply role_grants_code_true in Hg. destruct Hg as [Hro (p & Hp & Hc)].
    exists p. split; [|exact Hc]. apply getAllUserPermissions_In. exists r.
    split; [exact Hin|]. split.
    + unfold userRoleRepository.whereUserRole. rewrite Hu, Ha, Hro, Hor. reflexivity.
    + apply grantedActive_include. exact Hp.
  - intros (p & Hp & Hc). apply getAllUserPermissions_In in Hp.
    destruct Hp as (r & Hin & Hw & Hp). apply grantedActive_include in Hp.
    unfold userRoleRepository.whereUserRole in Hw.
    apply andb_true_iff in Hw. destruct Hw as [Hw Hor].
    apply andb_true_iff in Hw. destruct Hw as [Hw Hro].
    apply andb_true_iff in Hw. destruct Hw as [Hu Ha].
    assert (Hr : In r (filter
      (fun r => (ur_userId r =? userId)%string && ur_isActive r
                && userRoleRepository.role_grants_code db code r
                && OR (userRoleRepository.whereUserRole_OR departmentId now) r)
      (userRoles db))).
    { apply filter_In. split; [exact Hin|]. rewrite Hu, Ha, Hor.
      assert (Hg : userRoleRepository.role_grants_code db code r = true)
        by (apply role_grants_code_true; split; [exact Hro|exists p; auto]).
      rewrite Hg. reflexivity. }
    destruct (filter _ (userRoles db)); [contradiction|]. simpl. lia.
Qed.

(** The map of the gathering loop never holds a key twice. *)
Lemma collect_NoDup (rps : list (RolePermission * PermissionEntity)) :
  forall m : JsMap.t PermissionEntity,
    NoDup (map fst m) -> NoDup (map fst (userRoleRepository.collect m rps)).
Proof.
  unfold userRoleRepository.collect.
  induction rps as [|[rp q] rps IH]; intros m Hnd; simpl; [exact Hnd|].
  destruct (JsMap.has m (perm_id q)) eqn:Hhas; simpl; apply IH; [exact Hnd|].
  rewrite (JsMap_set_fresh _ _ _ Hhas), map_app. simpl.
  apply NoDup_snoc; [exact Hnd|]. intros Hin. apply in_map_iff in Hin.
  destruct Hin as ([k v] & Hk & Hin). simpl in Hk. subst k.
  assert (JsMap.has m (perm_id q) = true) by (apply JsMap_has_true; eauto).
  congruence.
Qed.

Lemma gather_keyed_NoDup (db : Database) (rows : list UserRoleEntity) :
  forall m : JsMap.t PermissionEntity,
    keyed db m -> NoDup (map fst m) ->
    let m' :=
      fold_left
        (fun m userRole =>
           userRoleRepository.collect m
             (include_rolePermissions db (ur_roleId userRole)))
        rows m in
    keyed db m' /\ NoDup (map fst m').
Proof.
  induction rows as [|r rows IH]; intros m Hk Hnd; simpl; [auto|].
  apply IH.
  - apply collect_spec; [exact Hk|].
    intros q Hq. apply include_rolePermissions_canonical in Hq. tauto.
  - apply collect_NoDup. exact Hnd.
Qed.

(** X9.  The gathered permissions hold no id twice: a permission
    reached through several roles or assignments is listed once. *)
Theorem gathered_ids_distinct (db : Database) (userId : string)
    (departmentId : option string) (now : Z) :
  NoDup (map perm_id
           (userRoleRepository.getAllUserPermissions db userId departmentId now)).
Proof.
  unfold userRoleRepository.getAllUserPermissions.
  destruct (gather_keyed_NoDup db
              (filter (userRoleRepository.whereUserRole db userId departmentId now)
                      (userRoles db)) [])
    as [Hk Hnd].
  - intros k v [].
  - constructor.
  - set (m := fold_left _ _ _) in *. unfold JsMap.values. rewrite map_map.
    replace (map (fun kv => perm_id (snd kv)) m) with (map fst m); [exact Hnd|].
    apply map_ext_in. intros [k v] Hin. simpl. apply (Hk k v Hin).
Qed.

Lemma getUserRoles_role_by_id (db : Database) (userId : string) (now : Z)
    (d1 d2 : UserRoleWithDetails) :
  In d1 (userRoleRepository.getUserRoles db userId now) ->
  In d2 (userRoleRepository.getUserRoles db userId now) ->
  role_id (rwp_role (urd_role d1)) = role_id (rwp_role (urd_role d2)) ->
  urd_role d1 = urd_role d2.
Proof.
  intros H1 H2 Hid. apply getUserRoles_In in H1, H2.
  destruct H1 as (_ & _ & _ & _ & I1 & _). destruct H2 as (_ & _ & _ & _ & I2 & _).
  unfold userRoleRepository.include_role in I1, I2.
  destruct (role_of db (ur_roleId (urd_userRole d1))) as [r1|] eqn:R1; [|discriminate].
  destruct (role_of db (ur_roleId (urd_userRole d2))) as [r2|] eqn:R2; [|discriminate].
  injection I1 as I1. injection I2 as I2.
  rewrite <- I1, <- I2 in Hid. simpl in Hid.
  destruct (role_of_id _ _ _ R1) as [E1 _]. destruct (role_of_id _ _ _ R2) as [E2 _].
  assert (E : ur_roleId (urd_userRole d1) = ur_roleId (urd_userRole d2)) by congruence.
  rewrite E, R2 in R1. injection R1 as <-. congruence.
Qed.

(** The roles of the outer loop: each comes from an assignment, each
    assignment finds a role of its id among them, and no id is kept
    twice. *)
Lemma effective_roles_loop (ds : list UserRoleWithDetails) :
  forall A : authorizationService.Accumulator,
    authorizationService.acc_seenRoleIds A
    = map (fun r => role_id (rwp_role r)) (authorizationService.acc_roles A) ->
    NoDup (authorizationService.acc_seenRoleIds A) ->
    let A' := fold_left authorizationService.step ds A in
    authorizationService.acc_seenRoleIds A'
    = map (fun r => role_id (rwp_role r)) (authorizationService.acc_roles A')
    /\ NoDup (authorizationService.acc_seenRoleIds A')
    /\ (forall ro, In ro (authorizationService.acc_roles A') ->
          In ro (authorizationService.acc_roles A)
          \/ exists d, In d ds /\ urd_role d = ro)
    /\ (forall ro, In ro (authorizationService.acc_roles A) ->
          In ro (authorizationService.acc_roles A'))
    /\ (forall d, In d ds ->
          exists ro, In ro (authorizationService.acc_roles A')
                     /\ role_id (rwp_role ro) = role_id (rwp_role (urd_role d))).
Proof.
  induction ds as [|d ds IH]; intros A Hseen Hnd; simpl.
  - repeat split; auto. intros d [].
  - set (A1 := authorizationService.step A d).
    assert (H1 : authorizationService.acc_seenRoleIds A1
                 = map (fun r => role_id (rwp_role r)) (authorizationService.acc_roles A1)
                 /\ NoDup (authorizationService.acc_seenRoleIds A1)
                 /\ (forall ro, In ro (authorizationService.acc_roles A1) ->
                       In ro (authorizationService.acc_roles A) \/ urd_role d = ro)
                 /\ (forall ro, In ro (authorizationService.acc_roles A) ->
                       In ro (authorizationService.acc_roles A1))
                 /\ exists ro, In ro (authorizationService.acc_roles A1)
                               /\ role_id (rwp_role ro)
                                  = role_id (rwp_role (urd_role d))).
    { unfold A1, authorizationService.step.
      cbn [authorizationService.acc_seenRoleIds authorizationService.acc_roles].
      destruct (JsSet.has (authorizationService.acc_seenRoleIds A)
                          (role_id (rwp_role (urd_role d)))) eqn:Hhas;
        cbn [negb].
      - split; [exact Hseen|]. split; [exact Hnd|]. split; [auto|]. split; [auto|].
        unfold JsSet.has in Hhas. apply existsb_exists in Hhas.
        destruct Hhas as (x & Hx & E). apply String.eqb_eq in E. subst x.
        rewrite Hseen in Hx. apply in_map_iff in Hx. destruct Hx as (ro & E & Hro).
        exists ro. auto.
      - unfold JsSet.add. rewrite Hhas. split; [|split; [|split; [|split]]].
        + rewrite map_app, Hseen. reflexivity.
        + apply NoDup_snoc; [exact Hnd|]. intros Hin.
          assert (JsSet.has (authorizationService.acc_seenRoleIds A)
                            (role_id (rwp_role (urd_role d))) = true).
          { unfold JsSet.has. apply existsb_exists. eexists. split; [exact Hin|].
            apply String.eqb_refl. }
          congruence.
        + intros ro Hin. apply in_app_or in Hin. destruct Hin as [Hin|[Hin|[]]]; auto.
        + intros ro Hin. apply in_or_app. auto.
        + exists (urd_role d). split; [|reflexivity]. apply in_or_app. simpl. auto. }
    destruct H1 as (S1 & N1 & F1 & K1 & (ro1 & R1 & E1)).
    destruct (IH A1 S1 N1) as (S2 & N2 & F2 & K2 & C2).
    split; [exact S2|]. split; [exact N2|]. split; [|split].
    + intros ro Hin. apply F2 in Hin. destruct Hin as [Hin|(d' & Hd' & E)].
      * apply F1 in Hin. destruct Hin as [Hin|Hin]; [auto|]. right. exists d. auto.
      * right. exists d'. auto.
    + intros ro Hin. apply K2. apply K1. exact Hin.
    + intros d' [<-|Hd'].
      * exists ro1. split; [apply K2; exact R1|exact E1].
      * apply C2. exact Hd'.
Qed.

(** The department buckets of the outer loop: under each non-empty
    department id, the roles of the assignments scoped to it, in order;
    no bucket for a department without assignment, nor for the empty
    id. *)
Lemma effective_departments_loop (ds : list UserRoleWithDetails) :
  forall (A : authorizationService.Accumulator) (seen : list UserRoleWithDetails),
    (forall dept,
        JsMap.get (authorizationService.acc_departmentRoles A) dept
        = match map urd_role
                  (filter (fun d => truthy (Some dept)
                                    && departmentId_is dept (urd_userRole d)) seen) with
          | [] => None
          | l => Some l
          end) ->
    forall dept,
      JsMap.get (authorizationService.acc_departmentRoles
                   (fold_left authorizationService.step ds A)) dept
      = match map urd_role
                (filter (fun d => truthy (Some dept)
                                  && departmentId_is dept (urd_userRole d))
                        (seen ++ ds)) with
        | [] => None
        | l => Some l
        end.
Proof.
  induction ds as [|d ds IH]; intros A seen Hinv dept.
  - simpl. rewrite app_nil_r. apply Hinv.
  - simpl fold_left.
    replace (seen ++ d :: ds) with ((seen ++ [d]) ++ ds)
      by (rewrite <- app_assoc; reflexivity).
    apply IH. clear dept. intros dept.
    unfold authorizationService.step.
    cbn [authorizationService.acc_departmentRoles].
    rewrite filter_app, map_app. simpl filter.
    unfold departmentId_is at 2.
    destruct (ur_departmentId (urd_userRole d)) as [x|] eqn:Dx.
    2:{ rewrite andb_false_r. simpl. rewrite app_nil_r. apply Hinv. }
    destruct (truthy (Some x)) eqn:Tx.
    2:{ (* an empty department id: no bucket is touched *)
      assert (E : negb (dept =? "")%string && (x =? dept)%string = false).
      { destruct (x =? dept)%string eqn:E; [|apply andb_false_r].
        apply String.eqb_eq in E. subst x. simpl in Tx. rewrite Tx. reflexivity. }
      rewrite E. simpl. rewrite app_nil_r. apply Hinv. }
    destruct (String.eqb_spec x dept) as [->|Hne].
    + rewrite JsMap_get_set_eq, Hinv. simpl in Tx. simpl truthy. rewrite Tx. simpl.
      destruct (map urd_role _) as [|r0 l0]; reflexivity.
    + rewrite JsMap_get_set_neq by congruence.
      rewrite andb_false_r. simpl. rewrite app_nil_r. apply Hinv.
Qed.

Lemma effective_snapshot_roles (db : Database) (userId : string) (now : Z)
    (e : authorizationService.UserEffectivePermissions) (message : option string) :
  authorizationService.getEffectivePermissions db userId now = success e message ->
  forall ro, In ro (authorizationService.eff_roles e) <->
             exists d, In d (userRoleRepository.getUserRoles db userId now)
                       /\ urd_role d = ro.
Proof.
  intros H. unfold authorizationService.getEffectivePermissions in H.
  injection H as <- _. cbn [authorizationService.eff_roles].
  set (A0 := {| authorizationService.acc_permissions := [];
                authorizationService.acc_roles := [];
                authorizationService.acc_departmentRoles := [];
                authorizationService.acc_seenPermissionIds := [];
                authorizationService.acc_seenRoleIds := [] |}).
  destruct (effective_roles_loop (userRoleRepository.getUserRoles db userId now) A0
              eq_refl (NoDup_nil _))
    as (S & N & F & _ & C).
  intros ro. split.
  - intros Hin. apply F in Hin. destruct Hin as [[]|Hd]. exact Hd.
  - intros (d & Hd & <-). destruct (C d Hd) as (ro & Hro & Hid).
    assert (Hro' := Hro). apply F in Hro'. destruct Hro' as [[]|(d' & Hd' & <-)].
    rewrite <- (getUserRoles_role_by_id db userId now d' d Hd' Hd Hid). exact Hro.
Qed.

(** X10.  The snapshot of [getEffectivePermissions]: its permissions
    are, in the same order, the permissions [getAllUserPermissions]
    gathers for the user without a department; its roles are the roles
    of the assignments [getUserRoles] returns, each id once; under each
    department id it holds the roles of the assignments scoped to that
    department, in order, and it holds nothing for a department without
    assignment (global assignments fill no bucket). *)
Theorem effective_snapshot (db : Database) (userId : string) (now : Z)
    (e : authorizationService.UserEffectivePermissions) (message : option string) :
  authorizationService.getEffectivePermissions db userId now = success e message ->
  authorizationService.eff_permissions e
  = userRoleRepository.getAllUserPermissions db userId None now
  /\ NoDup (map (fun r => role_id (rwp_role r)) (authorizationService.eff_roles e))
  /\ (forall ro, In ro (authorizationService.eff_roles e) <->
                 exists d, In d (userRoleRepository.getUserRoles db userId now)
                           /\ urd_role d = ro)
  /\ (forall dept,
        JsMap.get (authorizationService.eff_departmentRoles e) dept
        = match map urd_role
                  (filter (fun d => negb (dept =? "")%string
                                    && departmentId_is dept (urd_userRole d))
                          (userRoleRepository.getUserRoles db userId now)) with
          | [] => None
          | l => Some l
          end).
Proof.
  intros H. split; [exact (effective_permissions_eq db userId now e message H)|].
  unfold authorizationService.getEffectivePermissions in H. injection H as <- _.
  cbn [authorizationService.eff_roles authorizationService.eff_departmentRoles].
  set (A0 := {| authorizationService.acc_permissions := [];
                authorizationService.acc_roles := [];
                authorizationService.acc_departmentRoles := [];
                authorizationService.acc_seenPermissionIds := [];
                authorizationService.acc_seenRoleIds := [] |}).
  destruct (effective_roles_loop (userRoleRepository.getUserRoles db userId now) A0
              eq_refl (NoDup_nil _))
    as (S & N & F & _ & C).
  split; [rewrite <- S; exact N|]. split.
  - apply (effective_snapshot_roles db userId now _ None eq_refl).
  - intros dept.
    apply (effective_departments_loop
             (userRoleRepository.getUserRoles db userId now) A0 []).
    intros dept'. reflexivity.
Qed.

Lemma effective_snapshot_witness :
  exists e,
    authorizationService.getEffectivePermissions Demo.db "u1" 100 = success e None
    /\ authorizationService.eff_permissions e
       = [Demo.user_read; Demo.file_manage; Demo.user_read_all; Demo.claim_approve]
    /\ JsMap.get (authorizationService.eff_departmentRoles e) "d1"
       = Some [{| rwp_role := Demo.manager;
                  rwp_permissions := [Demo.user_read_all; Demo.claim_approve] |}].
Proof.
  eexists. split; [reflexivity|].
  destruct (effective_snapshot Demo.db "u1" 100 _ None eq_refl) as (Hp & _ & _ & Hd).
  split.
  - rewrite Hp. reflexivity.
  - rewrite (Hd "d1"). reflexivity.
Defined.

(** X11.  The client callbacks agree with the server: on the snapshot
    fetched for a user, the hook's [can] answers what the server's [can]
    answers without department and owner, and its [canAny] and [canAll]
    what the server's answer; before the snapshot is there, the hook
    answers false. *)
Theorem hook_agrees_with_server (db : Database) (userId : string) (now : Z)
    (e : authorizationService.UserEffectivePermissions) (message : option string) :
  authorizationService.getEffectivePermissions db userId now = success e message ->
  (forall resource action,
      usePermissions.can (Some e) resource action
      = authPermissions.can db userId resource action None None now)
  /\ (forall checks,
        usePermissions.canAny (Some e) checks
        = authPermissions.canAny db userId checks now
        /\ usePermissions.canAll (Some e) checks
           = authPermissions.canAll db userId checks now)
  /\ (forall resource action, usePermissions.can None resource action = false).
Proof.
  intros H.
  assert (Hcan : forall resource action,
             usePermissions.can (Some e) resource action
             = authPermissions.can db userId resource action None None now).
  { intros resource action. rewrite can_plain. unfold usePermissions.can.
    rewrite (effective_permissions_eq db userId now e message H). reflexivity. }
  split; [exact Hcan|]. split; [|reflexivity].
  intros checks. unfold usePermissions.canAny, usePermissions.canAll.
  destruct (canAny_canAll_server db userId checks now) as [-> ->].
  split.
  - apply existsb_pointwise. intros c. apply Hcan.
  - apply forallb_pointwise. intros c. apply Hcan.
Qed.

Lemma hook_agrees_with_server_witness :
  exists e,
    authorizationService.getEffectivePermissions Demo.db "u1" 100 = success e None
    /\ usePermissions.can (Some e) Resource.FILE Action.DELETE
       = authPermissions.can Demo.db "u1" Resource.FILE Action.DELETE None None 100.
Proof.
  eexists. split; [reflexivity|].
  apply (hook_agrees_with_server Demo.db "u1" 100 _ None eq_refl).
Defined.

(** X12.  The hook's [hasRole] on the snapshot of a user answers what
    the server's [hasRole] answers for the user without a department. *)
Theorem hook_hasRole_agrees (db : Database) (userId roleCode : string) (now : Z)
    (e : authorizationService.UserEffectivePermissions) (message : option string) :
  authorizationService.getEffectivePermissions db userId now = success e message ->
  usePermissions.hasRole (Some e) roleCode
  = authPermissions.hasRole db userId roleCode None now.
Proof.
  intros H. pose proof (effective_snapshot_roles db userId now e message H) as Hroles.
  unfold usePermissions.hasRole, authPermissions.hasRole, authorizationService.hasRole.
  destruct (userRoleRepository.hasRole db userId roleCode None now) eqn:S.
  - apply hasRole_no_department in S.
    destruct S as (r & ro & Hin & Hu & Hro & Hc & Ha & Hact & Hexp).
    apply existsb_exists.
    exists {| rwp_role := ro;
              rwp_permissions := map snd (include_rolePermissions db (role_id ro)) |}.
    split; [|simpl; rewrite Hc; apply String.eqb_refl].
    apply Hroles.
    exists {| urd_userRole := r;
              urd_role := {| rwp_role := ro;
                             rwp_permissions :=
                               map snd (include_rolePermissions db (role_id ro)) |} |}.
    split; [|reflexivity]. apply getUserRoles_In. simpl.
    unfold userRoleRepository.include_role. rewrite Hro.
    repeat split; try assumption. apply expiry_alternatives. exact Hexp.
  - destruct (existsb _ (authorizationService.eff_roles e)) eqn:E; [|reflexivity].
    apply existsb_exists in E. destruct E as (rw & Hrw & Hc).
    apply String.eqb_eq in Hc. apply Hroles in Hrw. destruct Hrw as (d & Hd & <-).
    apply getUserRoles_In in Hd. destruct Hd as (Hin & Hu & Hact & Hexp & Hi & Ha).
    assert (userRoleRepository.hasRole db userId roleCode None now = true);
      [|congruence].
    apply hasRole_no_department.
    unfold userRoleRepository.include_role in Hi.
    destruct (role_of db (ur_roleId (urd_userRole d))) as [ro|] eqn:R; [|discriminate].
    injection Hi as Hi. rewrite <- Hi in Hc, Ha. simpl in Hc, Ha.
    exists (urd_userRole d), ro. repeat split; try assumption.
    apply expiry_alternatives. exact Hexp.
Qed.

Lemma hook_hasRole_agrees_witness :
  exists e,
    authorizationService.getEffectivePermissions Demo.db "u1" 100 = success e None
    /\ usePermissions.hasRole (Some e) "manager"
       = authPermissions.hasRole Demo.db "u1" "manager" None 100.
Proof.
  eexists. split; [reflexivity|].
  apply (hook_hasRole_agrees Demo.db "u1" "manager" 100 _ None eq_refl).
Defined.

(** ** Grants of a role *)

Lemma findWithPermissions_rows (db : Database) (id : string) :
  map snd (include_rolePermissions db id)
  = filter perm_isActive (roleRepository.getPermissions db id).
Proof.
  unfold include_rolePermissions, roleRepository.getPermissions.
  induction (rolePermissions db) as [|rp l IH]; simpl; [reflexivity|].
  rewrite map_app, filter_app, IH. f_equal.
  destruct (rp_roleId rp =? id)%string; [|reflexivity].
  destruct (permission_of db (rp_permissionId rp)) as [p|]; [|reflexivity].
  simpl. destruct (perm_isActive p); reflexivity.
Qed.

(** X13.  [findWithPermissions] returns the role with the given id and,
    with it, the permissions of the role that are active: up to the
    order of the list, these are the active ones among those
    [getPermissions] lists, each as often ([getPermissions] also lists
    the deactivated ones).  Neither query asks for an order, so nothing
    is said of the order of either list. *)
Theorem findWithPermissions_active_part (db : Database) (id : string)
    (role : RoleWithPermissions) :
  roleRepository.findWithPermissions db id = Some role ->
  roleRepository.findById db id = Some (rwp_role role)
  /\ Permutation (rwp_permissions role)
                 (filter perm_isActive (roleRepository.getPermissions db id))
  /\ forall p,
       In p (rwp_permissions role)
       <-> In p (roleRepository.getPermissions db id) /\ perm_isActive p = true.
Proof.
  unfold roleRepository.findWithPermissions.
  destruct (roleRepository.findById db id) as [found|]; [|discriminate].
  intros H. injection H as <-. simpl.
  split; [reflexivity|]. rewrite findWithPermissions_rows.
  split; [apply Permutation_refl|].
  intros p. apply filter_In.
Qed.

Lemma findWithPermissions_active_part_witness :
  exists role,
    roleRepository.findWithPermissions Demo.db "r1" = Some role
    /\ Permutation (rwp_permissions role) [Demo.user_read; Demo.file_manage]
    /\ Permutation (roleRepository.getPermissions Demo.db "r1")
                   [Demo.user_read; Demo.file_manage; Demo.role_read].
Proof.
  eexists. split; [reflexivity|]. split; [|apply Permutation_refl].
  apply (findWithPermissions_active_part Demo.db "r1" _ eq_refl).
Defined.

Lemma indexed_snd {A : Type} (l : list A) : map snd (indexed l) = l.
Proof.
  unfold indexed. generalize 0%nat.
  induction l as [|x l IH]; intros n; simpl; [reflexivity|]. rewrite IH. reflexivity.
Qed.

Lemma distinct_NoDup (l : list string) : distinct l = true <-> NoDup l.
Proof.
  induction l as [|x l IH]; simpl.
  - split; [constructor|reflexivity].
  - rewrite andb_true_iff, negb_true_iff, IH, NoDup_cons_iff.
    assert (H : existsb (fun y => (y =? x)%string) l = false <-> ~ In x l).
    { split.
      - intros E Hin.
        assert (existsb (fun y => (y =? x)%string) l = true).
        { apply existsb_exists. exists x. split; [exact Hin|apply String.eqb_refl]. }
        congruence.
      - intros Hn. destruct (existsb _ l) eqn:E; [|reflexivity].
        apply existsb_exists in E. destruct E as (y & Hy & E).
        apply String.eqb_eq in E. subst y. contradiction. }
    rewrite H. tauto.
Qed.

Lemma filter_nothing {A : Type} (f : A -> bool) (l : list A) :
  (forall a, In a l -> f a = false) -> filter f l = [].
Proof.
  induction l as [|a l IH]; intros H; simpl; [reflexivity|].
  rewrite (H a) by (simpl; auto). apply IH. intros b Hb. apply H. simpl. auto.
Qed.

Lemma flat_map_nothing {A B : Type} (f : A -> list B) (l : list A) :
  (forall a, In a l -> f a = []) -> flat_map f l = [].
Proof.
  induction l as [|a l IH]; intros H; simpl; [reflexivity|].
  rewrite (H a) by (simpl; auto). apply IH. intros b Hb. apply H. simpl. auto.
Qed.

Lemma forallb_false_exists {A : Type} (f : A -> bool) (l : list A) :
  forallb f l = false -> exists a, In a l /\ f a = false.
Proof.
  induction l as [|a l IH]; simpl; [discriminate|].
  destruct (f a) eqn:E; simpl.
  - intros H. destruct (IH H) as (b & Hb & Hf). exists b. auto.
  - intros _. exists a. auto.
Qed.

Lemma NoDup_filter_map {A K : Type} (key : A -> K) (f : A -> bool) (l : list A) :
  NoDup (map key l) -> NoDup (map key (filter f l)).
Proof.
  induction l as [|a l IH]; simpl; intros H; [constructor|].
  apply NoDup_cons_iff in H. destruct H as [Hn H].
  destruct (f a); simpl; [|apply IH; exact H].
  constructor; [|apply IH; exact H].
  intros Hin. apply Hn. apply in_map_iff in Hin. destruct Hin as (b & E & Hb).
  apply filter_In in Hb. rewrite <- E. apply in_map. tauto.
Qed.

Lemma NoDup_pair_left {K V : Type} (k : K) (l : list V) :
  NoDup l -> NoDup (map (fun v => (k, v)) l).
Proof.
  induction l as [|v l IH]; simpl; intros H; [constructor|].
  apply NoDup_cons_iff in H. destruct H as [Hn H].
  constructor; [|apply IH; exact H].
  intros Hin. apply in_map_iff in Hin. destruct Hin as (w & E & Hw).
  injection E as ->. contradiction.
Qed.

Lemma filter_filter_neg {A : Type} (f : A -> bool) (l : list A) :
  filter f (filter (fun a => negb (f a)) l) = []
  /\ filter (fun a => negb (f a)) (filter (fun a => negb (f a)) l)
     = filter (fun a => negb (f a)) l.
Proof.
  split.
  - apply filter_nothing. intros a Ha. apply filter_In in Ha.
    destruct Ha as [_ Ha]. apply negb_true_iff. exact Ha.
  - apply filter_all. intros a Ha. apply filter_In in Ha. tauto.
Qed.

(** The rows [setPermissions] creates. *)
Lemma setPermissions_Some (db : Database) (roleId : string) (permissionIds : list string)
    (grantedById : option string) (now : Z) (newId : nat -> string) (db' : Database) :
  roleRepository.setPermissions db roleId permissionIds grantedById now newId = Some db' ->
  NoDup permissionIds
  /\ (forall permissionId, In permissionId permissionIds ->
        exists p, permission_of db permissionId = Some p)
  /\ rolePermissions db'
     = filter (fun rp => negb (rp_roleId rp =? roleId)%string) (rolePermissions db)
       ++ map (fun ip => {| rp_id := newId (fst ip); rp_roleId := roleId;
                            rp_permissionId := snd ip;
                            rp_grantedById := grantedById; rp_grantedAt := now |})
              (indexed permissionIds)
  /\ permissions db' = permissions db /\ roles db' = roles db
  /\ userRoles db' = userRoles db.
Proof.
  unfold roleRepository.setPermissions.
  destruct (distinct permissionIds) eqn:D; simpl; [|discriminate].
  destruct (forallb _ permissionIds) eqn:F; [|discriminate].
  intros H. injection H as <-. simpl.
  split; [apply distinct_NoDup; exact D|]. split; [|auto].
  intros pid Hin. rewrite forallb_forall in F. specialize (F pid Hin).
  destruct (roleRepository.findById db roleId); [|discriminate].
  destruct (permission_of db pid) as [p|]; [eauto|discriminate].
Qed.

Lemma setPermissions_rows (db db' : Database) (roleId : string)
    (permissionIds : list string) (grantedById : option string)
    (now : Z) (newId : nat -> string) :
  roleRepository.setPermissions db roleId permissionIds grantedById now newId = Some db' ->
  filter (fun rp => (rp_roleId rp =? roleId)%string) (rolePermissions db')
  = map (fun ip => {| rp_id := newId (fst ip); rp_roleId := roleId;
                      rp_permissionId := snd ip;
                      rp_grantedById := grantedById; rp_grantedAt := now |})
        (indexed permissionIds)
  /\ filter (fun rp => negb (rp_roleId rp =? roleId)%string) (rolePermissions db')
     = filter (fun rp => negb (rp_roleId rp =? roleId)%string) (rolePermissions db).
Proof.
  intros H. destruct (setPermissions_Some _ _ _ _ _ _ _ H) as (_ & _ & Hrows & _).
  rewrite Hrows, !filter_app.
  destruct (filter_filter_neg (fun rp => (rp_roleId rp =? roleId)%string)
              (rolePermissions db)) as [E1 E2].
  rewrite E1, E2.
  set (new := map _ (indexed permissionIds)).
  assert (Hnew : forall rp, In rp new -> (rp_roleId rp =? roleId)%string = true).
  { intros rp Hin. unfold new in Hin. apply in_map_iff in Hin.
    destruct Hin as (ip & <- & _). simpl. apply String.eqb_refl. }
  split.
  - simpl. apply filter_all. exact Hnew.
  - assert (E : filter (fun rp => negb (rp_roleId rp =? roleId)%string) new = []).
    { apply filter_nothing. intros rp Hin. rewrite (Hnew rp Hin). reflexivity. }
    rewrite E. apply app_nil_r.
Qed.

Lemma getPermissions_by_rows (db : Database) (roleId : string) :
  roleRepository.getPermissions db roleId
  = flat_map (fun rp => match permission_of db (rp_permissionId rp) with
                        | Some p => [p]
                        | None => []
                        end)
             (filter (fun rp => (rp_roleId rp =? roleId)%string) (rolePermissions db)).
Proof.
  unfold roleRepository.getPermissions.
  induction (rolePermissions db) as [|rp l IH]; simpl; [reflexivity|].
  rewrite IH. destruct (rp_roleId rp =? roleId)%string; reflexivity.
Qed.

Lemma permissions_of_rows (db : Database) (mk : nat * string -> RolePermission)
    (l : list (nat * string)) :
  (forall ip, rp_permissionId (mk ip) = snd ip) ->
  (forall ip, In ip l -> exists p, permission_of db (snd ip) = Some p) ->
  map perm_id
      (flat_map (fun rp => match permission_of db (rp_permissionId rp) with
                           | Some p => [p]
                           | None => []
                           end)
                (map mk l))
  = map snd l.
Proof.
  intros Hmk. induction l as [|ip l IH]; intros Hall; simpl; [reflexivity|].
  rewrite Hmk. destruct (Hall ip) as (p & Hpp); [simpl; auto|]. rewrite Hpp. simpl.
  destruct (permission_of_Some _ _ _ Hpp) as [_ Hid]. rewrite Hid. f_equal.
  apply IH. intros ip' Hin. apply Hall. simpl. auto.
Qed.

(** X14.  [setPermissions] replaces the grants of a role as a whole.
    When it succeeds, the role is granted exactly the given permission
    ids, in the given order, the grants of every other role are what
    they were, and no pair is granted twice.  It fails, writing nothing,
    exactly when an id is given twice or a given id (or, with ids given,
    the role) is not in the store; the service then passes the failure
    on with the store untouched. *)
Theorem setPermissions_replaces (db : Database) (roleId : string)
    (permissionIds : list string) (grantedById : option string)
    (now : Z) (newId : nat -> string) :
  (forall db',
      roleRepository.setPermissions db roleId permissionIds grantedById now newId
      = Some db' ->
      map rp_permissionId
          (filter (fun rp => (rp_roleId rp =? roleId)%string) (rolePermissions db'))
      = permissionIds
      /\ map perm_id (roleRepository.getPermissions db' roleId) = permissionIds
      /\ filter (fun rp => negb (rp_roleId rp =? roleId)%string) (rolePermissions db')
         = filter (fun rp => negb (rp_roleId rp =? roleId)%string) (rolePermissions db)
      /\ (uniqueGrants db -> uniqueGrants db')
      /\ (roleRepository.findById db roleId <> None ->
          roleService.setPermissions db roleId permissionIds grantedById now newId
          = (Returned (success tt (Some "Permissions updated successfully")), db')))
  /\ (roleRepository.setPermissions db roleId permissionIds grantedById now newId = None
      <-> ~ NoDup permissionIds
          \/ exists permissionId,
               In permissionId permissionIds
               /\ (roleRepository.findById db roleId = None
                   \/ permission_of db permissionId = None))
  /\ (roleRepository.setPermissions db roleId permissionIds grantedById now newId = None ->
      roleRepository.findById db roleId <> None ->
      roleService.setPermissions db roleId permissionIds grantedById now newId
      = (Rejected, db)).
Proof.
  split; [|split].
  - intros db' H.
    destruct (setPermissions_Some _ _ _ _ _ _ _ H) as (Hnd & Hex & Hrows & Hp & _ & _).
    destruct (setPermissions_rows _ _ _ _ _ _ _ H) as [Hmine Hothers].
    split; [|split; [|split; [|split]]].
    + rewrite Hmine, map_map. simpl. apply indexed_snd.
    + rewrite getPermissions_by_rows, Hmine.
      rewrite <- (indexed_snd permissionIds) at 2.
      apply permissions_of_rows; [reflexivity|]. intros ip Hin.
      unfold permission_of. rewrite Hp. apply Hex.
      rewrite <- (indexed_snd permissionIds). apply in_map. exact Hin.
    + exact Hothers.
    + intros Hug. unfold uniqueGrants. rewrite Hrows, map_app. apply NoDup_app.
      * apply (NoDup_filter_map grantKey). exact Hug.
      * rewrite map_map. unfold grantKey. simpl.
        rewrite <- (map_map snd (fun v => (roleId, v))), indexed_snd.
        apply NoDup_pair_left. exact Hnd.
      * intros k Hk Hk'. apply in_map_iff in Hk, Hk'.
        destruct Hk as (rp & E1 & Hin). destruct Hk' as (rp' & E2 & Hin').
        apply filter_In in Hin. destruct Hin as [_ Hin].
        apply negb_true_iff, String.eqb_neq in Hin.
        apply in_map_iff in Hin'. destruct Hin' as (ip & E3 & _).
        rewrite <- E2, <- E3 in E1. unfold grantKey in E1. simpl in E1.
        injection E1 as E1 _. contradiction.
    + intros Hr. unfold roleService.setPermissions. rewrite H.
      destruct (roleRepository.findById db roleId); [reflexivity|congruence].
  - unfold roleRepository.setPermissions.
    destruct (distinct permissionIds) eqn:D; simpl.
    + destruct (forallb _ permissionIds) eqn:F.
      * split; [discriminate|]. intros [Hn|(pid & Hin & Hmiss)].
        -- exfalso. apply Hn. apply distinct_NoDup. exact D.
        -- exfalso. rewrite forallb_forall in F. specialize (F pid Hin).
           destruct Hmiss as [E|E]; rewrite E in F;
             [|destruct (roleRepository.findById db roleId)]; discriminate.
      * split; [|reflexivity]. intros _. right.
        apply forallb_false_exists in F. destruct F as (pid & Hin & F).
        exists pid. split; [exact Hin|].
        destruct (roleRepository.findById db roleId); [|auto].
        destruct (permission_of db pid); [discriminate|auto].
    + split; [|reflexivity]. intros _. left. intros Hn.
      apply distinct_NoDup in Hn. congruence.
  - intros H Hr. unfold roleService.setPermissions. rewrite H.
    destruct (roleRepository.findById db roleId); [reflexivity|congruence].
Qed.

Lemma setPermissions_replaces_witness :
  exists db',
    roleRepository.setPermissions Demo.db "r1" ["p4"; "p1"] (Some "u1") 7 fresh = Some db'
    /\ map perm_id (roleRepository.getPermissions db' "r1") = ["p4"; "p1"].
Proof.
  eexists. split; [reflexivity|].
  apply (proj1 (setPermissions_replaces Demo.db "r1" ["p4"; "p1"] (Some "u1") 7 fresh)).
  reflexivity.
Defined.

(** ** Creating permissions *)

Lemma find_append {A : Type} (f : A -> bool) (l l' : list A) :
  find f (l ++ l') = match find f l with
                     | Some x => Some x
                     | None => find f l'
                     end.
Proof.
  induction l as [|a l IH]; simpl; [reflexivity|].
  destruct (f a); [reflexivity|exact IH].
Qed.

Lemma findByCode_None_fresh (db : Database) (code : string) :
  permissionRepository.findByCode db code = None ->
  ~ In code (map perm_code (permissions db)).
Proof.
  unfold permissionRepository.findByCode. intros F Hin.
  apply in_map_iff in Hin. destruct Hin as (p & Hc & Hp).
  pose proof (find_none _ _ F p Hp) as H. simpl in H.
  rewrite Hc, String.eqb_refl in H. discriminate.
Qed.

(** X15.  [permissionService.create] refuses a code the catalog has and
    writes nothing; otherwise it adds one row, which [getByCode] then
    returns, with scope OWN and [isSystem] false where the input leaves
    them out.  The lookups of the other codes are what they were, codes
    stay unique, and the store never refuses the insert. *)
Theorem permission_create_spec (db : Database) (data : CreatePermissionInput)
    (newId : string) :
  (permissionRepository.findByCode db (cpi_code data) <> None ->
   permissionService.create db data newId
   = (Returned (error "Permission code already exists" "PERMISSION_CODE_EXISTS"), db))
  /\ (permissionRepository.findByCode db (cpi_code data) = None ->
      exists p db',
        permissionService.create db data newId
        = (Returned (success p (Some "Permission created successfully")), db')
        /\ permissionService.getByCode db' (cpi_code data) = success p None
        /\ perm_id p = newId /\ perm_isActive p = true
        /\ (cpi_scope data = None -> perm_scope p = Scope.OWN)
        /\ (cpi_isSystem data = None -> perm_isSystem p = false)
        /\ permissions db' = permissions db ++ [p]
        /\ (forall code, code <> cpi_code data ->
              permissionRepository.findByCode db' code
              = permissionRepository.findByCode db code)
        /\ (uniquePermissionCodes db -> uniquePermissionCodes db')
        /\ roles db' = roles db /\ rolePermissions db' = rolePermissions db
        /\ userRoles db' = userRoles db)
  /\ fst (permissionService.create db data newId) <> Rejected.
Proof.
  unfold permissionService.create, permissionRepository.create.
  destruct (permissionRepository.findByCode db (cpi_code data)) as [q|] eqn:F.
  - split; [reflexivity|]. split; [discriminate|]. simpl. discriminate.
  - split; [congruence|]. split; [|simpl; discriminate]. intros _.
    exists (permissionRepository.row data newId). eexists.
    split; [reflexivity|].
    split; [|split; [reflexivity|split; [reflexivity|]]].
    { unfold permissionService.getByCode, permissionRepository.findByCode in *.
      simpl. rewrite find_append, F. simpl. rewrite String.eqb_refl. reflexivity. }
    split; [intros E; simpl; rewrite E; reflexivity|].
    split; [intros E; simpl; rewrite E; reflexivity|].
    split; [reflexivity|]. split; [|split; [|auto]].
    + intros code Hc. unfold permissionRepository.findByCode. simpl.
      rewrite find_append. simpl.
      destruct (find _ (permissions db)); [reflexivity|].
      destruct (cpi_code data =? code)%string eqn:E; [|reflexivity].
      apply String.eqb_eq in E. congruence.
    + unfold uniquePermissionCodes. simpl. intros Hu. rewrite map_app. simpl.
      apply NoDup_snoc; [exact Hu|]. apply findByCode_None_fresh. exact F.
Qed.


Lemma permission_create_spec_witness :
  exists p db',
    permissionService.create Demo.db
      {| cpi_code := "file:read"; cpi_name := "Read Files"; cpi_description := None;
         cpi_resource := Resource.FILE; cpi_action := Action.READ;
         cpi_scope := None; cpi_isSystem := None |} "p6"
    = (Returned (success p (Some "Permission created successfully")), db')
    /\ permissionService.getByCode db' "file:read" = success p None
    /\ perm_scope p = Scope.OWN /\ perm_isSystem p = false.
Proof.
  destruct (permission_create_spec Demo.db
              {| cpi_code := "file:read"; cpi_name := "Read Files";
                 cpi_description := None;
                 cpi_resource := Resource.FILE; cpi_action := Action.READ;
                 cpi_scope := None; cpi_isSystem := None |} "p6") as (_ & H & _).
  destruct (H eq_refl) as (p & db' & H1 & H2 & _ & _ & H3 & H4 & _).
  exists p, db'. auto.
Defined.

Lemma findByCode_kept (db db' : Database) (added : list PermissionEntity)
    (code : string) (p : PermissionEntity) :
  permissions db' = permissions db ++ added ->
  permissionRepository.findByCode db code = Some p ->
  permissionRepository.findByCode db' code = Some p.
Proof.
  unfold permissionRepository.findByCode. intros -> F.
  rewrite find_append, F. reflexivity.
Qed.

Lemma createMany_loop (newId : nat -> string)
    (l : list (nat * CreatePermissionInput)) (st : nat * Database) :
  let st' :=
    fold_left
      (fun (st : nat * Database) (ip : nat * CreatePermissionInput) =>
         match permissionRepository.findByCode (snd st) (cpi_code (snd ip)) with
         | Some _ => st
         | None =>
             (S (fst st),
              with_permissions (snd st)
                (permissions (snd st)
                 ++ [permissionRepository.row (snd ip) (newId (fst ip))]))
         end)
      l st in
  (exists added,
      permissions (snd st') = permissions (snd st) ++ added
      /\ fst st' = (fst st + length added)%nat
      /\ (length added <= length l)%nat)
  /\ (forall ip, In ip l ->
        permissionRepository.findByCode (snd st') (cpi_code (snd ip)) <> None)
  /\ (uniquePermissionCodes (snd st) -> uniquePermissionCodes (snd st'))
  /\ roles (snd st') = roles (snd st)
  /\ rolePermissions (snd st') = rolePermissions (snd st)
  /\ userRoles (snd st') = userRoles (snd st).
Proof.
  revert st. induction l as [|ip l IH]; intros st; cbn zeta.
  - simpl. split; [exists []; rewrite app_nil_r; auto with arith|]. tauto.
  - cbn [fold_left].
    set (st1 := match permissionRepository.findByCode (snd st) (cpi_code (snd ip)) with
                | Some _ => st
                | None => _
                end).
    specialize (IH st1). cbn zeta in IH.
    set (st' := fold_left _ l st1) in *.
    destruct IH as ((added & Hp & Hc & Hl) & Hcov & Hu & Hr & Hg & Ha).
    destruct (permissionRepository.findByCode (snd st) (cpi_code (snd ip)))
      as [q|] eqn:F; subst st1.
    + split; [exists added; simpl; auto with arith|].
      split; [|auto]. intros ip' [<-|Hin]; [|auto].
      rewrite (findByCode_kept _ _ _ _ _ Hp F). discriminate.
    + simpl in Hp, Hc, Hu, Hr, Hg, Ha.
      split; [|split; [|split; [|auto]]].
      * exists (permissionRepository.row (snd ip) (newId (fst ip)) :: added).
        rewrite Hp, <- app_assoc. simpl. split; [reflexivity|]. split; lia.
      * intros ip' [<-|Hin]; [|auto].
        assert (F1 : permissionRepository.findByCode
                       (with_permissions (snd st)
                          (permissions (snd st)
                           ++ [permissionRepository.row (snd ip) (newId (fst ip))]))
                       (cpi_code (snd ip))
                     = Some (permissionRepository.row (snd ip) (newId (fst ip)))).
        { unfold permissionRepository.findByCode in *. simpl.
          rewrite find_append, F. simpl. rewrite String.eqb_refl. reflexivity. }
        rewrite (findByCode_kept
                   (with_permissions (snd st)
                      (permissions (snd st)
                       ++ [permissionRepository.row (snd ip) (newId (fst ip))]))
                   _ added _ _ Hp F1).
        discriminate.
      * intros Hu0. apply Hu. unfold uniquePermissionCodes. simpl.
        rewrite map_app. simpl. apply NoDup_snoc; [exact Hu0|].
        apply findByCode_None_fresh. exact F.
Qed.

Lemma createMany_loop_nothing (newId : nat -> string)
    (l : list (nat * CreatePermissionInput)) (st : nat * Database) :
  (forall ip, In ip l ->
     permissionRepository.findByCode (snd st) (cpi_code (snd ip)) <> None) ->
  fold_left
    (fun (st : nat * Database) (ip : nat * CreatePermissionInput) =>
       match permissionRepository.findByCode (snd st) (cpi_code (snd ip)) with
       | Some _ => st
       | None =>
           (S (fst st),
            with_permissions (snd st)
              (permissions (snd st)
               ++ [permissionRepository.row (snd ip) (newId (fst ip))]))
       end)
    l st = st.
Proof.
  induction l as [|ip l IH]; intros H; simpl; [reflexivity|].
  destruct (permissionRepository.findByCode (snd st) (cpi_code (snd ip))) eqn:F.
  - apply IH. intros ip' Hin. apply H. simpl. auto.
  - exfalso. apply (H ip); simpl; auto.
Qed.

Lemma indexed_length {A : Type} (l : list A) : length (indexed l) = length l.
Proof.
  unfold indexed. rewrite length_combine, length_seq. apply Nat.min_id.
Qed.

(** X16.  [createMany] passes over the codes the catalog has: it only
    appends rows, as many as it counts and no more than it was given;
    afterwards every given code is in the catalog, the codes that were
    there are found as before, and codes stay unique.  Run again on its
    own result, with the same inputs, it creates nothing. *)
Theorem createMany_idempotent (db : Database) (inputs : list CreatePermissionInput)
    (newId newId' : nat -> string) :
  let count := fst (permissionService.createMany db inputs newId) in
  let db' := snd (permissionService.createMany db inputs newId) in
  permissionService.createMany db' inputs newId' = (0%nat, db')
  /\ (forall input, In input inputs ->
        exists p, permissionService.getByCode db' (cpi_code input) = success p None)
  /\ (forall code p,
        permissionRepository.findByCode db code = Some p ->
        permissionRepository.findByCode db' code = Some p)
  /\ (exists added,
        permissions db' = permissions db ++ added /\ length added = count)
  /\ (count <= length inputs)%nat
  /\ (uniquePermissionCodes db -> uniquePermissionCodes db')
  /\ roles db' = roles db /\ rolePermissions db' = rolePermissions db
  /\ userRoles db' = userRoles db.
Proof.
  unfold permissionService.createMany, permissionRepository.createMany.
  pose proof (createMany_loop newId (indexed inputs) (0%nat, db)) as H.
  cbn zeta in H. cbn zeta.
  set (st' := fold_left _ (indexed inputs) (0%nat, db)) in *.
  destruct H as ((added & Hp & Hc & Hl) & Hcov & Hu & Hr & Hg & Ha).
  simpl in Hp, Hc, Hu, Hr, Hg, Ha.
  assert (Hall : forall input, In input inputs ->
            permissionRepository.findByCode (snd st') (cpi_code input) <> None).
  { intros input Hin. rewrite <- (indexed_snd inputs) in Hin.
    apply in_map_iff in Hin. destruct Hin as (ip & <- & Hin). auto. }
  split; [|split; [|split; [|split; [|split; [|auto]]]]].
  - apply (createMany_loop_nothing newId' (indexed inputs) (0%nat, snd st')).
    intros ip Hin. simpl. apply Hall. rewrite <- (indexed_snd inputs).
    apply in_map. exact Hin.
  - intros input Hin. unfold permissionService.getByCode.
    specialize (Hall input Hin).
    destruct (permissionRepository.findByCode (snd st') (cpi_code input)) as [p|];
      [eauto|congruence].
  - intros code p F. exact (findByCode_kept _ _ _ _ _ Hp F).
  - exists added. split; [exact Hp|]. rewrite Hc. reflexivity.
  - rewrite Hc. rewrite indexed_length in Hl. exact Hl.
Qed.

(** ** Roles *)

Lemma role_findById_Some (db : Database) (id : string) (r : RoleEntity) :
  roleRepository.findById db id = Some r -> In r (roles db) /\ role_id r = id.
Proof.
  unfold roleRepository.findById. intros F. apply find_some in F.
  destruct F as [Hin Hb]. apply String.eqb_eq in Hb. auto.
Qed.

Lemma role_findById_unique (db : Database) (r : RoleEntity) :
  uniqueRoleIds db -> In r (roles db) ->
  roleRepository.findById db (role_id r) = Some r.
Proof.
  unfold uniqueRoleIds, roleRepository.findById.
  induction (roles db) as [|q l IH]; intros Hnd Hin; [contradiction|].
  simpl in Hnd. apply NoDup_cons_iff in Hnd. destruct Hnd as [Hq Hnd].
  simpl. destruct (role_id q =? role_id r)%string eqn:E.
  - apply String.eqb_eq in E. destruct Hin as [->|Hin]; [reflexivity|].
    exfalso. apply Hq. rewrite E. apply in_map. exact Hin.
  - destruct Hin as [->|Hin]; [rewrite String.eqb_refl in E; discriminate|].
    apply IH; assumption.
Qed.



Lemma office_uniqueRoleIds : uniqueRoleIds Office.db.
Proof.
  unfold uniqueRoleIds. simpl.
  repeat (constructor; [simpl; intuition discriminate|]). constructor.
Qed.



(** X18.  Deleting a role takes everything that refers to it along.
    After [roleService.delete] has succeeded on a store with unique role
    ids, the store has no role with the id, no grant and no assignment
    of it, and no role names it as parent; the grants and assignments of
    the other roles and the permission catalog are what they were, and
    every other role is kept. *)
Theorem role_delete_cascade (db db' : Database) (id : string)
    (message : option string) :
  uniqueRoleIds db ->
  roleService.delete db id = (Returned (success tt message), db') ->
  roleRepository.findById db' id = None
  /\ (forall rp, In rp (rolePermissions db') -> rp_roleId rp <> id)
  /\ (forall ur, In ur (userRoles db') -> ur_roleId ur <> id)
  /\ (forall r, In r (roles db') -> role_parentRoleId r <> Some id)
  /\ rolePermissions db'
     = filter (fun rp => negb (rp_roleId rp =? id)%string) (rolePermissions db)
  /\ userRoles db'
     = filter (fun ur => negb (ur_roleId ur =? id)%string) (userRoles db)
  /\ permissions db' = permissions db
  /\ (forall r, In r (roles db) -> role_id r <> id -> keepsRole r db').
Proof.
  intros Hu. unfold roleService.delete.
  destruct (roleRepository.findById db id) as [existing|] eqn:F; [|discriminate].
  destruct (role_isSystem existing) eqn:G; [discriminate|].
  unfold roleRepository.delete.
  destruct (find _ (roles db)) as [found|]; [|discriminate].
  intros H. injection H as _ <-. simpl.
  split; [|split; [|split; [|split; [|split; [|split; [|split]]]]]];
    try reflexivity.
  - unfold roleRepository.findById. simpl.
    destruct (find _ (map _ _)) as [q|] eqn:Q; [|reflexivity]. exfalso.
    apply find_some in Q. destruct Q as [Hq Hid].
    apply in_map_iff in Hq. destruct Hq as (q0 & <- & Hq0).
    apply filter_In in Hq0. destruct Hq0 as [Hin Ht].
    simpl in Hid. apply String.eqb_eq in Hid.
    pose proof (role_findById_unique db q0 Hu Hin) as Hq0.
    rewrite Hid, F in Hq0. injection Hq0 as <-.
    rewrite Hid, String.eqb_refl, G in Ht. discriminate.
  - intros rp Hin. apply filter_In in Hin. destruct Hin as [_ Ht].
    apply negb_true_iff, String.eqb_neq in Ht. exact Ht.
  - intros ur Hin. apply filter_In in Hin. destruct Hin as [_ Ht].
    apply negb_true_iff, String.eqb_neq in Ht. exact Ht.
  - intros r Hin. apply in_map_iff in Hin. destruct Hin as (q0 & <- & _).
    simpl. destruct (role_parentRoleId q0) as [p|]; [|discriminate].
    destruct (p =? id)%string eqn:E; [discriminate|].
    apply String.eqb_neq in E. congruence.
  - intros r Hin Hid. exists (roleRepository.orphaned id r).
    split; [|simpl; auto].
    apply in_map. apply filter_In. split; [exact Hin|].
    apply String.eqb_neq in Hid. rewrite Hid. reflexivity.
Qed.

Lemma role_delete_cascade_witness :
  exists db',
    roleService.delete Office.db "r3"
    = (Returned (success tt (Some "Role deleted successfully")), db')
    /\ roleRepository.findById db' "r3" = None
    /\ forall r, In r (roles db') -> role_parentRoleId r <> Some "r3".
Proof.
  eexists. split; [reflexivity|].
  destruct (role_delete_cascade Office.db _ "r3" (Some "Role deleted successfully")
              office_uniqueRoleIds eq_refl) as (H1 & _ & _ & H4 & _).
  auto.
Defined.

Lemma role_findById_exists (db : Database) (t : RoleEntity) (id : string) :
  In t (roles db) -> role_id t = id -> roleRepository.findById db id <> None.
Proof.
  unfold roleRepository.findById. intros Hin Hid F.
  pose proof (find_none _ _ F t Hin) as H. simpl in H.
  rewrite Hid, String.eqb_refl in H. discriminate.
Qed.

Lemma role_findById_None (db : Database) (id : string) :
  roleRepository.findById db id = None -> ~ In id (map role_id (roles db)).
Proof.
  intros F Hin. apply in_map_iff in Hin. destruct Hin as (t & Hid & Hin).
  exact (role_findById_exists db t id Hin Hid F).
Qed.

Lemma role_findByCode_None (db : Database) (code : string) :
  roleRepository.findByCode db code = None -> ~ In code (map role_code (roles db)).
Proof.
  unfold roleRepository.findByCode. intros F Hin.
  apply in_map_iff in Hin. destruct Hin as (t & Hc & Hin).
  pose proof (find_none _ _ F t Hin) as H. simpl in H.
  rewrite Hc, String.eqb_refl in H. discriminate.
Qed.

Lemma role_findById_resolves (db db' : Database) (id : string) :
  (forall t, In t (roles db) -> exists t', In t' (roles db') /\ role_id t' = role_id t) ->
  roleRepository.findById db id <> None -> roleRepository.findById db' id <> None.
Proof.
  intros H F. destruct (roleRepository.findById db id) as [t|] eqn:E; [|congruence].
  apply role_findById_Some in E. destruct E as [Hin Hid].
  destruct (H t Hin) as (t' & Hin' & Hid').
  apply (role_findById_exists db' t'); congruence.
Qed.

(** The role table after a map that keeps ids and codes, with the
    parents of the new rows sound. *)
Lemma rolesSound_map (db : Database) (f : RoleEntity -> RoleEntity) :
  rolesSound db ->
  (forall q, role_id (f q) = role_id q) ->
  (forall q, role_code (f q) = role_code q) ->
  (forall q, In q (roles db) ->
     forall parent, role_parentRoleId (f q) = Some parent ->
       parent <> role_id q /\ roleRepository.findById db parent <> None) ->
  rolesSound (roleRepository.with_roles db (map f (roles db))).
Proof.
  intros (Hi & Hc & He & Hp) Fid Fcode Fpar.
  unfold rolesSound, uniqueRoleIds, uniqueRoleCodes, parentsSound. simpl.
  split; [|split; [|split]].
  - rewrite map_map. rewrite (map_ext _ role_id Fid). exact Hi.
  - rewrite map_map. rewrite (map_ext _ role_code Fcode). exact Hc.
  - intros r Hin. apply in_map_iff in Hin. destruct Hin as (q & <- & Hq).
    rewrite Fid. auto.
  - intros r Hin parent Hpar. apply in_map_iff in Hin.
    destruct Hin as (q & <- & Hq). rewrite Fid.
    destruct (Fpar q Hq parent Hpar) as [H1 H2]. split; [exact H1|].
    apply (role_findById_resolves db); [|exact H2].
    intros t Ht. exists (f t). split; [apply in_map; exact Ht|apply Fid].
Qed.

Lemma rolesSound_update (db : Database) (id : string) (data : UpdateRoleInput) :
  rolesSound db -> rolesSound (snd (roleService.update db id data)).
Proof.
  intros Hs. unfold roleService.update.
  destruct (roleRepository.findById db id) as [existing|] eqn:F; [|exact Hs].
  destruct (role_isSystem existing && _); [exact Hs|].
  destruct (roleService.parentError db id data) eqn:PE; [exact Hs|].
  unfold roleRepository.update. rewrite F.
  destruct (match uri_parentRoleId data with
            | Some parent => roleRepository.parentAccepted db parent
            | None => true
            end) eqn:PA; [|exact Hs].
  destruct (match uri_level data with
            | Some level => int4 level
            | None => true
            end); [|exact Hs].
  simpl. apply rolesSound_map; [exact Hs| | |].
  - intros q. destruct (role_id q =? id)%string; reflexivity.
  - intros q. destruct (role_id q =? id)%string; reflexivity.
  - destruct Hs as (_ & _ & He & Hp).
    intros q Hq parent. destruct (role_id q =? id)%string eqn:E; [|apply Hp; exact Hq].
    apply String.eqb_eq in E. simpl.
    destruct (uri_parentRoleId data) as [[p|]|] eqn:U;
      [|discriminate|apply Hp; exact Hq].
    intros H. injection H as ->.
    unfold roleService.parentError in PE. rewrite U in PE.
    simpl in PA.
    destruct (roleRepository.findById db parent) as [parentRole|] eqn:P;
      [|destruct (truthy (Some parent)); discriminate].
    split; [|discriminate].
    apply role_findById_Some in P. destruct P as [Hin Hid].
    destruct (truthy (Some parent)) eqn:T.
    + destruct (role_id parentRole =? id)%string eqn:S; [discriminate|].
      apply String.eqb_neq in S. congruence.
    + exfalso. simpl in T. apply negb_false_iff, String.eqb_eq in T.
      apply (He parentRole Hin). congruence.
Qed.

Lemma rolesSound_delete (db : Database) (id : string) :
  rolesSound db -> rolesSound (snd (roleService.delete db id)).
Proof.
  intros Hs. unfold roleService.delete.
  destruct (roleRepository.findById db id) as [existing|] eqn:F; [|exact Hs].
  destruct (role_isSystem existing); [exact Hs|].
  unfold roleRepository.delete.
  destruct (find _ (roles db)) as [found|]; [|exact Hs].
  destruct Hs as (Hi & Hc & He & Hp).
  unfold rolesSound, uniqueRoleIds, uniqueRoleCodes, parentsSound. simpl.
  split; [|split; [|split]].
  - rewrite map_map. simpl. apply NoDup_filter_map. exact Hi.
  - rewrite map_map. simpl. apply NoDup_filter_map. exact Hc.
  - intros r Hin. apply in_map_iff in Hin. destruct Hin as (q & <- & Hq).
    apply filter_In in Hq. simpl. apply He. tauto.
  - intros r Hin parent Hpar. apply in_map_iff in Hin.
    destruct Hin as (q & <- & Hq). apply filter_In in Hq. destruct Hq as [Hq _].
    simpl in Hpar. simpl.
    destruct (role_parentRoleId q) as [p|] eqn:Q; [|discriminate].
    destruct (p =? id)%string eqn:E; [discriminate|]. injection Hpar as <-.
    apply String.eqb_neq in E.
    destruct (Hp q Hq p Q) as [H1 H2]. split; [exact H1|].
    destruct (roleRepository.findById db p) as [t|] eqn:T; [|congruence].
    apply role_findById_Some in T. destruct T as [Ht Hid].
    apply (role_findById_exists _ (roleRepository.orphaned id t)); [|exact Hid].
    simpl. apply in_map. apply filter_In. split; [exact Ht|].
    rewrite Hid. apply String.eqb_neq in E. rewrite E. reflexivity.
Qed.

Lemma rolesSound_create (db : Database) (data : CreateRoleInput) (newId : string) :
  rolesSound db -> newId <> "" -> roleRepository.findById db newId = None ->
  rolesSound (snd (roleService.create db data newId)).
Proof.
  intros Hs Hn Hfresh. unfold roleService.create.
  destruct (roleRepository.findByCode db (cri_code data)) eqn:C; [exact Hs|].
  match goal with |- context [if ?b then _ else _] => destruct b; [exact Hs|] end.
  unfold roleRepository.create. rewrite C.
  destruct (roleRepository.parentAccepted db (cri_parentRoleId data)) eqn:PA;
    [|exact Hs].
  destruct (int4 (role_level (roleRepository.row data newId))); [|exact Hs].
  cbn [andb].
  destruct Hs as (Hi & Hc & He & Hp).
  assert (Hkeep : forall t, In t (roles db) ->
            exists t', In t' (roles db ++ [roleRepository.row data newId])
                       /\ role_id t' = role_id t).
  { intros t Ht. exists t. split; [apply in_or_app; auto|reflexivity]. }
  unfold rolesSound, uniqueRoleIds, uniqueRoleCodes, parentsSound. simpl.
  split; [|split; [|split]].
  - rewrite map_app. simpl. apply NoDup_snoc; [exact Hi|].
    apply role_findById_None. exact Hfresh.
  - rewrite map_app. simpl. apply NoDup_snoc; [exact Hc|].
    apply role_findByCode_None. exact C.
  - intros r Hin. apply in_app_or in Hin. destruct Hin as [Hin|[<-|[]]]; auto.
  - intros r Hin parent Hpar. apply in_app_or in Hin.
    destruct Hin as [Hin|[<-|[]]].
    + destruct (Hp r Hin parent Hpar) as [H1 H2]. split; [exact H1|].
      apply (role_findById_resolves db); assumption.
    + simpl in Hpar. simpl. unfold roleRepository.parentAccepted in PA.
      rewrite Hpar in PA.
      destruct (roleRepository.findById db parent) eqn:P; [|discriminate].
      split; [congruence|].
      apply (role_findById_resolves db); [exact Hkeep|congruence].
Qed.

(** X19.  The role table stays sound under the role service.  When role
    ids and codes are unique, no id is empty, and every parent reference
    names another role of the store, the same holds after any call of
    [roleService.create] (with a new, non-empty id for the row),
    [update], [deactivate] or [delete], whatever the arguments and
    whatever the outcome: in particular no call makes a role its own
    parent or leaves a parent reference dangling. *)
Theorem rolesSound_preserved (db : Database) :
  rolesSound db ->
  (forall data newId,
      newId <> "" -> roleRepository.findById db newId = None ->
      rolesSound (snd (roleService.create db data newId)))
  /\ (forall id data, rolesSound (snd (roleService.update db id data)))
  /\ (forall id, rolesSound (snd (roleService.deactivate db id)))
  /\ (forall id, rolesSound (snd (roleService.delete db id))).
Proof.
  intros Hs. split; [|split; [|split]].
  - intros data newId Hn Hf. apply rolesSound_create; assumption.
  - intros id data. apply rolesSound_update. exact Hs.
  - intros id. unfold roleService.deactivate.
    destruct (roleRepository.findById db id) as [existing|] eqn:F; [|exact Hs].
    destruct (role_isSystem existing) eqn:G; [exact Hs|].
    pose proof (rolesSound_update db id
                  {| uri_name := None; uri_description := None; uri_level := None;
                     uri_parentRoleId := None; uri_isActive := Some false |} Hs) as H.
    unfold roleService.update in H. rewrite F, G in H. simpl in H.
    unfold roleRepository.deactivate.
    destruct (roleRepository.update db id _) as [[role db']|]; exact H.
  - intros id. apply rolesSound_delete. exact Hs.
Qed.


Lemma office_rolesSound : rolesSound Office.db.
Proof.
  split; [exact office_uniqueRoleIds|]. split; [|split].
  - unfold uniqueRoleCodes. simpl.
    repeat (constructor; [simpl; intuition discriminate|]). constructor.
  - intros r Hin. simpl in Hin.
    repeat (destruct Hin as [<-|Hin]; [discriminate|]). destruct Hin.
  - intros r Hin parent Hp. simpl in Hin.
    repeat (destruct Hin as [<-|Hin];
            [simpl in Hp; try discriminate; injection Hp as <-;
             split; vm_compute; discriminate|]).
    destruct Hin.
Qed.

Lemma rolesSound_preserved_witness :
  rolesSound
    (snd (roleService.update Office.db "r4"
            {| uri_name := None; uri_description := None; uri_level := None;
               uri_parentRoleId := Some (Some "r2"); uri_isActive := None |})).
Proof.
  apply (rolesSound_preserved Office.db). exact office_rolesSound.
Defined.

(** X20.  The outcomes of [roleService.create].  A code the store has
    is refused (ROLE_CODE_EXISTS).  With a free code: a parent that is
    not in the store is refused (PARENT_ROLE_NOT_FOUND), except the
    empty string, which passes the check of the service and is refused
    by the store itself, so that the call throws; with no parent or a
    parent of the store, a level that does not fit the column INTEGER
    makes the call throw as well; otherwise one row is appended, which
    [getByCode] then returns, active, with the parent given, level 0 and
    [isSystem] false where the input leaves them out.  A call that is
    refused or throws writes nothing. *)
Theorem role_create_outcomes (db : Database) (data : CreateRoleInput) (newId : string) :
  let out := roleService.create db data newId in
  let created :=
    exists role db',
      out = (Returned (success role (Some "Role created successfully")), db')
      /\ roleService.getByCode db' (cri_code data) = success role None
      /\ role_id role = newId /\ role_isActive role = true
      /\ role_parentRoleId role = cri_parentRoleId data
      /\ (cri_level data = None -> role_level role = 0)
      /\ (forall level, cri_level data = Some level -> role_level role = level)
      /\ (cri_isSystem data = None -> role_isSystem role = false)
      /\ roles db' = roles db ++ [role]
      /\ permissions db' = permissions db
      /\ rolePermissions db' = rolePermissions db
      /\ userRoles db' = userRoles db in
  let stored :=
    if int4 (match cri_level data with Some level => level | None => 0 end)
    then created
    else out = (Rejected, db) in
  (roleRepository.findByCode db (cri_code data) <> None ->
   out = (Returned (error "Role code already exists" "ROLE_CODE_EXISTS"), db))
  /\ (roleRepository.findByCode db (cri_code data) = None ->
      match cri_parentRoleId data with
      | None => stored
      | Some parent =>
          match roleRepository.findById db parent with
          | Some _ => stored
          | None =>
              if (parent =? "")%string
              then out = (Rejected, db)
              else out = (Returned (error "Parent role not found"
                                          "PARENT_ROLE_NOT_FOUND"), db)
          end
      end).
Proof.
  cbn zeta. unfold roleService.create, roleRepository.create.
  destruct (roleRepository.findByCode db (cri_code data)) as [q|] eqn:C.
  - split; [reflexivity|discriminate].
  - split; [congruence|]. intros _.
    assert (Hget : roleService.getByCode
                     (roleRepository.with_roles db
                        (roles db ++ [roleRepository.row data newId]))
                     (cri_code data)
                   = success (roleRepository.row data newId) None).
    { unfold roleService.getByCode, roleRepository.findByCode in *. simpl.
      rewrite find_append, C. simpl. rewrite String.eqb_refl. reflexivity. }
    assert (Hl : cri_level data = None -> role_level (roleRepository.row data newId) = 0).
    { intros E. simpl. rewrite E. reflexivity. }
    assert (Hl' : forall level, cri_level data = Some level ->
                  role_level (roleRepository.row data newId) = level).
    { intros level E. simpl. rewrite E. reflexivity. }
    assert (Hs : cri_isSystem data = None ->
                 role_isSystem (roleRepository.row data newId) = false).
    { intros E. simpl. rewrite E. reflexivity. }
    assert (Hlevel : role_level (roleRepository.row data newId)
                     = match cri_level data with Some level => level | None => 0 end)
      by reflexivity.
    rewrite Hlevel.
    destruct (cri_parentRoleId data) as [parent|] eqn:P.
    + unfold roleRepository.parentAccepted.
      destruct (roleRepository.findById db parent) as [parentRole|] eqn:F.
      * rewrite andb_false_r. cbn [andb].
        destruct (int4 _); [|reflexivity].
        exists (roleRepository.row data newId). eexists.
        split; [reflexivity|]. split; [exact Hget|].
        cbn [role_id role_isActive role_parentRoleId roleRepository.row
             roles permissions rolePermissions userRoles roleRepository.with_roles].
        rewrite P. auto 12.
      * cbn [andb]. simpl. destruct (parent =? "")%string; reflexivity.
    + simpl negb. cbn [andb roleRepository.parentAccepted]. cbv iota.
      destruct (int4 _); [|reflexivity].
      exists (roleRepository.row data newId). eexists.
      split; [reflexivity|]. split; [exact Hget|].
      cbn [role_id role_isActive role_parentRoleId roleRepository.row
           roles permissions rolePermissions userRoles roleRepository.with_roles].
      rewrite P. auto 12.
Qed.

Lemma role_create_outcomes_witness :
  roleService.create Office.db
    {| cri_code := "clerk"; cri_name := "Clerk"; cri_description := None;
       cri_level := None; cri_parentRoleId := Some ""; cri_isSystem := None |} "r5"
  = (Rejected, Office.db).
Proof.
  exact (proj2 (role_create_outcomes Office.db
                  {| cri_code := "clerk"; cri_name := "Clerk";
                     cri_description := None; cri_level := None;
                     cri_parentRoleId := Some ""; cri_isSystem := None |} "r5")
               eq_refl).
Defined.





(** ** Assigning and revoking roles *)

Lemma assign_row (db : Database) (data : AssignRoleInput) (now : Z) (newId : string)
    (r' : UserRoleEntity) (db' : Database) :
  userRoleRepository.assign db data now newId = Some (r', db') ->
  In r' (userRoles db')
  /\ assignmentKey r' = (asg_userId data, asg_roleId data, asg_departmentId data)
  /\ ur_isActive r' = true
  /\ (forall e, asg_expiresAt data = Some e -> ur_expiresAt r' = Some e)
  /\ (find (userRoleRepository.sameAssignment
              (asg_userId data) (asg_roleId data) (asg_departmentId data))
           (userRoles db) = None ->
      ur_expiresAt r' = asg_expiresAt data)
  /\ roles db' = roles db /\ permissions db' = permissions db
  /\ rolePermissions db' = rolePermissions db.
Proof.
  unfold userRoleRepository.assign.
  destruct (find _ (userRoles db)) as [existing|] eqn:F.
  - intros E. injection E as <- <-. simpl.
    apply find_some in F. destruct F as [Hin Hk]. apply sameAssignment_key in Hk.
    split; [|split; [exact Hk|split; [reflexivity|split; [|split; [discriminate|auto]]]]].
    + apply in_map_iff. exists existing. rewrite String.eqb_refl. auto.
    + intros e ->. reflexivity.
  - destruct (userRoleRepository.referencesKept db data); [|discriminate].
    intros E. injection E as <- <-. simpl.
    split; [apply in_or_app; simpl; auto|]. auto 10.
Qed.

Lemma existsb_eqb_In (id : string) (ids : list string) :
  existsb (String.eqb id) ids = true <-> In id ids.
Proof.
  rewrite existsb_exists. split.
  - intros (x & Hin & E). apply String.eqb_eq in E. subst x. exact Hin.
  - intros Hin. exists id. split; [exact Hin|apply String.eqb_refl].
Qed.

(** For a role that exists, the store accepts a new assignment exactly
    when the user exists and the department, if one is given, exists. *)
Lemma referencesKept_iff (db : Database) (data : AssignRoleInput) :
  roleRepository.findById db (asg_roleId data) <> None ->
  userRoleRepository.referencesKept db data = true
  <-> In (asg_userId data) (users db)
      /\ forall departmentId,
           asg_departmentId data = Some departmentId ->
           In departmentId (departments db).
Proof.
  intros Hrole. unfold userRoleRepository.referencesKept, role_of.
  unfold roleRepository.findById in Hrole.
  destruct (find _ (roles db)); [|congruence].
  rewrite andb_true_r, andb_true_iff, existsb_eqb_In.
  destruct (asg_departmentId data) as [d|].
  - rewrite existsb_eqb_In. split.
    + intros [H1 H2]. split; [exact H1|]. intros d' E. injection E as <-. exact H2.
    + intros [H1 H2]. split; [exact H1|]. apply H2. reflexivity.
  - split; [intros [H1 _]; split; [exact H1|discriminate]|intros [H1 _]; auto].
Qed.

(** X22.  [assignRole] refuses a role that is missing or inactive and
    writes nothing.  For an active role and a triple that has no row
    yet, the store refuses the new row when the user does not exist, or
    the department that is given does not: the call throws and nothing
    is written.  When the triple has a row, or the user and the
    department exist, the call succeeds, touching only the assignments;
    and when the input gives an expiry in the future, or gives none for
    a triple that has no row yet, the assignment is in force at once:
    [hasRole] answers true for the code of the role, the role is among
    those [getUserRoles] returns, and the user gathers every active
    permission granted to the role, with the department of the
    assignment as target and with none. *)
Theorem assignRole_takes_effect (db : Database) (data : AssignRoleInput)
    (now : Z) (newId : string) :
  (roleRepository.findById db (asg_roleId data) = None ->
   authorizationService.assignRole db data now newId
   = (Returned (error "Role not found" "ROLE_NOT_FOUND"), db))
  /\ (forall role,
        roleRepository.findById db (asg_roleId data) = Some role ->
        role_isActive role = false ->
        authorizationService.assignRole db data now newId
        = (Returned (error "Cannot assign inactive role" "INACTIVE_ROLE"), db))
  /\ (forall role,
        roleRepository.findById db (asg_roleId data) = Some role ->
        role_isActive role = true ->
        find (userRoleRepository.sameAssignment
                (asg_userId data) (asg_roleId data) (asg_departmentId data))
             (userRoles db) = None ->
        ~ In (asg_userId data) (users db)
        \/ (exists departmentId,
               asg_departmentId data = Some departmentId
               /\ ~ In departmentId (departments db)) ->
        authorizationService.assignRole db data now newId = (Rejected, db))
  /\ (forall role,
        roleRepository.findById db (asg_roleId data) = Some role ->
        role_isActive role = true ->
        find (userRoleRepository.sameAssignment
                (asg_userId data) (asg_roleId data) (asg_departmentId data))
             (userRoles db) <> None
        \/ (In (asg_userId data) (users db)
            /\ forall departmentId,
                 asg_departmentId data = Some departmentId ->
                 In departmentId (departments db)) ->
        exists db',
          authorizationService.assignRole db data now newId
          = (Returned (success tt (Some "Role assigned successfully")), db')
          /\ roles db' = roles db /\ permissions db' = permissions db
          /\ rolePermissions db' = rolePermissions db
          /\ ((exists e, asg_expiresAt data = Some e /\ now < e)
              \/ (asg_expiresAt data = None
                  /\ find (userRoleRepository.sameAssignment
                             (asg_userId data) (asg_roleId data)
                             (asg_departmentId data))
                          (userRoles db) = None) ->
              authorizationService.hasRole db' (asg_userId data) (role_code role)
                None now = true
              /\ (exists d,
                    In d (userRoleRepository.getUserRoles db' (asg_userId data) now)
                    /\ rwp_role (urd_role d) = role
                    /\ assignmentKey (urd_userRole d)
                       = (asg_userId data, asg_roleId data, asg_departmentId data))
              /\ forall p,
                   grantedActive db (asg_roleId data) p ->
                   In p (userRoleRepository.getAllUserPermissions db'
                           (asg_userId data) (asg_departmentId data) now)
                   /\ In p (userRoleRepository.getAllUserPermissions db'
                              (asg_userId data) None now))).
Proof.
  unfold authorizationService.assignRole. split; [|split; [|split]].
  - intros ->. reflexivity.
  - intros role -> ->. reflexivity.
  - intros role F A Hnone Hbad.
    assert (Hrole : roleRepository.findById db (asg_roleId data) <> None)
      by congruence.
    rewrite F, A. simpl.
    assert (E : userRoleRepository.assign db data now newId = None).
    { apply assign_refused. split; [exact Hnone|].
      destruct (userRoleRepository.referencesKept db data) eqn:R; [|reflexivity].
      apply (referencesKept_iff db data Hrole) in R. destruct R as [Hu Hd].
      destruct Hbad as [Hbad|(d & Ed & Hbad)]; [tauto|].
      exfalso. apply Hbad. apply Hd. exact Ed. }
    rewrite E. reflexivity.
  - intros role F A Hok.
    assert (Hrole : roleRepository.findById db (asg_roleId data) <> None)
      by congruence.
    rewrite F, A. simpl.
    destruct (userRoleRepository.assign db data now newId) as [[r' db']|] eqn:E.
    2:{ exfalso. apply assign_refused in E. destruct E as [Hnone R].
        destruct Hok as [Hrow|Hrefs]; [tauto|].
        apply (referencesKept_iff db data Hrole) in Hrefs. congruence. }
    destruct (assign_row db data now newId r' db' E)
      as (Hin & Hk & Hact & He & Hn & Hr & Hp & Hg).
    exists db'. split; [reflexivity|]. split; [exact Hr|]. split; [exact Hp|].
    split; [exact Hg|]. intros Hexp.
    injection Hk as Hku Hkr Hkd.
    assert (Hx : ur_expiresAt r' = None \/ exists e, ur_expiresAt r' = Some e /\ now < e).
    { destruct Hexp as [(e & Ee & Hlt)|(Ee & Hnone)].
      - right. exists e. split; [apply He; exact Ee|exact Hlt].
      - left. rewrite (Hn Hnone). exact Ee. }
    assert (Hro : role_of db' (ur_roleId r') = Some role).
    { unfold role_of. rewrite Hr, Hkr. exact F. }
    assert (Hga : forall p, grantedActive db (asg_roleId data) p ->
                            grantedActive db' (ur_roleId r') p).
    { intros p (rp & H1 & H2 & H3 & H4). exists rp. rewrite Hg, Hkr.
      unfold permission_of in *. rewrite Hp. auto. }
    split; [|split].
    + unfold authorizationService.hasRole. apply hasRole_no_department.
      exists r', role. auto 10.
    + exists {| urd_userRole := r';
                urd_role :=
                  {| rwp_role := role;
                     rwp_permissions :=
                       map snd (include_rolePermissions db' (role_id role)) |} |}.
      split; [|split; [reflexivity|]];
        [|simpl; unfold assignmentKey; rewrite Hku, Hkr, Hkd; reflexivity].
      apply getUserRoles_In. simpl.
      split; [exact Hin|]. split; [exact Hku|]. split; [exact Hact|].
      split; [apply expiry_alternatives; exact Hx|].
      split; [|exact A].
      unfold userRoleRepository.include_role. rewrite Hro. reflexivity.
    + intros p Hgp. specialize (Hga p Hgp).
      assert (Hria : role_isActive_of db' r' = true).
      { unfold role_isActive_of. rewrite Hro. exact A. }
      split; apply gathered_iff; exists r';
        (split; [exact Hin|]); (split; [exact Hku|]);
        (split; [split; assumption|]); (split; [exact Hria|]);
        (split; [|exact Hga]).
      * destruct (asg_departmentId data) as [d|]; [right; right|right; left];
          exact Hkd.
      * left. reflexivity.
Qed.

Lemma assignRole_takes_effect_witness :
  (exists db',
      authorizationService.assignRole Demo.db
        {| asg_userId := "u3"; asg_roleId := "r2"; asg_departmentId := Some "d2";
           asg_assignedById := Some "u1"; asg_expiresAt := Some 200 |} 100 "a9"
      = (Returned (success tt (Some "Role assigned successfully")), db')
      /\ authorizationService.hasRole db' "u3" "manager" None 100 = true)
  /\ authorizationService.assignRole Demo.db
       {| asg_userId := "u7"; asg_roleId := "r2"; asg_departmentId := None;
          asg_assignedById := Some "u1"; asg_expiresAt := None |} 100 "a9"
     = (Rejected, Demo.db).
Proof.
  split.
  - destruct (assignRole_takes_effect Demo.db
                {| asg_userId := "u3"; asg_roleId := "r2";
                   asg_departmentId := Some "d2";
                   asg_assignedById := Some "u1"; asg_expiresAt := Some 200 |}
                100 "a9")
      as (_ & _ & _ & H).
    destruct (H Demo.manager eq_refl eq_refl) as (db' & H1 & _ & _ & _ & H2).
    + right. split; [simpl; auto|].
      intros d E. injection E as <-. simpl. auto.
    + exists db'. split; [exact H1|]. apply H2. left. exists 200.
      split; [reflexivity|lia].
  - destruct (assignRole_takes_effect Demo.db
                {| asg_userId := "u7"; asg_roleId := "r2"; asg_departmentId := None;
                   asg_assignedById := Some "u1"; asg_expiresAt := None |}
                100 "a9")
      as (_ & _ & H & _).
    apply (H Demo.manager); [reflexivity|reflexivity|reflexivity|].
    left. simpl. intuition discriminate.
Defined.

Lemma filter_map_frame {A : Type} (P P' : A -> bool) (f : A -> A) (l : list A) :
  (forall a, In a l -> P' (f a) = P a /\ (P a = true -> f a = a)) ->
  filter P' (map f l) = filter P l.
Proof.
  induction l as [|a l IH]; intros H; simpl; [reflexivity|].
  destruct (H a) as [E Hf]; [simpl; auto|]. rewrite E.
  rewrite IH; [|intros b Hb; apply H; simpl; auto].
  destruct (P a); [rewrite Hf; reflexivity|reflexivity].
Qed.

Lemma revoke_other_user (userId roleId : string) (departmentId : option string)
    (userId' : string) (r : UserRoleEntity) :
  userId' <> userId ->
  let r' := if userRoleRepository.sameAssignment userId roleId departmentId r
            then userRoleRepository.deactivated r else r in
  (ur_userId r' =? userId')%string = (ur_userId r =? userId')%string
  /\ ((ur_userId r =? userId')%string = true -> r' = r).
Proof.
  intros Hne. cbn zeta.
  destruct (userRoleRepository.sameAssignment userId roleId departmentId r) eqn:S;
    [|auto].
  split; [reflexivity|]. intros E. apply String.eqb_eq in E.
  apply sameAssignment_key in S. injection S as S _ _. congruence.
Qed.

Lemma revoke_rows (db : Database) (userId roleId : string)
    (departmentId : option string) (r' : UserRoleEntity) :
  In r' (userRoles (userRoleRepository.revoke db userId roleId departmentId)) <->
  (In r' (userRoles db) /\ assignmentKey r' <> (userId, roleId, departmentId))
  \/ exists r, In r (userRoles db)
               /\ assignmentKey r = (userId, roleId, departmentId)
               /\ r' = userRoleRepository.deactivated r.
Proof.
  unfold userRoleRepository.revoke. simpl. rewrite in_map_iff. split.
  - intros (r & Hr & Hin).
    destruct (userRoleRepository.sameAssignment userId roleId departmentId r) eqn:S.
    + right. exists r. apply sameAssignment_key in S. auto.
    + left. subst r'. split; [exact Hin|]. intros Hk.
      apply sameAssignment_key in Hk. congruence.
  - intros [[Hin Hk]|(r & Hin & Hk & ->)].
    + exists r'. split; [|exact Hin].
      destruct (userRoleRepository.sameAssignment userId roleId departmentId r') eqn:S;
        [|reflexivity].
      apply sameAssignment_key in S. contradiction.
    + exists r. split; [|exact Hin].
      apply sameAssignment_key in Hk. rewrite Hk. reflexivity.
Qed.

(** X23.  Revoking concerns one user and one triple.  [revokeRole]
    always succeeds; it adds and removes no row (the table holds the
    same ids), leaves every row of another triple as it is and every
    row of the triple inactive.
    Afterwards [getUserRoles] returns for the user exactly the
    assignments it returned before that are not of the triple, and the
    user gathers exactly the permissions that reach them through an
    assignment of another triple; in particular no assignment of the
    triple is returned and nothing new is gathered.  For every other
    user [getUserRoles], [hasRole] and the gathered permissions are what
    they were; the catalog, the roles and the grants are untouched; and
    revoking again changes nothing. *)
Theorem revokeRole_frame (db : Database) (userId roleId : string)
    (departmentId : option string) :
  let db' := snd (authorizationService.revokeRole db userId roleId departmentId) in
  snd (authorizationService.revokeRole db' userId roleId departmentId) = db'
  /\ (forall now d,
        In d (userRoleRepository.getUserRoles db' userId now) ->
        assignmentKey (urd_userRole d) <> (userId, roleId, departmentId))
  /\ (forall target now p,
        In p (userRoleRepository.getAllUserPermissions db' userId target now) ->
        In p (userRoleRepository.getAllUserPermissions db userId target now))
  /\ (forall userId', userId' <> userId ->
        (forall now,
            userRoleRepository.getUserRoles db' userId' now
            = userRoleRepository.getUserRoles db userId' now)
        /\ (forall target now,
              userRoleRepository.getAllUserPermissions db' userId' target now
              = userRoleRepository.getAllUserPermissions db userId' target now)
        /\ (forall roleCode target now,
              authorizationService.hasRole db' userId' roleCode target now
              = authorizationService.hasRole db userId' roleCode target now))
  /\ permissions db' = permissions db /\ roles db' = roles db
  /\ rolePermissions db' = rolePermissions db
  /\ fst (authorizationService.revokeRole db userId roleId departmentId)
     = success tt (Some "Role revoked successfully")
  /\ Permutation (map ur_id (userRoles db')) (map ur_id (userRoles db))
  /\ (forall r, In r (userRoles db) ->
                assignmentKey r <> (userId, roleId, departmentId) ->
                In r (userRoles db'))
  /\ (forall r', In r' (userRoles db') ->
        (In r' (userRoles db)
         /\ assignmentKey r' <> (userId, roleId, departmentId))
        \/ (ur_isActive r' = false
            /\ assignmentKey r' = (userId, roleId, departmentId)
            /\ exists r, In r (userRoles db)
                         /\ r' = userRoleRepository.deactivated r))
  /\ (forall now d,
        In d (userRoleRepository.getUserRoles db' userId now)
        <-> In d (userRoleRepository.getUserRoles db userId now)
            /\ assignmentKey (urd_userRole d) <> (userId, roleId, departmentId))
  /\ (forall target now p,
        In p (userRoleRepository.getAllUserPermissions db' userId target now)
        <-> exists r,
              In r (userRoles db)
              /\ assignmentKey r <> (userId, roleId, departmentId)
              /\ ur_userId r = userId /\ effective now r
              /\ role_isActive_of db r = true
              /\ (truthy target = false
                  \/ ur_departmentId r = None \/ ur_departmentId r = target)
              /\ grantedActive db (ur_roleId r) p).
Proof.
  cbn zeta. unfold authorizationService.revokeRole. simpl.
  split; [|split; [|split; [|split; [|split; [reflexivity|split;
    [reflexivity|split; [reflexivity|split; [reflexivity|]]]]]]]].
  - unfold userRoleRepository.revoke, with_userRoles. simpl. f_equal.
    rewrite map_map. apply map_ext. intros r.
    destruct (userRoleRepository.sameAssignment userId roleId departmentId r) eqn:S.
    + assert (S' : userRoleRepository.sameAssignment userId roleId departmentId
                     (userRoleRepository.deactivated r) = true) by exact S.
      rewrite S'. reflexivity.
    + rewrite S. reflexivity.
  - intros now d Hd Hk. apply getUserRoles_In in Hd.
    destruct Hd as (Hin & _ & Hact & _). simpl in Hin.
    apply in_map_iff in Hin. destruct Hin as (r & Hr & _).
    destruct (userRoleRepository.sameAssignment userId roleId departmentId r) eqn:S.
    + rewrite <- Hr in Hact. discriminate.
    + rewrite <- Hr in Hk. apply sameAssignment_key in Hk. congruence.
  - intros target now p Hp. apply gathered_iff in Hp. apply gathered_iff.
    destruct Hp as (r' & Hin & Hu & He & Hr & Hd & Hg). simpl in Hin.
    apply in_map_iff in Hin. destruct Hin as (r & Hrr & Hin).
    destruct (userRoleRepository.sameAssignment userId roleId departmentId r) eqn:S.
    + destruct He as [He _]. rewrite <- Hrr in He. discriminate.
    + subst r'. exists r. auto 10.
  - intros userId' Hne. split; [|split].
    + intros now. unfold userRoleRepository.getUserRoles. simpl.
      rewrite (filter_map_frame
                 (fun r => (ur_userId r =? userId')%string && ur_isActive r
                           && OR [expiresAt_null; expiresAt_gt now] r));
        [reflexivity|].
      intros r _.
      destruct (revoke_other_user userId roleId departmentId userId' r Hne) as [E Hf].
      cbn zeta in E, Hf. split.
      * rewrite E. destruct (ur_userId r =? userId')%string eqn:U; [|reflexivity].
        rewrite (Hf eq_refl). reflexivity.
      * intros H. apply Hf.
        destruct (ur_userId r =? userId')%string; [reflexivity|discriminate].
    + intros target now. unfold userRoleRepository.getAllUserPermissions. simpl.
      rewrite (filter_map_frame
                 (userRoleRepository.whereUserRole db userId' target now));
        [reflexivity|].
      intros r _.
      destruct (revoke_other_user userId roleId departmentId userId' r Hne) as [E Hf].
      cbn zeta in E, Hf. unfold userRoleRepository.whereUserRole. split.
      * rewrite E. destruct (ur_userId r =? userId')%string eqn:U; [|reflexivity].
        rewrite (Hf eq_refl). reflexivity.
      * intros H. apply Hf.
        destruct (ur_userId r =? userId')%string; [reflexivity|discriminate].
    + intros roleCode target now.
      unfold authorizationService.hasRole, userRoleRepository.hasRole. simpl.
      rewrite (filter_map_frame
                 (fun r =>
                    (ur_userId r =? userId')%string
                    && match role_of db (ur_roleId r) with
                       | Some ro => (role_code ro =? roleCode)%string && role_isActive ro
                       | None => false
                       end
                    && ur_isActive r
                    && OR (userRoleRepository.hasRole_OR target now) r));
        [reflexivity|].
      intros r _.
      destruct (revoke_other_user userId roleId departmentId userId' r Hne) as [E Hf].
      cbn zeta in E, Hf. split.
      * rewrite E. destruct (ur_userId r =? userId')%string eqn:U; [|reflexivity].
        rewrite (Hf eq_refl). reflexivity.
      * intros H. apply Hf.
        destruct (ur_userId r =? userId')%string; [reflexivity|discriminate].
  - split; [|split; [|split; [|split]]].
    + unfold userRoleRepository.revoke. simpl. rewrite map_map.
      rewrite (map_ext _ ur_id); [apply Permutation_refl|].
      intros r.
      destruct (userRoleRepository.sameAssignment userId roleId departmentId r);
        reflexivity.
    + intros r Hin Hk. apply revoke_rows. left. auto.
    + intros r' Hin. apply revoke_rows in Hin.
      destruct Hin as [H|(r & Hin & Hk & ->)]; [left; exact H|].
      right. split; [reflexivity|]. split; [exact Hk|]. exists r. auto.
    + intros now d. rewrite !getUserRoles_In.
      change (userRoleRepository.include_role
                (userRoleRepository.revoke db userId roleId departmentId)
                (urd_userRole d))
        with (userRoleRepository.include_role db (urd_userRole d)).
      rewrite revoke_rows. split.
      * intros (Hin & Hu & Hact & Hrest).
        destruct Hin as [[Hin Hk]|(r & _ & _ & Hr)].
        -- split; [|exact Hk]. auto.
        -- rewrite Hr in Hact. discriminate.
      * intros ((Hin & Hrest) & Hk). split; [left; auto|exact Hrest].
    + intros target now p. rewrite gathered_iff. split.
      * intros (r' & Hin & Hu & He & Hr & Hd & Hg). apply revoke_rows in Hin.
        destruct Hin as [[Hin Hk]|(r & _ & _ & ->)].
        -- exists r'. auto 10.
        -- destruct He as [He _]. discriminate.
      * intros (r & Hin & Hk & Hrest). exists r. split; [|exact Hrest].
        apply revoke_rows. left. auto.
Qed.

Lemma revokeRole_frame_witness :
  let db' := snd (authorizationService.revokeRole Demo.db "u1" "r2" (Some "d1")) in
  In Demo.user_read (userRoleRepository.getAllUserPermissions db' "u1" None 100)
  /\ ~ In Demo.claim_approve
         (userRoleRepository.getAllUserPermissions db' "u1" None 100)
  /\ In Demo.u1_employee (userRoles db').
Proof.
  cbn zeta.
  destruct (revokeRole_frame Demo.db "u1" "r2" (Some "d1"))
    as (_ & _ & _ & _ & _ & _ & _ & _ & _ & Hkept & _ & _ & Hgather).
  split; [|split].
  - apply Hgather. exists Demo.u1_employee.
    split; [simpl; auto|]. split; [discriminate|]. split; [reflexivity|].
    split; [split; [reflexivity|left; reflexivity]|]. split; [reflexivity|].
    split; [left; reflexivity|].
    exists (Demo.grant "g1" "r1" "p1"). split; [simpl; auto|].
    split; [reflexivity|]. split; reflexivity.
  - intros Hin. apply Hgather in Hin.
    destruct Hin as (r & Hin & Hk & Hu & _ & _ & _ & (rp & Hrp & Hrole & Hperm & _)).
    simpl in Hin, Hrp.
    by_cases_on Hin; subst r; try discriminate;
      try (exfalso; apply Hk; reflexivity);
      by_cases_on Hrp; subst rp; vm_compute in Hrole, Hperm; discriminate.
  - apply Hkept; [simpl; auto|discriminate].
Defined.

Lemma role_findByCode_unique (db : Database) (r : RoleEntity) :
  uniqueRoleCodes db -> In r (roles db) ->
  roleRepository.findByCode db (role_code r) = Some r.
Proof.
  unfold uniqueRoleCodes, roleRepository.findByCode.
  induction (roles db) as [|q l IH]; intros Hnd Hin; [contradiction|].
  simpl in Hnd. apply NoDup_cons_iff in Hnd. destruct Hnd as [Hq Hnd].
  simpl. destruct (role_code q =? role_code r)%string eqn:E.
  - apply String.eqb_eq in E. destruct Hin as [->|Hin]; [reflexivity|].
    exfalso. apply Hq. rewrite E. apply in_map. exact Hin.
  - destruct Hin as [->|Hin]; [rewrite String.eqb_refl in E; discriminate|].
    apply IH; assumption.
Qed.

Lemma lastSuperAdmin_spec (db : Database) (userId roleId : string) (now : Z)
    (role : RoleEntity) :
  uniqueRoleCodes db ->
  roleRepository.findById db roleId = Some role -> role_code role = "super-admin" ->
  permissionActions.lastSuperAdmin db userId roleId now = true <->
  forall ur, In ur (userRoleRepository.getUsersByRole db roleId None now) ->
             ur_userId ur = userId.
Proof.
  intros Hu F Hc. unfold permissionActions.lastSuperAdmin, roleService.getById,
    roleService.getByCode.
  rewrite F, Hc. simpl (("super-admin" =? "super-admin")%string).
  apply role_findById_Some in F. destruct F as [Hin Hid].
  rewrite <- Hc, (role_findByCode_unique db role Hu Hin), Hid.
  rewrite Nat.eqb_eq, length_zero_iff_nil. split.
  - intros H ur Hur.
    destruct (ur_userId ur =? userId)%string eqn:E; [apply String.eqb_eq; exact E|].
    exfalso. assert (Hf : In ur []); [|exact Hf].
    rewrite <- H. apply filter_In. split; [exact Hur|].
    rewrite E. unfold userRoleRepository.getUsersByRole in Hur.
    apply filter_In in Hur. destruct Hur as [_ Hb].
    rewrite !andb_true_iff in Hb. destruct Hb as [[[_ Ha] _] _].
    rewrite Ha. reflexivity.
  - intros H. apply filter_nothing. intros ur Hur.
    rewrite (H ur Hur), String.eqb_refl. apply andb_false_r.
Qed.

(** X24.  The guard on the last super-admin.  In a store with unique
    role codes, whenever [revokeRoleFromUser] succeeds on the role with
    the code [super-admin], another user still holds that role through
    an active, unexpired assignment afterwards; and a signed-in caller
    allowed to manage users who revokes it from the only such holder is
    refused with VALIDATION_ERROR, the store untouched. *)
Theorem last_super_admin_kept (db : Database) (session : option string)
    (userId roleId : string) (departmentId : option string) (now : Z)
    (role : RoleEntity) :
  uniqueRoleCodes db ->
  roleRepository.findById db roleId = Some role -> role_code role = "super-admin" ->
  (forall message db',
      permissionActions.revokeRoleFromUser db session userId roleId departmentId now
      = (success tt message, db') ->
      exists ur,
        In ur (userRoleRepository.getUsersByRole db' roleId None now)
        /\ ur_userId ur <> userId)
  /\ (forall dbUserId,
        permissionActions.signedIn session = Some dbUserId ->
        authPermissions.can db dbUserId Resource.USER Action.MANAGE None None now = true ->
        (forall ur, In ur (userRoleRepository.getUsersByRole db roleId None now) ->
                    ur_userId ur = userId) ->
        permissionActions.revokeRoleFromUser db session userId roleId departmentId now
        = (error "Cannot remove the last super-admin from the system"
                 "VALIDATION_ERROR", db)).
Proof.
  intros Hu F Hc.
  pose proof (lastSuperAdmin_spec db userId roleId now role Hu F Hc) as Hlast.
  unfold permissionActions.revokeRoleFromUser. split.
  - intros message db'.
    destruct (permissionActions.signedIn session) as [dbUserId|]; [|discriminate].
    destruct (authPermissions.can db dbUserId _ _ _ _ now); [|discriminate].
    simpl negb. cbv iota.
    destruct (permissionActions.lastSuperAdmin db userId roleId now) eqn:L;
      [discriminate|].
    unfold authorizationService.revokeRole. intros H. injection H as _ <-.
    assert (Hex : exists ur,
               In ur (userRoleRepository.getUsersByRole db roleId None now)
               /\ ur_userId ur <> userId).
    { destruct (forallb (fun ur => (ur_userId ur =? userId)%string)
                  (userRoleRepository.getUsersByRole db roleId None now)) eqn:A.
      - exfalso. rewrite forallb_forall in A.
        assert (L' : false = true).
        { apply Hlast. intros ur Hur. apply String.eqb_eq. apply A. exact Hur. }
        discriminate.
      - apply forallb_false_exists in A. destruct A as (ur & Hur & E).
        exists ur. split; [exact Hur|]. apply String.eqb_neq. exact E. }
    destruct Hex as (ur & Hur & Hne). exists ur. split; [|exact Hne].
    unfold userRoleRepository.getUsersByRole in *. apply filter_In in Hur.
    destruct Hur as [Hin Hb]. apply filter_In. split; [|exact Hb].
    simpl. apply in_map_iff. exists ur. split; [|exact Hin].
    destruct (userRoleRepository.sameAssignment userId roleId departmentId ur) eqn:S;
      [|reflexivity].
    apply sameAssignment_key in S. injection S as S _ _. contradiction.
  - intros dbUserId -> ->. intros Hall. simpl negb. cbv iota.
    rewrite (proj2 Hlast Hall). reflexivity.
Qed.

Lemma last_super_admin_kept_witness :
  exists db' ur,
    permissionActions.revokeRoleFromUser Office.db (Some "u9") "u8" "r0" None 10
    = (success tt (Some "Role revoked successfully"), db')
    /\ In ur (userRoleRepository.getUsersByRole db' "r0" None 10)
    /\ ur_userId ur <> "u8".
Proof.
  assert (H : permissionActions.revokeRoleFromUser Office.db (Some "u9") "u8" "r0" None 10
              = (success tt (Some "Role revoked successfully"),
                 userRoleRepository.revoke Office.db "u8" "r0" None))
    by reflexivity.
  destruct (proj1 (last_super_admin_kept Office.db (Some "u9") "u8" "r0" None 10
                     Office.super_admin (proj1 (proj2 office_rolesSound))
                     eq_refl eq_refl) _ _ H) as (ur & H1 & H2).
  exists (userRoleRepository.revoke Office.db "u8" "r0" None), ur. auto.
Defined.

(** ** The gates of the server actions *)

Lemma signedIn_Some (session : option string) (dbUserId : string) :
  permissionActions.signedIn session = Some dbUserId <->
  session = Some dbUserId /\ dbUserId <> "".
Proof.
  unfold permissionActions.signedIn. destruct session as [u|].
  - destruct (truthy (Some u)) eqn:T.
    + apply truthy_Some in T. split.
      * intros H. injection H as <-. auto.
      * intros [H _]. exact H.
    + split; [discriminate|]. intros [H Hne]. injection H as ->.
      apply truthy_Some in Hne. congruence.
  - split; [discriminate|]. intros [H _]. discriminate.
Qed.

(** X25.  No action writes for a caller it has not let through.
    Whenever one of the role actions changes the store, the caller is
    signed in (with a non-empty id) and [can] allows them the action's
    permission at that moment: managing users for [assignRoleToUser] and
    [revokeRoleFromUser], creating, updating and deleting roles for
    [createRole], [updateRole] and [deleteRole], managing roles for
    [setRolePermissions]. *)
Theorem actions_gated (db : Database) (session : option string) (now : Z) :
  let allowed resource action :=
    exists dbUserId,
      session = Some dbUserId /\ dbUserId <> ""
      /\ authPermissions.can db dbUserId resource action None None now = true in
  (forall userId roleId departmentId expiresAt newId,
      snd (permissionActions.assignRoleToUser db session userId roleId departmentId
             expiresAt now newId) <> db ->
      allowed Resource.USER Action.MANAGE)
  /\ (forall userId roleId departmentId,
        snd (permissionActions.revokeRoleFromUser db session userId roleId
               departmentId now) <> db ->
        allowed Resource.USER Action.MANAGE)
  /\ (forall code name description level newId,
        snd (permissionActions.createRole db session code name description level
               now newId) <> db ->
        allowed Resource.ROLE Action.CREATE)
  /\ (forall id name description level isActive,
        snd (permissionActions.updateRole db session id name description level
               isActive now) <> db ->
        allowed Resource.ROLE Action.UPDATE)
  /\ (forall id,
        snd (permissionActions.deleteRole db session id now) <> db ->
        allowed Resource.ROLE Action.DELETE)
  /\ (forall roleId permissionIds newId,
        snd (permissionActions.setRolePermissions db session roleId permissionIds
               now newId) <> db ->
        allowed Resource.ROLE Action.MANAGE).
Proof.
  cbn zeta.
  unfold permissionActions.assignRoleToUser, permissionActions.revokeRoleFromUser,
    permissionActions.createRole, permissionActions.updateRole,
    permissionActions.deleteRole, permissionActions.setRolePermissions.
  destruct (permissionActions.signedIn session) as [dbUserId|] eqn:S.
  - apply signedIn_Some in S. destruct S as [-> Hne].
    repeat split; intros;
      match goal with
      | H : snd (if negb ?c then _ else _) <> _ |- _ =>
          destruct c eqn:C; [|exfalso; apply H; reflexivity]
      end;
      exists dbUserId; auto.
  - repeat split; intros;
      match goal with H : snd _ <> _ |- _ => exfalso; apply H; reflexivity end.
Qed.

Lemma actions_gated_witness :
  exists dbUserId,
    Some "u9" = Some dbUserId /\ dbUserId <> ""
    /\ authPermissions.can Office.db dbUserId Resource.ROLE Action.DELETE None None 10
       = true.
Proof.
  apply (proj1 (proj2 (proj2 (proj2 (proj2 (actions_gated Office.db (Some "u9") 10)))))
           "r3").
  vm_compute. intros H. discriminate.
Defined.






Lemma code_not_upper (resource resource' : Resource.t) (action action' : Action.t) :
  authPermissions.permissionCode resource action
  <> (Resource.name resource' ++ ":" ++ Action.name action')%string.
Proof.
  intros E. apply (f_equal (String.get 0)) in E.
  destruct resource, resource'; vm_compute in E; discriminate E.
Qed.

(** X27.  The batch check of a caller who is not signed in.  The action
    [checkPermissions] answers false for every requested pair, but under
    keys made of the enum names as they are (as in [USER:READ]), not
    under the lower-case codes the signed-in answer uses: looked up by
    the code of a pair, as [permissionCode] gives it, the map of a
    signed-out caller has no entry at all. *)
Theorem signed_out_checks_keys (db : Database) (session : option string)
    (checks : list (Resource.t * Action.t)) (now : Z) :
  permissionActions.signedIn session = None ->
  let results := permissionActions.checkPermissions db session checks now in
  (forall resource action,
      In (resource, action) checks ->
      JsMap.get results (Resource.name resource ++ ":" ++ Action.name action)%string
      = Some false)
  /\ (forall key answer, In (key, answer) results -> answer = false)
  /\ (forall resource action,
        JsMap.get results (authPermissions.permissionCode resource action) = None).
Proof.
  intros S. cbn zeta. unfold permissionActions.checkPermissions. rewrite S.
  pose proof (set_loop_In
                (fun c : Resource.t * Action.t =>
                   (Resource.name (fst c) ++ ":" ++ Action.name (snd c))%string)
                (fun _ => false) (fun _ _ _ => eq_refl) checks []) as Hin.
  split; [|split].
  - intros resource action H.
    exact (set_loop_get
             (fun c : Resource.t * Action.t =>
                (Resource.name (fst c) ++ ":" ++ Action.name (snd c))%string)
             (fun _ => false) (fun _ _ _ => eq_refl) checks [] (resource, action) H).
  - intros key answer H. apply Hin in H.
    destruct H as [[]|(x & _ & _ & ->)]. reflexivity.
  - intros resource action.
    destruct (JsMap.get _ (authPermissions.permissionCode resource action))
      as [b|] eqn:G; [|reflexivity].
    exfalso. apply JsMap_get_In in G. apply Hin in G.
    destruct G as [[]|(x & _ & E & _)].
    exact (code_not_upper resource (fst x) action (snd x) E).
Qed.

Lemma signed_out_checks_keys_witness :
  JsMap.get (permissionActions.checkPermissions Demo.db None
               [(Resource.USER, Action.READ)] 10)
            (authPermissions.permissionCode Resource.USER Action.READ) = None.
Proof.
  apply (signed_out_checks_keys Demo.db None [(Resource.USER, Action.READ)] 10).
  reflexivity.
Defined.

(** ** Grants and what they reach *)

Lemma getPermissions_In (db : Database) (roleId : string) (p : PermissionEntity) :
  In p (roleRepository.getPermissions db roleId) <->
  exists rp, In rp (rolePermissions db) /\ rp_roleId rp = roleId
             /\ permission_of db (rp_permissionId rp) = Some p.
Proof.
  unfold roleRepository.getPermissions. rewrite in_flat_map. split.
  - intros (rp & Hin & H). exists rp. split; [exact Hin|].
    destruct (rp_roleId rp =? roleId)%string eqn:E; [|contradiction].
    apply String.eqb_eq in E. split; [exact E|].
    destruct (permission_of db (rp_permissionId rp)) as [q|]; [|contradiction].
    destruct H as [->|[]]. reflexivity.
  - intros (rp & Hin & Hr & Hp). exists rp. split; [exact Hin|].
    rewrite Hr, String.eqb_refl, Hp. simpl. auto.
Qed.

Lemma grantPermission_row (db db' : Database) (data : GrantPermissionInput)
    (now : Z) (newId : string) :
  roleRepository.grantPermission db data now newId = Some db' ->
  (exists rp, In rp (rolePermissions db')
              /\ grantKey rp = (grant_roleId data, grant_permissionId data))
  /\ (forall rp, In rp (rolePermissions db) -> In rp (rolePermissions db'))
  /\ permissions db' = permissions db /\ roles db' = roles db
  /\ userRoles db' = userRoles db.
Proof.
  unfold roleRepository.grantPermission.
  destruct (find _ (rolePermissions db)) as [rp|] eqn:F.
  - intros H. injection H as <-. apply find_some in F. destruct F as [Hin Hk].
    apply roleId_permissionId_key in Hk. split; [exists rp; auto|auto].
  - destruct (roleRepository.findById db (grant_roleId data)); [|discriminate].
    destruct (permission_of db (grant_permissionId data)); [|discriminate].
    intros H. injection H as <-. simpl.
    split; [|split; [intros rp Hin; apply in_or_app; auto|auto]].
    eexists. split; [apply in_or_app; right; simpl; left; reflexivity|reflexivity].
Qed.

Lemma filter_filter_implied {A : Type} (f g : A -> bool) (l : list A) :
  (forall a, f a = true -> g a = true) ->
  filter f (filter g l) = filter f l.
Proof.
  intros H. induction l as [|a l IH]; simpl; [reflexivity|].
  destruct (g a) eqn:G; simpl; rewrite IH; [reflexivity|].
  destruct (f a) eqn:F; [|reflexivity].
  rewrite (H a F) in G. discriminate.
Qed.

Lemma revokePermission_rows (db : Database) (roleId permissionId : string)
    (rp : RolePermission) :
  In rp (rolePermissions (roleRepository.revokePermission db roleId permissionId)) ->
  In rp (rolePermissions db) /\ grantKey rp <> (roleId, permissionId).
Proof.
  simpl. intros Hin. apply filter_In in Hin. destruct Hin as [Hin Hb].
  split; [exact Hin|]. intros Hk. apply roleId_permissionId_key in Hk.
  rewrite Hk in Hb. discriminate.
Qed.

(** X28.  What a grant reaches.  [roleService.grantPermission] refuses
    a role or a permission the store does not have and writes nothing.
    When it succeeds the permission is among those [getPermissions]
    lists for the role and, if it is active, every user holding the role
    through an effective assignment, the role being active, gathers it
    at once; nothing that was listed is lost.  After [revokePermission],
    [getPermissions] lists no permission with that id for the role,
    lists for the other roles what it listed, and no user gathers
    anything they did not gather before. *)
Theorem grant_reaches_users (db : Database) (data : GrantPermissionInput)
    (now : Z) (newId : string) :
  let roleId := grant_roleId data in
  let permissionId := grant_permissionId data in
  let revoked := roleRepository.revokePermission db roleId permissionId in
  (roleRepository.findById db roleId = None ->
   roleService.grantPermission db data now newId
   = (Returned (error "Role not found" "ROLE_NOT_FOUND"), db))
  /\ (roleRepository.findById db roleId <> None ->
      permissionRepository.findById db permissionId = None ->
      roleService.grantPermission db data now newId
      = (Returned (error "Permission not found" "PERMISSION_NOT_FOUND"), db))
  /\ (forall message db',
        roleService.grantPermission db data now newId
        = (Returned (success tt message), db') ->
        exists p,
          permissionRepository.findById db permissionId = Some p
          /\ In p (roleRepository.getPermissions db' roleId)
          /\ (forall role q, In q (roleRepository.getPermissions db role) ->
                             In q (roleRepository.getPermissions db' role))
          /\ (perm_isActive p = true ->
              forall r time,
                In r (userRoles db) -> ur_roleId r = roleId -> effective time r ->
                role_isActive_of db r = true ->
                In p (userRoleRepository.getAllUserPermissions db' (ur_userId r)
                        None time)))
  /\ (roleRepository.findById db roleId <> None ->
      snd (roleService.revokePermission db roleId permissionId) = revoked)
  /\ (forall q, In q (roleRepository.getPermissions revoked roleId) ->
                perm_id q <> permissionId)
  /\ (forall role, role <> roleId ->
        roleRepository.getPermissions revoked role
        = roleRepository.getPermissions db role)
  /\ (forall userId target time q,
        In q (userRoleRepository.getAllUserPermissions revoked userId target time) ->
        In q (userRoleRepository.getAllUserPermissions db userId target time)).
Proof.
  cbn zeta. unfold roleService.grantPermission.
  split; [intros ->; reflexivity|].
  split; [|split; [|split; [|split; [|split]]]].
  - intros Hr ->. destruct (roleRepository.findById db (grant_roleId data));
      [reflexivity|congruence].
  - intros message db'.
    destruct (roleRepository.findById db (grant_roleId data)) as [role0|];
      [|discriminate].
    destruct (permissionRepository.findById db (grant_permissionId data)) as [p|] eqn:P;
      [|discriminate].
    destruct (roleRepository.grantPermission db data now newId) as [db1|] eqn:G;
      [|discriminate].
    intros H. injection H as _ <-. exists p. split; [reflexivity|].
    destruct (grantPermission_row db db1 data now newId G)
      as ((rp & Hin & Hk) & Hkeep & Hp & Hr & Hu).
    set (db' := db1) in *.
    injection Hk as Hk1 Hk2.
    assert (Hpo : permission_of db' (rp_permissionId rp) = Some p).
    { unfold permission_of. rewrite Hp, Hk2. exact P. }
    split; [|split].
    + apply getPermissions_In. exists rp. auto.
    + intros role q Hq. apply getPermissions_In in Hq. apply getPermissions_In.
      destruct Hq as (rp' & H1 & H2 & H3). exists rp'.
      split; [apply Hkeep; exact H1|]. split; [exact H2|].
      unfold permission_of in *. rewrite Hp. exact H3.
    + intros Ha r time Hr0 Hrole He Hra. apply gathered_iff. exists r.
      split; [rewrite Hu; exact Hr0|]. split; [reflexivity|].
      split; [exact He|].
      split; [unfold role_isActive_of, role_of in *; rewrite Hr; exact Hra|].
      split; [left; reflexivity|].
      exists rp. rewrite Hrole. auto.
  - intros Hr. unfold roleService.revokePermission.
    destruct (roleRepository.findById db (grant_roleId data));
      [reflexivity|congruence].
  - intros q Hq Hid. apply getPermissions_In in Hq.
    destruct Hq as (rp & Hin & Hr & Hp).
    apply revokePermission_rows in Hin. destruct Hin as [_ Hk]. apply Hk.
    apply permission_of_Some in Hp. destruct Hp as [_ Hp].
    unfold grantKey. congruence.
  - intros role Hne. rewrite !getPermissions_by_rows. simpl.
    rewrite filter_filter_implied; [reflexivity|].
    intros rp E. apply String.eqb_eq in E.
    unfold roleRepository.roleId_permissionId.
    apply String.eqb_neq in Hne. rewrite E, Hne. reflexivity.
  - intros userId target time q Hq. apply gathered_iff in Hq. apply gathered_iff.
    destruct Hq as (r & Hin & Hu & He & Hr & Hd & (rp & H1 & H2 & H3 & H4)).
    exists r. split; [exact Hin|]. split; [exact Hu|]. split; [exact He|].
    split; [exact Hr|]. split; [exact Hd|].
    exists rp. apply revokePermission_rows in H1. destruct H1 as [H1 _]. auto.
Qed.

Lemma grant_reaches_users_witness :
  exists db',
    roleService.grantPermission Demo.db
      {| grant_roleId := "r1"; grant_permissionId := "p4";
         grant_grantedById := Some "u1" |} 10 "g9"
    = (Returned (success tt (Some "Permission granted successfully")), db')
    /\ In Demo.claim_approve
          (userRoleRepository.getAllUserPermissions db' "u1" None 10).
Proof.
  eexists. split; [reflexivity|].
  destruct (grant_reaches_users Demo.db
              {| grant_roleId := "r1"; grant_permissionId := "p4";
                 grant_grantedById := Some "u1" |} 10 "g9") as (_ & _ & H & _).
  destruct (H _ _ eq_refl) as (p & Hp & _ & _ & Hg).
  injection Hp as <-.
  apply (Hg eq_refl Demo.u1_employee 10);
    [simpl; auto|reflexivity|split; [reflexivity|left; reflexivity]|reflexivity].
Defined.

Lemma permission_find_map (f : PermissionEntity -> PermissionEntity) (id : string)
    (l : list PermissionEntity) :
  (forall q, perm_id (f q) = perm_id q) ->
  find (fun p => (perm_id p =? id)%string) (map f l)
  = option_map f (find (fun p => (perm_id p =? id)%string) l).
Proof.
  intros Hf. induction l as [|q l IH]; simpl; [reflexivity|].
  rewrite Hf. destruct (perm_id q =? id)%string; [reflexivity|exact IH].
Qed.

(** X29.  Deactivating a permission withdraws it from every user, and
    nothing else.  After [permissionService.deactivate] has succeeded
    (the permission is then a custom one), the permissions any user
    gathers, for any target department and at any time, are those they
    gathered before except the ones with the deactivated id. *)
Theorem permission_deactivate_withdraws (db db' : Database) (id : string)
    (p : PermissionEntity) (message : option string) :
  permissionService.deactivate db id = (Returned (success p message), db') ->
  perm_id p = id /\ perm_isActive p = false /\ perm_isSystem p = false
  /\ permissionService.getById db' id = success p None
  /\ forall userId target now q,
       In q (userRoleRepository.getAllUserPermissions db' userId target now)
       <-> In q (userRoleRepository.getAllUserPermissions db userId target now)
           /\ perm_id q <> id.
Proof.
  unfold permissionService.deactivate.
  destruct (permissionRepository.findById db id) as [existing|] eqn:F; [|discriminate].
  destruct (perm_isSystem existing) eqn:G; [discriminate|].
  unfold permissionRepository.deactivate, permissionRepository.update. rewrite F.
  intros H. injection H as <- _ <-.
  set (data := {| upd_name := None; upd_description := None; upd_scope := None;
                  upd_isActive := Some false |}).
  set (f := fun q => if (perm_id q =? id)%string
                     then permissionRepository.applyUpdate data q else q).
  assert (Hf : forall q, perm_id (f q) = perm_id q).
  { intros q. unfold f. destruct (perm_id q =? id)%string; reflexivity. }
  assert (Hpo : forall i, permission_of (with_permissions db (map f (permissions db))) i
                          = option_map f (permission_of db i)).
  { intros i. unfold permission_of. simpl. apply permission_find_map. exact Hf. }
  pose proof F as F'. unfold permissionRepository.findById in F'.
  apply find_some in F'. destruct F' as [_ Hid]. apply String.eqb_eq in Hid.
  split; [exact Hid|]. split; [reflexivity|]. split; [exact G|]. split.
  { unfold permissionService.getById, permissionRepository.findById. simpl.
    fold f. rewrite (permission_find_map f id _ Hf).
    unfold permissionRepository.findById in F. rewrite F. simpl.
    unfold f. rewrite Hid, String.eqb_refl. reflexivity. }
  intros userId target now q. rewrite !gathered_iff. split.
  - intros (r & Hin & Hu & He & Hr & Hd & (rp & H1 & H2 & H3 & H4)).
    rewrite Hpo in H3.
    destruct (permission_of db (rp_permissionId rp)) as [q0|] eqn:Q; [|discriminate].
    simpl in H3. injection H3 as H3. unfold f in H3.
    destruct (perm_id q0 =? id)%string eqn:E.
    + subst q. simpl in H4. discriminate.
    + subst q0. apply String.eqb_neq in E. split; [|exact E].
      exists r. split; [exact Hin|]. split; [exact Hu|]. split; [exact He|].
      split; [exact Hr|]. split; [exact Hd|]. exists rp. auto.
  - intros [(r & Hin & Hu & He & Hr & Hd & (rp & H1 & H2 & H3 & H4)) Hne].
    exists r. split; [exact Hin|]. split; [exact Hu|]. split; [exact He|].
    split; [exact Hr|]. split; [exact Hd|].
    exists rp. split; [exact H1|]. split; [exact H2|]. split; [|exact H4].
    rewrite Hpo, H3. simpl. unfold f.
    apply String.eqb_neq in Hne. rewrite Hne. reflexivity.
Qed.

Lemma permission_deactivate_withdraws_witness :
  exists p db',
    permissionService.deactivate Demo.db "p3"
    = (Returned (success p (Some "Permission deactivated successfully")), db')
    /\ forall q,
         In q (userRoleRepository.getAllUserPermissions db' "u1" None 10)
         <-> In q (userRoleRepository.getAllUserPermissions Demo.db "u1" None 10)
             /\ perm_id q <> "p3".
Proof.
  eexists. eexists. split; [reflexivity|].
  intros q.
  apply (permission_deactivate_withdraws Demo.db _ "p3" _
           (Some "Permission deactivated successfully") eq_refl).
Defined.

(** ** Seeding *)

Lemma grantPermission_Some (db : Database) (data : GrantPermissionInput)
    (now : Z) (newId : string) :
  roleRepository.findById db (grant_roleId data) <> None ->
  permissionRepository.findById db (grant_permissionId data) <> None ->
  exists db', roleRepository.grantPermission db data now newId = Some db'.
Proof.
  intros Hr Hp. unfold roleRepository.grantPermission.
  destruct (find _ (rolePermissions db)); [eauto|].
  destruct (roleRepository.findById db (grant_roleId data)); [|congruence].
  unfold permissionRepository.findById in Hp. unfold permission_of.
  destruct (find _ (permissions db)); [eauto|congruence].
Qed.

Lemma permission_findById_exists (db : Database) (p : PermissionEntity) :
  In p (permissions db) -> permissionRepository.findById db (perm_id p) <> None.
Proof.
  unfold permissionRepository.findById. intros Hin F.
  pose proof (find_none _ _ F p Hin) as H. simpl in H.
  rewrite String.eqb_refl in H. discriminate.
Qed.

Lemma upsertAll_spec (roleId : string) (now : Z) (newId : nat -> string)
    (ps : list PermissionEntity) (st : nat * Database) :
  roleRepository.findById (snd st) roleId <> None ->
  (forall p, In p ps -> permissionRepository.findById (snd st) (perm_id p) <> None) ->
  let st' := seed.upsertAll roleId now newId ps st in
  fst st' = (fst st + length ps)%nat
  /\ (forall rp, In rp (rolePermissions (snd st)) -> In rp (rolePermissions (snd st')))
  /\ (forall p, In p ps ->
        exists rp, In rp (rolePermissions (snd st'))
                   /\ grantKey rp = (roleId, perm_id p))
  /\ (uniqueGrants (snd st) -> uniqueGrants (snd st'))
  /\ permissions (snd st') = permissions (snd st)
  /\ roles (snd st') = roles (snd st)
  /\ userRoles (snd st') = userRoles (snd st).
Proof.
  revert st. induction ps as [|p ps IH]; intros st Hrole Hperm; cbn zeta.
  - simpl. rewrite Nat.add_0_r. split; [reflexivity|]. split; [auto|].
    split; [intros p []|]. auto.
  - unfold seed.upsertAll in *. cbn [fold_left].
    set (data := {| grant_roleId := roleId; grant_permissionId := perm_id p;
                    grant_grantedById := None |}).
    assert (Hp0 : permissionRepository.findById (snd st) (grant_permissionId data)
                  <> None) by (apply Hperm; simpl; auto).
    destruct (grantPermission_Some (snd st) data now (newId (fst st)) Hrole Hp0)
      as (db1 & G).
    rewrite G.
    destruct (grantPermission_row (snd st) db1 data now (newId (fst st)) G)
      as ((rp & Hin & Hk) & Hkeep1 & Hp1 & Hr1 & Ha1).
    assert (Hrole1 : roleRepository.findById (snd (S (fst st), db1)) roleId <> None).
    { cbn [snd]. unfold roleRepository.findById in *. rewrite Hr1. exact Hrole. }
    assert (Hperm1 : forall q, In q ps ->
              permissionRepository.findById (snd (S (fst st), db1)) (perm_id q)
              <> None).
    { intros q Hq. cbn [snd]. unfold permissionRepository.findById in *.
      rewrite Hp1. apply Hperm. simpl. auto. }
    specialize (IH (S (fst st), db1) Hrole1 Hperm1). cbn zeta in IH.
    cbn [fst snd] in IH.
    destruct IH as (Hc & Hkeep & Hall & Hu & Hp & Hr & Ha).
    split; [rewrite Hc; simpl; lia|].
    split; [intros rp0 H0; apply Hkeep; apply Hkeep1; exact H0|].
    split; [|split; [|split; [|split]]].
    + intros q [<-|Hq]; [|apply Hall; exact Hq].
      exists rp. split; [apply Hkeep; exact Hin|exact Hk].
    + intros Hu0. apply Hu.
      destruct (grantPermission_one_row (snd st) data now (newId (fst st))
                  Hu0 Hrole Hp0) as (db2 & G2 & Hu2 & _).
      rewrite G in G2. injection G2 as <-. exact Hu2.
    + rewrite Hp. exact Hp1.
    + rewrite Hr. exact Hr1.
    + rewrite Ha. exact Ha1.
Qed.

Lemma upsertAll_nothing (roleId : string) (now : Z) (newId : nat -> string)
    (ps : list PermissionEntity) (st : nat * Database) :
  (forall p, In p ps ->
     exists rp, In rp (rolePermissions (snd st)) /\ grantKey rp = (roleId, perm_id p)) ->
  seed.upsertAll roleId now newId ps st = ((fst st + length ps)%nat, snd st).
Proof.
  revert st. induction ps as [|p ps IH]; intros st H.
  - simpl. rewrite Nat.add_0_r. destruct st. reflexivity.
  - unfold seed.upsertAll in *. cbn [fold_left].
    destruct (H p) as (rp & Hin & Hk); [simpl; auto|].
    rewrite (grantPermission_existing (snd st)
               {| grant_roleId := roleId; grant_permissionId := perm_id p;
                  grant_grantedById := None |} now (newId (fst st)) rp Hin Hk).
    rewrite (IH (S (fst st), snd st)); [|intros q Hq; apply H; simpl; auto].
    simpl. f_equal. lia.
Qed.

Lemma resolvedPairs_ext (db1 db2 : Database) (table : list (string * list string)) :
  permissions db1 = permissions db2 -> roles db1 = roles db2 ->
  resolvedPairs db1 table = resolvedPairs db2 table.
Proof.
  unfold resolvedPairs, roleRepository.findByCode. intros -> ->. reflexivity.
Qed.

Lemma assignAll_spec (now : Z) (newId : nat -> string)
    (table : list (string * list string)) (st : nat * Database) :
  let st' := seed.assignAll now newId table st in
  fst st' = (fst st + length (resolvedPairs (snd st) table))%nat
  /\ (forall rp, In rp (rolePermissions (snd st)) -> In rp (rolePermissions (snd st')))
  /\ (forall pair, In pair (resolvedPairs (snd st) table) ->
        exists rp, In rp (rolePermissions (snd st')) /\ grantKey rp = pair)
  /\ (uniqueGrants (snd st) -> uniqueGrants (snd st'))
  /\ permissions (snd st') = permissions (snd st)
  /\ roles (snd st') = roles (snd st)
  /\ userRoles (snd st') = userRoles (snd st).
Proof.
  revert st. induction table as [|e table IH]; intros st; cbn zeta.
  - simpl. rewrite Nat.add_0_r. split; [reflexivity|]. split; [auto|].
    split; [intros pair []|]. auto.
  - unfold seed.assignAll in *. cbn [fold_left].
    unfold resolvedPairs. cbn [flat_map]. fold (resolvedPairs (snd st) table).
    destruct (roleRepository.findByCode (snd st) (fst e)) as [role|] eqn:F.
    + assert (Hrole : roleRepository.findById (snd st) (role_id role) <> None).
      { unfold roleRepository.findByCode in F. apply find_some in F.
        apply (role_findById_exists (snd st) role); [tauto|reflexivity]. }
      assert (Hperm : forall p,
                In p (filter (seed.code_in (snd e)) (permissions (snd st))) ->
                permissionRepository.findById (snd st) (perm_id p) <> None).
      { intros p Hp. apply filter_In in Hp. apply permission_findById_exists. tauto. }
      pose proof (upsertAll_spec (role_id role) now newId
                    (filter (seed.code_in (snd e)) (permissions (snd st))) st
                    Hrole Hperm) as H1.
      cbn zeta in H1.
      set (st1 := seed.upsertAll (role_id role) now newId
                    (filter (seed.code_in (snd e)) (permissions (snd st))) st) in *.
      destruct H1 as (Hc1 & Hkeep1 & Hall1 & Hu1 & Hp1 & Hr1 & Ha1).
      specialize (IH st1). cbn zeta in IH.
      rewrite (resolvedPairs_ext (snd st1) (snd st) table Hp1 Hr1) in IH.
      destruct IH as (Hc & Hkeep & Hall & Hu & Hp & Hr & Ha).
      split; [rewrite Hc, Hc1, length_app, length_map; lia|].
      split; [intros rp H0; apply Hkeep; apply Hkeep1; exact H0|].
      split; [|split; [|split; [|split]]].
      * intros pair Hin. apply in_app_or in Hin. destruct Hin as [Hin|Hin].
        -- apply in_map_iff in Hin. destruct Hin as (p & <- & Hp0).
           destruct (Hall1 p Hp0) as (rp & Hrp & Hk).
           exists rp. split; [apply Hkeep; exact Hrp|exact Hk].
        -- apply Hall. exact Hin.
      * intros Hu0. apply Hu. apply Hu1. exact Hu0.
      * rewrite Hp. exact Hp1.
      * rewrite Hr. exact Hr1.
      * rewrite Ha. exact Ha1.
    + specialize (IH st). cbn zeta in IH. simpl app. exact IH.
Qed.

Lemma resolvedPairs_cons (db : Database) (e : string * list string)
    (table : list (string * list string)) :
  resolvedPairs db (e :: table)
  = match roleRepository.findByCode db (fst e) with
    | None => []
    | Some role =>
        map (fun p => (role_id role, perm_id p))
            (filter (seed.code_in (snd e)) (permissions db))
    end ++ resolvedPairs db table.
Proof. reflexivity. Qed.

Lemma assignAll_nothing (now : Z) (newId : nat -> string)
    (table : list (string * list string)) (st : nat * Database) :
  (forall pair, In pair (resolvedPairs (snd st) table) ->
     exists rp, In rp (rolePermissions (snd st)) /\ grantKey rp = pair) ->
  seed.assignAll now newId table st
  = ((fst st + length (resolvedPairs (snd st) table))%nat, snd st).
Proof.
  revert st. induction table as [|e table IH]; intros st H.
  - simpl. rewrite Nat.add_0_r. destruct st. reflexivity.
  - rewrite resolvedPairs_cons in *.
    change (seed.assignAll now newId (e :: table) st)
      with (seed.assignAll now newId table
              match roleRepository.findByCode (snd st) (fst e) with
              | None => st
              | Some role =>
                  seed.upsertAll (role_id role) now newId
                    (filter (seed.code_in (snd e)) (permissions (snd st))) st
              end).
    destruct (roleRepository.findByCode (snd st) (fst e)) as [role|] eqn:F.
    + rewrite upsertAll_nothing.
      * rewrite IH.
        -- cbn [fst snd]. rewrite length_app, length_map, Nat.add_assoc.
           reflexivity.
        -- cbn [fst snd]. intros pair Hin. apply H. apply in_or_app. right.
           exact Hin.
      * intros p Hp. apply H. apply in_or_app. left.
        apply (in_map (fun p => (role_id role, perm_id p))). exact Hp.
    + apply IH. exact H.
Qed.

Lemma role_findByCode_kept (db db' : Database) (added : list RoleEntity)
    (code : string) :
  roles db' = roles db ++ added ->
  roleRepository.findByCode db code <> None ->
  roleRepository.findByCode db' code <> None.
Proof.
  unfold roleRepository.findByCode. intros -> F. rewrite find_append.
  destruct (find _ (roles db)); [discriminate|congruence].
Qed.

Lemma role_create_plain (db : Database) (data : CreateRoleInput) (newId : string) :
  cri_parentRoleId data = None ->
  int4 (match cri_level data with Some level => level | None => 0 end) = true ->
  roleService.create db data newId
  = match roleRepository.findByCode db (cri_code data) with
    | Some _ => (Returned (error "Role code already exists" "ROLE_CODE_EXISTS"), db)
    | None =>
        (Returned (success (roleRepository.row data newId)
                     (Some "Role created successfully")),
         roleRepository.with_roles db (roles db ++ [roleRepository.row data newId]))
    end.
Proof.
  intros E L. unfold roleService.create, roleRepository.create.
  destruct (roleRepository.findByCode db (cri_code data)); [reflexivity|].
  assert (L' : int4 (role_level (roleRepository.row data newId)) = true) by exact L.
  rewrite E, L'. reflexivity.
Qed.

Lemma createRoles_spec (newId : nat -> string) (rs : list (nat * CreateRoleInput))
    (n : nat) (db : Database) :
  (forall ir, In ir rs ->
     cri_parentRoleId (snd ir) = None
     /\ int4 (match cri_level (snd ir) with Some level => level | None => 0 end) = true) ->
  exists added db',
    seed.createRoles newId rs n db = (Returned (n + length added)%nat, db')
    /\ roles db' = roles db ++ added
    /\ (length added <= length rs)%nat
    /\ (forall ir, In ir rs ->
          roleRepository.findByCode db' (cri_code (snd ir)) <> None)
    /\ permissions db' = permissions db
    /\ rolePermissions db' = rolePermissions db
    /\ userRoles db' = userRoles db.
Proof.
  revert n db. induction rs as [|ir rs IH]; intros n db Hpar.
  - exists [], db. simpl. rewrite Nat.add_0_r, app_nil_r.
    split; [reflexivity|]. split; [reflexivity|]. split; [lia|].
    split; [intros ir []|auto].
  - cbn [seed.createRoles].
    rewrite (role_create_plain db (snd ir) (newId (fst ir)));
      [|apply Hpar; simpl; auto|apply Hpar; simpl; auto].
    assert (Hpar' : forall ir', In ir' rs ->
              cri_parentRoleId (snd ir') = None
              /\ int4 (match cri_level (snd ir') with Some level => level | None => 0 end) = true)
      by (intros ir' H; apply Hpar; simpl; auto).
    destruct (roleRepository.findByCode db (cri_code (snd ir))) as [q|] eqn:C.
    + destruct (IH n db Hpar') as (added & db' & He & Hr & Hl & Hcov & Hp & Hg & Hu).
      exists added, db'. split; [exact He|]. split; [exact Hr|].
      split; [simpl; lia|]. split; [|auto].
      intros ir' [<-|Hin]; [|apply Hcov; exact Hin].
      apply (role_findByCode_kept db db' added); [exact Hr|congruence].
    + set (row := roleRepository.row (snd ir) (newId (fst ir))) in *.
      destruct (IH (S n) (roleRepository.with_roles db (roles db ++ [row])) Hpar')
        as (added & db' & He & Hr & Hl & Hcov & Hp & Hg & Hu).
      simpl in Hr, Hp, Hg, Hu.
      exists (row :: added), db'.
      split; [rewrite He; simpl; rewrite Nat.add_succ_r; reflexivity|].
      split; [rewrite Hr, <- app_assoc; reflexivity|].
      split; [simpl; lia|]. split; [|auto].
      intros ir' [<-|Hin]; [|apply Hcov; exact Hin].
      apply (role_findByCode_kept
               (roleRepository.with_roles db (roles db ++ [row])) db' added);
        [exact Hr|].
      unfold roleRepository.findByCode in *. simpl.
      rewrite find_append, C. simpl. unfold row at 1. simpl.
      rewrite String.eqb_refl. discriminate.
Qed.

Lemma createRoles_nothing (newId : nat -> string) (rs : list (nat * CreateRoleInput))
    (n : nat) (db : Database) :
  (forall ir, In ir rs ->
     roleRepository.findByCode db (cri_code (snd ir)) <> None) ->
  seed.createRoles newId rs n db = (Returned n, db).
Proof.
  induction rs as [|ir rs IH]; intros H; [reflexivity|].
  cbn [seed.createRoles]. unfold roleService.create.
  destruct (roleRepository.findByCode db (cri_code (snd ir))) eqn:C.
  - apply IH. intros ir' Hin. apply H. simpl. auto.
  - exfalso. apply (H ir); simpl; auto.
Qed.

Lemma default_roles_plain (role : CreateRoleInput) :
  In role seed.DEFAULT_ROLES ->
  cri_parentRoleId role = None
  /\ int4 (match cri_level role with Some level => level | None => 0 end) = true.
Proof.
  intros H. unfold seed.DEFAULT_ROLES in H. simpl in H.
  repeat (destruct H as [<-|H]; [split; reflexivity|]). destruct H.
Qed.

Lemma seed_run (ps : list CreatePermissionInput) (rs : list CreateRoleInput)
    (db : Database) (newPermissionId newRoleId newPermissionId' newRoleId' : nat -> string) :
  (forall role, In role rs ->
     cri_parentRoleId role = None
     /\ int4 (match cri_level role with Some level => level | None => 0 end) = true) ->
  let run := fun (db : Database) (newPermissionId newRoleId : nat -> string) =>
    match seed.createRoles newRoleId (indexed rs) 0
            (snd (permissionService.createMany db ps newPermissionId)) with
    | (Returned rolesCreated, db') =>
        (Returned (fst (permissionService.createMany db ps newPermissionId),
                   rolesCreated), db')
    | (Rejected, db') => (Rejected, db')
    end in
  let seeded := run db newPermissionId newRoleId in
  (exists permissionsCreated rolesCreated,
      fst seeded = Returned (permissionsCreated, rolesCreated)
      /\ (permissionsCreated <= length ps)%nat
      /\ (rolesCreated <= length rs)%nat)
  /\ (forall input, In input ps ->
        permissionRepository.findByCode (snd seeded) (cpi_code input) <> None)
  /\ (forall role, In role rs ->
        roleRepository.findByCode (snd seeded) (cri_code role) <> None)
  /\ rolePermissions (snd seeded) = rolePermissions db
  /\ userRoles (snd seeded) = userRoles db
  /\ run (snd seeded) newPermissionId' newRoleId'
     = (Returned (0%nat, 0%nat), snd seeded).
Proof.
  intros Hroles. cbn zeta.
  pose proof (createMany_loop newPermissionId (indexed ps) (0%nat, db)) as HP.
  cbn zeta in HP.
  unfold permissionService.createMany, permissionRepository.createMany.
  set (st1 := fold_left _ (indexed ps) (0%nat, db)) in *.
  destruct HP as ((addedP & HpP & HcP & HlP) & HcovP & _ & HrP & HgP & HuP).
  cbn [fst snd] in HpP, HcP, HrP, HgP, HuP.
  assert (Hplain : forall ir, In ir (indexed rs) ->
            cri_parentRoleId (snd ir) = None
            /\ int4 (match cri_level (snd ir) with Some level => level | None => 0 end) = true).
  { intros ir Hin. apply Hroles.
    rewrite <- (indexed_snd rs). apply in_map. exact Hin. }
  destruct (createRoles_spec newRoleId (indexed rs) 0 (snd st1) Hplain)
    as (addedR & db2 & He & Hr & Hl & Hcov & Hp & Hg & Hu).
  rewrite He. cbn [fst snd].
  assert (HallP : forall input, In input ps ->
            permissionRepository.findByCode db2 (cpi_code input) <> None).
  { intros input Hin. unfold permissionRepository.findByCode. rewrite Hp.
    rewrite <- (indexed_snd ps) in Hin.
    apply in_map_iff in Hin. destruct Hin as (ip & <- & Hin).
    apply HcovP. exact Hin. }
  assert (HallR : forall role, In role rs ->
            roleRepository.findByCode db2 (cri_code role) <> None).
  { intros role Hin. rewrite <- (indexed_snd rs) in Hin.
    apply in_map_iff in Hin. destruct Hin as (ir & <- & Hin).
    apply Hcov. exact Hin. }
  split; [|split; [exact HallP|split; [exact HallR|split; [|split]]]].
  - exists (fst st1), (length addedR)%nat. split; [reflexivity|].
    rewrite indexed_length in HlP. rewrite indexed_length in Hl.
    split; [rewrite HcP; exact HlP|exact Hl].
  - rewrite Hg. exact HgP.
  - rewrite Hu. exact HuP.
  - rewrite (createMany_loop_nothing newPermissionId' (indexed ps) (0%nat, db2)).
    + cbn [fst snd]. rewrite createRoles_nothing; [reflexivity|].
      intros ir Hin. apply HallR. rewrite <- (indexed_snd rs).
      apply in_map. exact Hin.
    + intros ip Hin. cbn [snd]. apply HallP.
      rewrite <- (indexed_snd ps). apply in_map. exact Hin.
Qed.

Lemma assign_run (table : list (string * list string)) (db : Database)
    (now now' : Z) (newId newId' : nat -> string) :
  let assigned := seed.assignAll now newId table (0%nat, db) in
  fst assigned = length (resolvedPairs db table)
  /\ (forall pair, In pair (resolvedPairs db table) ->
        exists rp, In rp (rolePermissions (snd assigned)) /\ grantKey rp = pair)
  /\ (forall rp, In rp (rolePermissions db) ->
                 In rp (rolePermissions (snd assigned)))
  /\ (uniqueGrants db -> uniqueGrants (snd assigned))
  /\ permissions (snd assigned) = permissions db
  /\ roles (snd assigned) = roles db
  /\ userRoles (snd assigned) = userRoles db
  /\ seed.assignAll now' newId' table (0%nat, snd assigned)
     = (fst assigned, snd assigned).
Proof.
  pose proof (assignAll_spec now newId table (0%nat, db)) as H.
  cbn zeta in *.
  set (st' := seed.assignAll now newId table (0%nat, db)) in *.
  cbn [fst snd] in H.
  destruct H as (Hc & Hkeep & Hall & Hu & Hp & Hr & Ha).
  split; [exact Hc|]. split; [exact Hall|]. split; [exact Hkeep|].
  split; [exact Hu|]. split; [exact Hp|]. split; [exact Hr|]. split; [exact Ha|].
  rewrite assignAll_nothing.
  - cbn [fst snd]. rewrite (resolvedPairs_ext (snd st') db _ Hp Hr), Hc.
    reflexivity.
  - cbn [fst snd]. rewrite (resolvedPairs_ext (snd st') db _ Hp Hr). exact Hall.
Qed.

(** X30.  Seeding can be repeated.  [seedPermissions] never throws;
    afterwards every default permission code is in the catalog and every
    default role code is a role, the grants and assignments are
    untouched, and a second run creates nothing and reports zero twice.
    [assignDefaultRolePermissions] grants to each default role the store
    has the permissions of its list the catalog has, keeps the grants
    that were there and grants no pair twice; what it returns is the
    number of pairs it resolved, granted before or not, so that a second
    run leaves the store as it is and returns the same number. *)
Theorem seeding_twice (db : Database)
    (newPermissionId newRoleId newPermissionId' newRoleId' : nat -> string)
    (now now' : Z) (newId newId' : nat -> string) :
  (let seeded := seed.seedPermissions db newPermissionId newRoleId in
   (exists permissionsCreated rolesCreated,
       fst seeded = Returned (permissionsCreated, rolesCreated)
       /\ (permissionsCreated <= length seed.DEFAULT_PERMISSIONS)%nat
       /\ (rolesCreated <= length seed.DEFAULT_ROLES)%nat)
   /\ (forall input, In input seed.DEFAULT_PERMISSIONS ->
         permissionRepository.findByCode (snd seeded) (cpi_code input) <> None)
   /\ (forall role, In role seed.DEFAULT_ROLES ->
         roleRepository.findByCode (snd seeded) (cri_code role) <> None)
   /\ rolePermissions (snd seeded) = rolePermissions db
   /\ userRoles (snd seeded) = userRoles db
   /\ seed.seedPermissions (snd seeded) newPermissionId' newRoleId'
      = (Returned (0%nat, 0%nat), snd seeded))
  /\ (let assigned := seed.assignDefaultRolePermissions db now newId in
      fst assigned = length (resolvedPairs db seed.ROLE_PERMISSIONS)
      /\ (forall pair, In pair (resolvedPairs db seed.ROLE_PERMISSIONS) ->
            exists rp, In rp (rolePermissions (snd assigned)) /\ grantKey rp = pair)
      /\ (forall rp, In rp (rolePermissions db) ->
                     In rp (rolePermissions (snd assigned)))
      /\ (uniqueGrants db -> uniqueGrants (snd assigned))
      /\ permissions (snd assigned) = permissions db
      /\ roles (snd assigned) = roles db
      /\ userRoles (snd assigned) = userRoles db
      /\ seed.assignDefaultRolePermissions (snd assigned) now' newId'
         = (fst assigned, snd assigned)).
Proof.
  split.
  - exact (seed_run seed.DEFAULT_PERMISSIONS seed.DEFAULT_ROLES db
             newPermissionId newRoleId newPermissionId' newRoleId'
             default_roles_plain).
  - exact (assign_run seed.ROLE_PERMISSIONS db now now' newId newId').
Qed.

Lemma seeding_twice_witness :
  seed.seedPermissions (snd (seed.seedPermissions Demo.db fresh fresh)) fresh fresh
  = (Returned (0%nat, 0%nat), snd (seed.seedPermissions Demo.db fresh fresh)).
Proof.
  exact (proj2 (proj2 (proj2 (proj2 (proj2
           (proj1 (seeding_twice Demo.db fresh fresh fresh fresh 0 0 fresh fresh))))))).
Defined.
